(** * OptionsListUtils: a shallow embedding of src/libs/OptionsListUtils.js

    The module builds the option lists shown by the chat sidebar, the search
    page and the new-chat and invite pickers.  The embedding follows the
    JavaScript source function by function and keeps its names.

    Modelling conventions.
    - A JavaScript string is a [string] (a sequence of 8-bit characters);
      [toLowerCase], [trim] and the case-insensitive regular expression act
      on the ASCII letters and the ASCII white space.
    - A plain object used as a dictionary is a [gmap] when only lookups
      matter, and the list of its own properties, in the order in which
      the object lists them (array indices first), when the code iterates
      over it.  An assignment to the name [__proto__] creates no property.
      A read finds the properties of the object's own: the names that
      [Object.prototype] provides ([Js.inheritedName]) are left out by the
      properties that depend on what such a read returns.
    - [null] and [undefined] are [None].
    - A property read on [undefined] throws: functions that can reach one
      return in the error monad [Res].
    - Numbers (timestamps, amounts, identifiers) are integers of [Z]. *)

From Stdlib Require Import ZArith List Bool Ascii String Lia.
From Stdlib Require Import Sorting.Sorted Sorting.Permutation DecimalString.
From stdpp Require Import gmap strings list.

Local Open Scope Z_scope.

(** ** Errors *)

Inductive JsError : Type :=
  | TypeError (reading : string).

Inductive Res (A : Type) : Type :=
  | OK (a : A)
  | Throw (e : JsError).

Arguments OK {A} a.
Arguments Throw {A} e.

Definition bind {A B : Type} (r : Res A) (k : A -> Res B) : Res B :=
  match r with
  | OK a => k a
  | Throw e => Throw e
  end.

Notation "'let*' x ':=' r 'in' k" := (bind r (fun x => k))
  (at level 10, x pattern, r at level 100, k at level 200).

(** [mapM f l] runs [f] on the elements from left to right and stops at the
    first exception, like [_.map] with a callback that throws. *)
Fixpoint mapM {A B : Type} (f : A -> Res B) (l : list A) : Res (list B) :=
  match l with
  | [] => OK []
  | x :: rest =>
      let* y := f x in
      let* ys := mapM f rest in
      OK (y :: ys)
  end.

(** ** Strings *)

Module Js.

Definition lowerChar (c : ascii) : ascii :=
  let n := N_of_ascii c in
  if ((65 <=? n) && (n <=? 90))%N then ascii_of_N (n + 32) else c.

(** [s.toLowerCase()] *)
Fixpoint toLowerCase (s : string) : string :=
  match s with
  | EmptyString => EmptyString
  | String c rest => String (lowerChar c) (toLowerCase rest)
  end.

(** [s.replace(/c/g, '')] for a one-character pattern. *)
Fixpoint removeChar (c : ascii) (s : string) : string :=
  match s with
  | EmptyString => EmptyString
  | String d rest =>
      if Ascii.eqb d c then removeChar c rest else String d (removeChar c rest)
  end.

(** [s.replace(/c/g, d)] for a one-character pattern. *)
Fixpoint replaceChar (c d : ascii) (s : string) : string :=
  match s with
  | EmptyString => EmptyString
  | String e rest =>
      String (if Ascii.eqb e c then d else e) (replaceChar c d rest)
  end.

(** [s.split(c)] for a one-character separator: never empty, and
    consecutive separators give empty pieces. *)
Fixpoint split (c : ascii) (s : string) : list string :=
  match s with
  | EmptyString => [EmptyString]
  | String d rest =>
      if Ascii.eqb d c then EmptyString :: split c rest
      else match split c rest with
           | [] => [String d EmptyString]
           | w :: ws => String d w :: ws
           end
  end.

(** [s.split('')]: one string per character. *)
Fixpoint splitChars (s : string) : list string :=
  match s with
  | EmptyString => []
  | String d rest => String d EmptyString :: splitChars rest
  end.

(** [l.join(sep)] *)
Fixpoint join (sep : string) (l : list string) : string :=
  match l with
  | [] => EmptyString
  | [w] => w
  | w :: ws => w +:+ sep +:+ join sep ws
  end.

Fixpoint trimStart (s : string) : string :=
  match s with
  | EmptyString => EmptyString
  | String c rest => if Ascii.is_space c then trimStart rest else s
  end.

Fixpoint trimEnd (s : string) : string :=
  match s with
  | EmptyString => EmptyString
  | String c rest =>
      match trimEnd rest with
      | EmptyString => if Ascii.is_space c then EmptyString else String c EmptyString
      | t => String c t
      end
  end.

(** [s.trim()] *)
Definition trim (s : string) : string := trimEnd (trimStart s).

Fixpoint startsWith (p s : string) : bool :=
  match p, s with
  | EmptyString, _ => true
  | String a p', String b s' => Ascii.eqb a b && startsWith p' s'
  | String _ _, EmptyString => false
  end.

Fixpoint dropChars (n : nat) (s : string) : string :=
  match n, s with
  | O, _ => s
  | S n', String _ rest => dropChars n' rest
  | S _, EmptyString => EmptyString
  end.

(** [s.includes(p)] *)
Fixpoint includes (p s : string) : bool :=
  startsWith p s ||
  match s with
  | EmptyString => false
  | String _ rest => includes p rest
  end.

(** [s.replace(new RegExp(p, 'g'), '')] for a literal, non-empty pattern:
    one scan from the left, a match is dropped and the scan resumes
    after it. The recursion is on the fuel [n], which [removeAll] takes as
    the length of the string plus one. *)
Fixpoint removeAllFuel (n : nat) (p s : string) : string :=
  match n with
  | O => s
  | S n' =>
      match s with
      | EmptyString => EmptyString
      | String c rest =>
          if startsWith p s
          then removeAllFuel n' p (dropChars (String.length p) s)
          else String c (removeAllFuel n' p rest)
      end
  end.

Definition removeAll (p s : string) : string :=
  removeAllFuel (S (String.length s)) p s.

(** [new RegExp(Str.escapeForRegExp(word), 'i').test(value)]: the escaped
    pattern matches the characters of [word] literally, and the flag [i]
    ignores the case. *)
Definition testIgnoreCase (word value : string) : bool :=
  includes (toLowerCase word) (toLowerCase value).

(** [String(n)] *)
Definition ofZ (n : Z) : string := NilZero.string_of_int (Z.to_int n).

(** JavaScript truthiness of a string that may be missing. *)
Definition truthy (s : option string) : bool :=
  match s with
  | Some (String _ _) => true
  | _ => false
  end.

Definition nonEmpty (s : string) : bool :=
  match s with
  | EmptyString => false
  | String _ _ => true
  end.

(** *** Property names *)

Definition digitValue (c : ascii) : option N :=
  let n := N_of_ascii c in
  if ((48 <=? n) && (n <=? 57))%N then Some (n - 48)%N else None.

Fixpoint numeral (s : string) (value : N) : option N :=
  match s with
  | EmptyString => Some value
  | String c rest =>
      match digitValue c with
      | Some d => numeral rest (10 * value + d)%N
      | None => None
      end
  end.

(** The array index that a property name denotes, if any: a decimal
    numeral without sign or leading zero, below [2^32 - 1]. *)
Definition arrayIndex (name : string) : option N :=
  match name with
  | EmptyString => None
  | String "0" EmptyString => Some 0%N
  | String "0" _ => None
  | _ =>
      match numeral name 0 with
      | Some n => if (n <? 4294967295)%N then Some n else None
      | None => None
      end
  end.

Definition isArrayIndex (name : string) : bool :=
  match arrayIndex name with
  | Some _ => true
  | None => false
  end.

(** The order in which an object lists its own keys: the array indices
    first, ascending, then the other names in the order of their creation.
    [listedBefore new old] tells whether a key that is created now comes
    before a key that the object has already. *)
Definition listedBefore (new old : string) : bool :=
  match arrayIndex new, arrayIndex old with
  | Some i, Some j => (i <? j)%N
  | Some _, None => true
  | None, _ => false
  end.

(** [keyOrder a b]: the key [a] may be listed before the key [b]. *)
Definition keyOrder (a b : string) : Prop :=
  match arrayIndex a, arrayIndex b with
  | Some i, Some j => (i <= j)%N
  | Some _, None => True
  | None, Some _ => False
  | None, None => True
  end.

(** The names that every plain object inherits from [Object.prototype].
    Reading such a name on an object that has no property of its own under
    it gives a function (or, for [__proto__], the prototype), not
    [undefined]. *)
Definition inheritedNames : list string :=
  ["constructor"; "__proto__"; "hasOwnProperty"; "isPrototypeOf";
   "propertyIsEnumerable"; "toLocaleString"; "toString"; "valueOf";
   "__defineGetter__"; "__defineSetter__"; "__lookupGetter__";
   "__lookupSetter__"].

Definition inheritedName (name : string) : bool :=
  existsb (String.eqb name) inheritedNames.

End Js.

(** ** Data model *)

Module PersonalDetail.
Record t : Type := mk {
  login : string;
  displayName : string;
  firstName : string;
  lastName : string;
  avatar : string;
  phoneNumber : option string;
  payPalMeAddress : option string;
}.
End PersonalDetail.

Module Policy.
Record t : Type := mk {
  name : string;
  type : string;
}.
End Policy.

Module IOUReport.
Record t : Type := mk {
  ownerEmail : string;
  total : Z;
}.
End IOUReport.

Module ReportAction.
Record t : Type := mk {
  errors : list (string * string);
  reason : option string;   (* originalMessage.reason *)
}.
End ReportAction.

Module Report.
Record t : Type := mk {
  reportID : option Z;
  participants : list string;          (* [report.participants || []] *)
  reportName : string;
  lastMessageTimestamp : Z;
  lastVisitedTimestamp : Z;
  lastMessageText : string;
  lastMessageHtml : string;
  lastActorEmail : string;
  ownerEmail : option string;
  unreadActionCount : Z;
  hasDraft : bool;
  isPinned : bool;
  hasOutstandingIOU : bool;
  iouReportID : option Z;
  isOwnPolicyExpenseChat : bool;
  errors : list (string * string);
  errorFields : list (string * list (string * string));
  (* the kind of the chat, which only ReportUtils reads *)
  chatRoomKind : bool;
  defaultRoomKind : bool;
  userCreatedPolicyRoomKind : bool;
  policyExpenseChatKind : bool;
  archived : bool;
  policyID : string;
}.
End Report.

(** The option record that [createOption] fills in.  It has no
    [isDefaultRoom] property. *)
Module Option.
Record t : Type := mk {
  text : string;
  alternateText : option string;
  brickRoadIndicator : option string;
  icons : list string;
  tooltipText : option string;
  ownerEmail : option string;
  subtitle : option string;
  participantsList : list PersonalDetail.t;
  login : option string;
  reportID : option Z;
  phoneNumber : option string;
  payPalMeAddress : option string;
  isUnread : option bool;
  hasDraftComment : bool;
  keyForList : string;
  searchText : string;
  isPinned : bool;
  hasOutstandingIOU : bool;
  iouReportID : option Z;
  isIOUReportOwner : option bool;
  iouReportAmount : Z;
  isChatRoom : bool;
  isArchivedRoom : bool;
  shouldShowSubscript : bool;
  isPolicyExpenseChat : bool;
}.

(** [option.isDefaultRoom]: reading a property that the record does not
    have gives [undefined], which is falsy. *)
Definition isDefaultRoom (o : t) : bool := false.

Definition withIcons (o : t) (i : list string) : t :=
  mk (text o) (alternateText o) (brickRoadIndicator o) i (tooltipText o)
     (ownerEmail o) (subtitle o) (participantsList o) (login o) (reportID o)
     (phoneNumber o) (payPalMeAddress o) (isUnread o) (hasDraftComment o)
     (keyForList o) (searchText o) (isPinned o) (hasOutstandingIOU o)
     (iouReportID o) (isIOUReportOwner o) (iouReportAmount o) (isChatRoom o)
     (isArchivedRoom o) (shouldShowSubscript o) (isPolicyExpenseChat o).
End Option.

(** [personalDetails]: an object keyed by login, as the list of its own
    properties in the order in which the object lists them. *)
Abbreviation PersonalDetails := (list (string * PersonalDetail.t)).

(** [m[key]], for a property of the object's own.  A name that [m] has not
    and that [Object.prototype] has ([Js.inheritedName]) reads as a function
    in the code, which is no personal detail: the properties that depend on
    the value read say that they leave such names out. *)
Fixpoint lookupDetail (m : PersonalDetails) (key : string) : option PersonalDetail.t :=
  match m with
  | [] => None
  | (k, v) :: rest => if String.eqb k key then Some v else lookupDetail rest key
  end.

Definition hasDetail (m : PersonalDetails) (key : string) : bool :=
  existsb (fun entry => String.eqb (fst entry) key) m.

(** The value of an existing key changes, its position does not. *)
Fixpoint replaceDetail (m : PersonalDetails) (key : string) (v : PersonalDetail.t)
  : PersonalDetails :=
  match m with
  | [] => []
  | (k, w) :: rest =>
      if String.eqb k key then (k, v) :: rest else (k, w) :: replaceDetail rest key v
  end.

(** A new key goes before the first key that it is listed before: an array
    index among the array indices, any other name at the end. *)
Fixpoint insertDetail (m : PersonalDetails) (key : string) (v : PersonalDetail.t)
  : PersonalDetails :=
  match m with
  | [] => [(key, v)]
  | (k, w) :: rest =>
      if Js.listedBefore key k then (key, v) :: (k, w) :: rest
      else (k, w) :: insertDetail rest key v
  end.

(** [m[key] = v] on an object literal, for a value [v] that is an object.
    The name [__proto__] is the inherited accessor: the assignment sets the
    prototype and the object gets no property of its own. *)
Definition assignDetail (m : PersonalDetails) (key : string) (v : PersonalDetail.t)
  : PersonalDetails :=
  if String.eqb key "__proto__" then m
  else if hasDetail m key then replaceDetail m key v
  else insertDetail m key v.

(** ** Collaborators that are not part of this file *)

Module ReportUtils.
Class api : Type := {
  isChatRoom : Report.t -> bool;
  isDefaultRoom : Report.t -> bool;
  isArchivedRoom : Report.t -> bool;
  isPolicyExpenseChat : Report.t -> bool;
  isUserCreatedPolicyRoom : Report.t -> bool;
  isUnread : Report.t -> bool;
  isReportMessageAttachment : string -> string -> bool;
  hasExpensifyGuidesEmails : list string -> bool;
  getChatRoomSubtitle : Report.t -> gmap string Policy.t -> string;
  getPolicyName : Report.t -> gmap string Policy.t -> string;
  getPolicyType : Report.t -> gmap string Policy.t -> string;
  getReportName :
    option Report.t -> PersonalDetails -> gmap string Policy.t -> string;
  getReportParticipantsTitle : list string -> string;
  getDefaultAvatar : string -> string;
  getIcons :
    option Report.t -> PersonalDetails -> gmap string Policy.t -> string ->
    list string;
}.
End ReportUtils.

Module Permissions.
Class api : Type := {
  canUseChronos : list string -> bool;
  canUseDefaultRooms : list string -> bool;
  canUsePolicyRooms : list string -> bool;
  canUsePolicyExpenseChat : list string -> bool;
}.
End Permissions.

(** expensify-common/lib/str *)
Module Str.
Class api : Type := {
  isValidPhone : string -> bool;
  isValidEmail : string -> bool;
  isDomainEmail : string -> bool;
  removeSMSDomain : string -> string;
  htmlDecode : string -> string;
}.
End Str.

Module Localize.
Class api : Type := {
  translate : string -> string -> list (string * string) -> string;
  translateLocal : string -> string;
}.
End Localize.

Module CONST.
Class api : Type := {
  SMS_DOMAIN : string;
  EMAIL_CHRONOS : string;
  POLICY_TYPE_FREE : string;
  BRICK_ROAD_INDICATOR_STATUS_ERROR : string;
  REPORT_ARCHIVE_REASON_DEFAULT : string;
  PRIORITY_MODE_GSD : string;
}.
End CONST.

(** The module-level variables that the Onyx subscriptions keep up to date.
    A variable that no callback has set yet is [None]. *)
Module Onyx.
Record LoginEntry : Type := { partnerUserID : string }.

Record t : Type := mk {
  currentUserLogin : option string;
  loginList : option (list LoginEntry);
  countryCodeByIP : option Z;
  preferredLocale : string;
  policies : gmap string Policy.t;
  iouReports : gmap Z IOUReport.t;         (* keyed by the IOU report id *)
  lastReportActions : gmap Z ReportAction.t;
}.
End Onyx.

(** ** The functions of OptionsListUtils.js *)

Section OptionsListUtils.

Context {RU : ReportUtils.api} {PM : Permissions.api} {ST : Str.api}.
Context {LO : Localize.api} {CO : CONST.api}.
Variable onyx : Onyx.t.

(** Adds the SMS domain if the login is a phone number that lacks it. *)
Definition addSMSDomainIfPhoneNumber (login : string) : string :=
  if Str.isValidPhone login && negb (Str.isValidEmail login) then
    let smsLogin := login +:+ CONST.SMS_DOMAIN in
    if Js.includes "+" smsLogin then smsLogin
    else "+" +:+ from_option Js.ofZ "undefined" (Onyx.countryCodeByIP onyx) +:+ smsLogin
  else login.

(** The personal details of an array of logins, keyed by login; a login
    without personal details gets a placeholder. *)
Definition getPersonalDetailsForLogins
    (logins : list string) (personalDetails : PersonalDetails) : PersonalDetails :=
  fold_left
    (fun personalDetailsForLogins login =>
       let personalDetail :=
         match lookupDetail personalDetails login with
         | Some personalDetail => personalDetail
         | None =>
             PersonalDetail.mk login (Str.removeSMSDomain login) "" ""
               (ReportUtils.getDefaultAvatar login) None None
         end in
       assignDetail personalDetailsForLogins login personalDetail)
    logins [].

(** The set of the lowercased names (login, first, last and display name)
    of the participants. *)
Definition getParticipantNames (personalDetailList : list PersonalDetail.t)
  : gset string :=
  fold_left
    (fun participantNames participant =>
       let s1 :=
         if Js.nonEmpty (PersonalDetail.login participant)
         then participantNames ∪ {[Js.toLowerCase (PersonalDetail.login participant)]}
         else participantNames in
       let s2 :=
         if Js.nonEmpty (PersonalDetail.firstName participant)
         then s1 ∪ {[Js.toLowerCase (PersonalDetail.firstName participant)]}
         else s1 in
       let s3 :=
         if Js.nonEmpty (PersonalDetail.lastName participant)
         then s2 ∪ {[Js.toLowerCase (PersonalDetail.lastName participant)]}
         else s2 in
       if Js.nonEmpty (PersonalDetail.displayName participant)
       then s3 ∪ {[Js.toLowerCase (PersonalDetail.displayName participant)]}
       else s3)
    personalDetailList ∅.

(** [seenItems[item] = 1] on the object literal [seenItems].  The name
    [__proto__] is the accessor that an object literal inherits: its setter
    ignores a value that is not an object, so nothing is stored, and a later
    read of [seenItems['__proto__']] gives the prototype again, never [1].
    Any other name becomes a property of the object, also a name such as
    [constructor], whose inherited value is not [1] either. *)
Definition markSeen (seenItems : gmap string Z) (item : string) : gmap string Z :=
  if String.eqb item "__proto__" then seenItems else <[item := 1]> seenItems.

(** The loop of [uniqFast]: [seenItems] is the object used as a set,
    [result] the array that grows at its end. *)
Fixpoint uniqFastLoop (items : list string) (seenItems : gmap string Z)
    (result : list string) : list string :=
  match items with
  | [] => result
  | item :: rest =>
      if bool_decide (seenItems !! item = Some 1)
      then uniqFastLoop rest seenItems result
      else uniqFastLoop rest (markSeen seenItems item) (result ++ [item])
  end.

Definition uniqFast (items : list string) : list string :=
  uniqFastLoop items ∅ [].

(** The terms that [getSearchText] collects before it removes duplicates. *)
Definition searchTerms (report : option Report.t) (reportName : string)
    (personalDetailList : list PersonalDetail.t)
    (isChatRoomOrPolicyExpenseChat : bool) : list string :=
  let fromParticipants :=
    if negb isChatRoomOrPolicyExpenseChat then
      flat_map
        (fun personalDetail =>
           [PersonalDetail.displayName personalDetail;
            Js.removeChar "." (PersonalDetail.login personalDetail)])
        personalDetailList
    else [] in
  match report with
  | Some r =>
      let withName :=
        fromParticipants ++ Js.splitChars reportName ++ Js.split "," reportName in
      if isChatRoomOrPolicyExpenseChat then
        let chatRoomSubtitle :=
          ReportUtils.getChatRoomSubtitle r (Onyx.policies onyx) in
        withName ++ Js.splitChars chatRoomSubtitle ++ Js.split "," chatRoomSubtitle
      else withName ++ Report.participants r
  | None => fromParticipants
  end.

(** A string with all relevant search terms. *)
Definition getSearchText (report : option Report.t) (reportName : string)
    (personalDetailList : list PersonalDetail.t)
    (isChatRoomOrPolicyExpenseChat : bool) : string :=
  Js.join " "
    (uniqFast
       (searchTerms report reportName personalDetailList isChatRoomOrPolicyExpenseChat)).

(** [reportActions]: the actions of each report, keyed by the report id. *)
Definition getBrickRoadIndicatorStatusForReport (report : Report.t)
    (reportActions : gmap Z (list ReportAction.t)) : string :=
  let reportErrors := Report.errors report in
  let reportErrorFields := Report.errorFields report in
  let reportsActions :=
    match Report.reportID report with
    | Some reportID => default [] (reportActions !! reportID)
    | None => []
    end in
  let hasReportFieldErrors :=
    existsb (fun fieldErrors => negb (Nat.eqb (length (snd fieldErrors)) 0))
      reportErrorFields in
  let hasReportActionErrors :=
    existsb (fun action => negb (Nat.eqb (length (ReportAction.errors action)) 0))
      reportsActions in
  if Nat.eqb (length reportErrors) 0 && negb hasReportFieldErrors
     && negb hasReportActionErrors
  then ""
  else CONST.BRICK_ROAD_INDICATOR_STATUS_ERROR.

(** [iouReports[`${ONYXKEYS.COLLECTION.REPORT_IOUS}${iouReportID}`]] *)
Definition lookupIOUReport (iouReportID : option Z) : option IOUReport.t :=
  match iouReportID with
  | Some i => Onyx.iouReports onyx !! i
  | None => None
  end.

(** [lastReportActions[reportID]] *)
Definition lookupLastAction (reportID : option Z) : option ReportAction.t :=
  match reportID with
  | Some i => Onyx.lastReportActions onyx !! i
  | None => None
  end.

(** Reading the property [name] of [personalDetailList[0]], which is
    [undefined] when the list is empty. *)
Definition readDetail {A : Type} (name : string)
    (personalDetail : option PersonalDetail.t) (get : PersonalDetail.t -> A) : Res A :=
  match personalDetail with
  | Some p => OK (get p)
  | None => Throw (TypeError name)
  end.

(** Creates a report list option. *)
Definition createOption (logins : list string) (personalDetails : PersonalDetails)
    (report : option Report.t) (reportActions : gmap Z (list ReportAction.t))
    (showChatPreviewLine forcePolicyNamePreview : bool) : Res Option.t :=
  let policies := Onyx.policies onyx in
  let personalDetailMap := getPersonalDetailsForLogins logins personalDetails in
  let personalDetailList := map snd personalDetailMap in
  let personalDetail := head personalDetailList in
  let isChatRoom := from_option ReportUtils.isChatRoom false report in
  let isArchivedRoom := from_option ReportUtils.isArchivedRoom false report in
  let isPolicyExpenseChat := from_option ReportUtils.isPolicyExpenseChat false report in
  let hasOutstandingIOU := from_option Report.hasOutstandingIOU false report in
  let hasMultipleParticipants :=
    match report with
    | Some _ => (1 <? length personalDetailList)%nat || isChatRoom || isPolicyExpenseChat
    | None => (1 <? length personalDetailList)%nat
    end in
  let subtitle :=
    option_map (fun r => ReportUtils.getChatRoomSubtitle r policies) report in
  (* if (report) { ... } else { result.keyForList = personalDetail.login } *)
  let* fromReport :=
    match report with
    | Some r =>
        let lastMessageTextFromReport :=
          if ReportUtils.isReportMessageAttachment
               (Report.lastMessageText r) (Report.lastMessageHtml r)
          then "[" +:+ Localize.translateLocal "common.attachment" +:+ "]"
          else Str.htmlDecode (Report.lastMessageText r) in
        let lastActorDetails :=
          lookupDetail personalDetailMap (Report.lastActorEmail r) in
        let lastMessageText0 :=
          match lastActorDetails with
          | Some d =>
              if hasMultipleParticipants
              then PersonalDetail.displayName d +:+ ": " +:+ lastMessageTextFromReport
              else lastMessageTextFromReport
          | None => lastMessageTextFromReport
          end in
        let lastMessageText :=
          if isPolicyExpenseChat && isArchivedRoom then
            let archiveReason :=
              match lookupLastAction (Report.reportID r) with
              | Some action =>
                  match ReportAction.reason action with
                  | Some (String c s) => String c s
                  | _ => CONST.REPORT_ARCHIVE_REASON_DEFAULT
                  end
              | None => CONST.REPORT_ARCHIVE_REASON_DEFAULT
              end in
            Localize.translate (Onyx.preferredLocale onyx)
              ("reportArchiveReasons." +:+ archiveReason)
              [("displayName", Report.lastActorEmail r);
               ("policyName", ReportUtils.getPolicyName r policies)]
          else lastMessageText0 in
        let* alternateText :=
          if isChatRoom || isPolicyExpenseChat then
            OK (if showChatPreviewLine && negb forcePolicyNamePreview
                   && Js.nonEmpty lastMessageText
                then lastMessageText
                else ReportUtils.getChatRoomSubtitle r policies)
          else if showChatPreviewLine && Js.nonEmpty lastMessageText then
            OK lastMessageText
          else
            let* login := readDetail "login" personalDetail PersonalDetail.login in
            OK (Str.removeSMSDomain login) in
        OK (Some alternateText, from_option Js.ofZ "undefined" (Report.reportID r))
    | None =>
        let* login := readDetail "login" personalDetail PersonalDetail.login in
        OK (None, login)
    end in
  let alternateText : option string := fst fromReport in
  let keyForList : string := snd fromReport in
  (* if (result.hasOutstandingIOU) { ... } *)
  let iouReport :=
    match report with
    | Some r => if hasOutstandingIOU then lookupIOUReport (Report.iouReportID r) else None
    | None => None
    end in
  let isIOUReportOwner :=
    option_map
      (fun i => bool_decide (Some (IOUReport.ownerEmail i) = Onyx.currentUserLogin onyx))
      iouReport in
  let iouReportAmount := from_option IOUReport.total 0 iouReport in
  (* if (!hasMultipleParticipants) { ... } *)
  let* single :=
    if negb hasMultipleParticipants then
      let* login := readDetail "login" personalDetail PersonalDetail.login in
      let* phoneNumber :=
        readDetail "phoneNumber" personalDetail PersonalDetail.phoneNumber in
      let* payPalMeAddress :=
        readDetail "payPalMeAddress" personalDetail PersonalDetail.payPalMeAddress in
      OK (Some login, phoneNumber, payPalMeAddress)
    else OK (None, None, None) in
  let login : option string := fst (fst single) in
  let phoneNumber : option string := snd (fst single) in
  let payPalMeAddress : option string := snd single in
  let reportName := ReportUtils.getReportName report personalDetailMap policies in
  let* avatar := readDetail "avatar" personalDetail PersonalDetail.avatar in
  let icons := ReportUtils.getIcons report personalDetails policies avatar in
  let searchText :=
    getSearchText report reportName personalDetailList
      (isChatRoom || isPolicyExpenseChat) in
  OK {|
    Option.text := reportName;
    Option.alternateText := alternateText;
    Option.brickRoadIndicator :=
      option_map (fun r => getBrickRoadIndicatorStatusForReport r reportActions) report;
    Option.icons := icons;
    Option.tooltipText :=
      option_map
        (fun r => ReportUtils.getReportParticipantsTitle (Report.participants r)) report;
    Option.ownerEmail := from_option Report.ownerEmail None report;
    Option.subtitle := subtitle;
    Option.participantsList := personalDetailList;
    Option.login := login;
    Option.reportID := from_option Report.reportID None report;
    Option.phoneNumber := phoneNumber;
    Option.payPalMeAddress := payPalMeAddress;
    Option.isUnread := option_map (fun r => 0 <? Report.unreadActionCount r) report;
    Option.hasDraftComment := from_option Report.hasDraft false report;
    Option.keyForList := keyForList;
    Option.searchText := searchText;
    Option.isPinned := from_option Report.isPinned false report;
    Option.hasOutstandingIOU := hasOutstandingIOU;
    Option.iouReportID := from_option Report.iouReportID None report;
    Option.isIOUReportOwner := isIOUReportOwner;
    Option.iouReportAmount := iouReportAmount;
    Option.isChatRoom := isChatRoom;
    Option.isArchivedRoom := isArchivedRoom;
    Option.shouldShowSubscript :=
      match report with
      | Some r =>
          isPolicyExpenseChat && negb (Report.isOwnPolicyExpenseChat r)
          && negb isArchivedRoom
      | None => false
      end;
    Option.isPolicyExpenseChat := isPolicyExpenseChat;
  |}.

(** The words of a query: dots removed, commas turned into spaces, split
    at the spaces, each word trimmed. *)
Definition searchWords (searchValue : string) : list string :=
  map Js.trim
    (Js.split " " (Js.replaceChar "," " " (Js.removeChar "." searchValue))).

(** Searches for a match when provided with a value. *)
Definition isSearchStringMatch (searchValue searchText : string)
    (participantNames : gset string) (isChatRoom : bool) : bool :=
  forallb
    (fun word =>
       let valueToSearch := Js.removeAll "&nbsp;" searchText in
       Js.testIgnoreCase word valueToSearch
       || (negb isChatRoom && bool_decide (word ∈ participantNames)))
    (searchWords searchValue).

(** The [while] loop of [isCurrentUser]. *)
Fixpoint isCurrentUserLoop (loginList : list Onyx.LoginEntry)
    (userDetailsLogin : string) (result : bool) : bool :=
  if result then true
  else
    match loginList with
    | [] => false
    | entry :: rest =>
        isCurrentUserLoop rest userDetailsLogin
          (String.eqb (Js.toLowerCase (Onyx.partnerUserID entry))
                      (Js.toLowerCase userDetailsLogin))
    end.

(** Whether the given user details (an object with a [login], or [null])
    are those of the current user. *)
Definition isCurrentUser (userDetails : option string) : Res bool :=
  match userDetails with
  | None => OK false
  | Some login =>
      let userDetailsLogin := addSMSDomainIfPhoneNumber login in
      let* currentUserLogin :=
        match Onyx.currentUserLogin onyx with
        | Some l => OK l
        | None => Throw (TypeError "toLowerCase")
        end in
      let result :=
        String.eqb (Js.toLowerCase currentUserLogin) (Js.toLowerCase userDetailsLogin) in
      let* loginList :=
        match Onyx.loginList onyx with
        | Some l => OK l
        | None => Throw (TypeError "length")
        end in
      OK (isCurrentUserLoop loginList userDetailsLogin result)
  end.

End OptionsListUtils.

(** ** Sorting helpers of lodash and underscore *)

(** Both [lodashOrderBy] and [_.sortBy] are stable: elements with equal
    keys keep their relative order.  [stableSort le] is the insertion sort
    that puts an element before the first element of the sorted rest that
    it does not exceed. *)
Fixpoint insertBy {A : Type} (le : A -> A -> bool) (x : A) (l : list A) : list A :=
  match l with
  | [] => [x]
  | y :: rest => if le x y then x :: y :: rest else y :: insertBy le x rest
  end.

Fixpoint stableSort {A : Type} (le : A -> A -> bool) (l : list A) : list A :=
  match l with
  | [] => []
  | x :: rest => insertBy le x (stableSort le rest)
  end.

Inductive Direction : Type := asc | desc.

Definition directed {K : Type} (leK : K -> K -> bool) (d : Direction)
  : K -> K -> bool :=
  match d with
  | asc => leK
  | desc => fun a b => leK b a
  end.

(** [lodashOrderBy(collection, [key], [direction])] for a numeric key and
    for a string key. *)
Definition lodashOrderByZ {A : Type} (l : list A) (key : A -> Z) (d : Direction)
  : list A :=
  stableSort (fun a b => directed Z.leb d (key a) (key b)) l.

Definition lodashOrderByString {A : Type} (l : list A) (key : A -> string)
    (d : Direction) : list A :=
  stableSort (fun a b => directed String.leb d (key a) (key b)) l.

(** [_.sortBy(list, predicate)]: [false] sorts before [true]. *)
Definition underscoreSortByBool {A : Type} (l : list A) (key : A -> bool) : list A :=
  stableSort (fun a b => implb (key a) (key b)) l.

(** ** The configuration of [getOptions] and its result *)

Module Config.
Record t : Type := mk {
  reportActions : gmap Z (list ReportAction.t);
  betas : list string;
  selectedOptions : list Option.t;
  maxRecentReportsToShow : Z;
  excludeLogins : list string;
  excludeChatRooms : bool;
  includeMultipleParticipantReports : bool;
  includePersonalDetails : bool;
  includeRecentReports : bool;
  prioritizePinnedReports : bool;
  prioritizeDefaultRoomsInSearch : bool;
  sortByReportTypeInSearch : bool;
  sortByLastMessageTimestamp : bool;
  searchValue : string;
  showChatPreviewLine : bool;
  showReportsWithNoComments : bool;
  hideReadReports : bool;
  sortByAlphaAsc : bool;
  sortPersonalDetailsByAlphaAsc : bool;
  forcePolicyNamePreview : bool;
  prioritizeIOUDebts : bool;
  prioritizeReportsWithDraftComments : bool;
}.

(** The default values of the destructured parameter. *)
Definition defaults : t := {|
  reportActions := ∅;
  betas := [];
  selectedOptions := [];
  maxRecentReportsToShow := 0;
  excludeLogins := [];
  excludeChatRooms := false;
  includeMultipleParticipantReports := false;
  includePersonalDetails := false;
  includeRecentReports := false;
  prioritizePinnedReports := false;
  prioritizeDefaultRoomsInSearch := false;
  sortByReportTypeInSearch := false;
  sortByLastMessageTimestamp := true;
  searchValue := "";
  showChatPreviewLine := false;
  showReportsWithNoComments := false;
  hideReadReports := false;
  sortByAlphaAsc := false;
  sortPersonalDetailsByAlphaAsc := true;
  forcePolicyNamePreview := false;
  prioritizeIOUDebts := false;
  prioritizeReportsWithDraftComments := false;
|}.
End Config.

(** The arrays that the selection loop of [getOptions] fills. *)
Module Selection.
Record t : Type := mk {
  pinnedReportOptions : list Option.t;
  iouDebtReportOptions : list Option.t;
  draftReportOptions : list Option.t;
  recentReportOptions : list Option.t;
  loginOptionsToExclude : list (option string);
}.

Definition start (loginOptionsToExclude : list (option string)) : t :=
  mk [] [] [] [] loginOptionsToExclude.

(** Every accepted option, whatever its array. *)
Definition accepted (s : t) : list Option.t :=
  pinnedReportOptions s ++ iouDebtReportOptions s ++ draftReportOptions s
  ++ recentReportOptions s.
End Selection.

Module Options.
Record t : Type := mk {
  personalDetails : list Option.t;
  recentReports : list Option.t;
  userToInvite : option Option.t;
}.
End Options.

Section GetOptions.

Context {RU : ReportUtils.api} {PM : Permissions.api} {ST : Str.api}.
Context {LO : Localize.api} {CO : CONST.api}.
Variable onyx : Onyx.t.

(** A report identifier is falsy when it is missing or zero. *)
Definition truthyID (i : option Z) : bool :=
  match i with
  | Some n => negb (n =? 0)
  | None => false
  end.

(** The first two statements of [getOptions]: the requested sort, then the
    archived rooms moved to the end. *)
Definition primarySort (config : Config.t) (reports : list Report.t) : list Report.t :=
  let sortDirection := if Config.sortByAlphaAsc config then asc else desc in
  if Config.sortByAlphaAsc config then
    lodashOrderByString reports Report.reportName sortDirection
  else if Config.sortByLastMessageTimestamp config then
    lodashOrderByZ reports Report.lastMessageTimestamp sortDirection
  else
    lodashOrderByZ reports Report.lastVisitedTimestamp sortDirection.

Definition orderReports (config : Config.t) (reports : list Report.t) : list Report.t :=
  underscoreSortByBool (primarySort config reports) ReportUtils.isArchivedRoom.

(** The early returns of the callback that builds the report options, in
    the order of the source. *)
Definition isReportExcluded (config : Config.t) (activeReportID : Z)
    (report : Report.t) : bool :=
  let isChatRoom := ReportUtils.isChatRoom report in
  let isDefaultRoom := ReportUtils.isDefaultRoom report in
  let isPolicyExpenseChat := ReportUtils.isPolicyExpenseChat report in
  let logins := Report.participants report in
  let shouldFilterNoParticipants :=
    Nat.eqb (length logins) 0 && negb isChatRoom && negb isDefaultRoom
    && negb isPolicyExpenseChat in
  if negb (truthyID (Report.reportID report)) || shouldFilterNoParticipants then true
  else
    let hasDraftComment := Report.hasDraft report in
    let iouReport :=
      if truthyID (Report.iouReportID report)
      then lookupIOUReport onyx (Report.iouReportID report)
      else None in
    let iouReportOwner :=
      match iouReport with
      | Some i => if Report.hasOutstandingIOU report then IOUReport.ownerEmail i else ""
      | None => ""
      end in
    let reportContainsIOUDebt :=
      Js.nonEmpty iouReportOwner
      && negb (bool_decide (Some iouReportOwner = Onyx.currentUserLogin onyx)) in
    let shouldFilterReportIfEmpty :=
      negb (Config.showReportsWithNoComments config)
      && (Report.lastMessageTimestamp report =? 0)
      && negb (negb (ReportUtils.isArchivedRoom report)
               && (isDefaultRoom || isPolicyExpenseChat)) in
    let shouldFilterReportIfRead :=
      Config.hideReadReports config && negb (ReportUtils.isUnread report) in
    let shouldFilterReport := shouldFilterReportIfEmpty || shouldFilterReportIfRead in
    if negb (String.eqb (from_option Js.ofZ "undefined" (Report.reportID report))
                        (Js.ofZ activeReportID))
       && negb (Report.isPinned report)
       && negb hasDraftComment
       && shouldFilterReport
       && negb reportContainsIOUDebt
    then true
    else if isChatRoom && Config.excludeChatRooms config then true
    else if negb (Permissions.canUseDefaultRooms (Config.betas config))
            && ReportUtils.isDefaultRoom report
            && negb (String.eqb (ReportUtils.getPolicyType report (Onyx.policies onyx))
                                CONST.POLICY_TYPE_FREE)
            && negb (ReportUtils.hasExpensifyGuidesEmails logins)
    then true
    else if ReportUtils.isUserCreatedPolicyRoom report
            && negb (Permissions.canUsePolicyRooms (Config.betas config))
    then true
    else if isPolicyExpenseChat
            && negb (Permissions.canUsePolicyExpenseChat (Config.betas config))
    then true
    else false.

(** The option that the callback pushes for a report that passed. *)
Definition createReportOption (config : Config.t)
    (personalDetails : PersonalDetails) (report : Report.t) : Res Option.t :=
  let isSearchingSomeonesPolicyExpenseChat :=
    negb (Report.isOwnPolicyExpenseChat report)
    && Js.nonEmpty (Config.searchValue config) in
  createOption onyx (Report.participants report) personalDetails (Some report)
    (Config.reportActions config) (Config.showChatPreviewLine config)
    (if ReportUtils.isPolicyExpenseChat report
     then isSearchingSomeonesPolicyExpenseChat
     else Config.forcePolicyNamePreview config).

(** [_.each(orderedReports, ...)]: fills [allReportOptions] and
    [reportMapForLogins]; an exception of [createOption] ends the loop. *)
Fixpoint buildReportOptions (config : Config.t) (personalDetails : PersonalDetails)
    (activeReportID : Z) (orderedReports : list Report.t)
    (reportMapForLogins : gmap string Report.t) (allReportOptions : list Option.t)
  : Res (list Option.t * gmap string Report.t) :=
  match orderedReports with
  | [] => OK (allReportOptions, reportMapForLogins)
  | report :: rest =>
      if isReportExcluded config activeReportID report then
        buildReportOptions config personalDetails activeReportID rest
          reportMapForLogins allReportOptions
      else
        let logins := Report.participants report in
        let reportMapForLogins' :=
          if (length logins <=? 1)%nat
             && negb (ReportUtils.isPolicyExpenseChat report)
             && negb (ReportUtils.isChatRoom report)
          then <[default "undefined" (head logins) := report]> reportMapForLogins
          else reportMapForLogins in
        let* reportOption := createReportOption config personalDetails report in
        buildReportOptions config personalDetails activeReportID rest
          reportMapForLogins' (allReportOptions ++ [reportOption])
  end.

(** [allPersonalDetailsOptions] *)
Definition buildPersonalDetailsOptions (config : Config.t)
    (personalDetails : PersonalDetails) (reportMapForLogins : gmap string Report.t)
  : Res (list Option.t) :=
  let* allPersonalDetailsOptions :=
    mapM
      (fun personalDetail =>
         createOption onyx [PersonalDetail.login personalDetail] personalDetails
           (reportMapForLogins !! PersonalDetail.login personalDetail)
           (Config.reportActions config) (Config.showChatPreviewLine config)
           (Config.forcePolicyNamePreview config))
      (map snd personalDetails) in
  OK (if Config.sortPersonalDetailsByAlphaAsc config
      then lodashOrderByString allPersonalDetailsOptions
             (fun personalDetail => Js.toLowerCase (Option.text personalDetail)) asc
      else allPersonalDetailsOptions).

(** The logins of the selected options, the current user and the logins
    to exclude. *)
Definition initialExclusions (config : Config.t) : list (option string) :=
  map Option.login (Config.selectedOptions config)
  ++ [Onyx.currentUserLogin onyx]
  ++ map Some (Config.excludeLogins config).

(** [_.some(loginOptionsToExclude, option => option.login === login)] *)
Definition isExcluded (loginOptionsToExclude : list (option string))
    (login : option string) : bool :=
  existsb (fun excluded => bool_decide (excluded = login)) loginOptionsToExclude.

(** The search test that the two selection loops share. *)
Definition matchesSearch (config : Config.t) (o : Option.t) : bool :=
  let participantNames := getParticipantNames (Option.participantsList o) in
  negb (Js.nonEmpty (Config.searchValue config))
  || isSearchStringMatch (Config.searchValue config) (Option.searchText o)
       participantNames (Option.isChatRoom o).

(** The test at the top of the selection loop. *)
Definition capReached (config : Config.t) (s : Selection.t) : bool :=
  (0 <? length (Selection.recentReportOptions s))%nat
  && (Z.of_nat (length (Selection.recentReportOptions s))
      =? Config.maxRecentReportsToShow config).

(** The three [continue] statements of the selection loop. *)
Definition isSkipped (config : Config.t) (s : Selection.t) (reportOption : Option.t)
  : bool :=
  if negb (Config.includeMultipleParticipantReports config)
     && negb (Js.truthy (Option.login reportOption))
  then true
  else if Js.truthy (Option.login reportOption)
          && isExcluded (Selection.loginOptionsToExclude s) (Option.login reportOption)
  then true
  else negb (matchesSearch config reportOption).

(** The end of the loop body: the option goes to one array, and its login
    to the exclusions. *)
Definition accept (config : Config.t) (s : Selection.t) (reportOption : Option.t)
  : Selection.t :=
  let loginOptionsToExclude :=
    if Js.truthy (Option.login reportOption)
    then Selection.loginOptionsToExclude s ++ [Option.login reportOption]
    else Selection.loginOptionsToExclude s in
  if Config.prioritizePinnedReports config && Option.isPinned reportOption
     && negb (Option.isArchivedRoom reportOption && Option.isDefaultRoom reportOption)
  then
    Selection.mk (Selection.pinnedReportOptions s ++ [reportOption])
      (Selection.iouDebtReportOptions s) (Selection.draftReportOptions s)
      (Selection.recentReportOptions s) loginOptionsToExclude
  else if Config.prioritizeIOUDebts config && Option.hasOutstandingIOU reportOption
          && negb (default false (Option.isIOUReportOwner reportOption))
  then
    Selection.mk (Selection.pinnedReportOptions s)
      (Selection.iouDebtReportOptions s ++ [reportOption])
      (Selection.draftReportOptions s) (Selection.recentReportOptions s)
      loginOptionsToExclude
  else if Config.prioritizeReportsWithDraftComments config
          && Option.hasDraftComment reportOption
  then
    Selection.mk (Selection.pinnedReportOptions s) (Selection.iouDebtReportOptions s)
      (Selection.draftReportOptions s ++ [reportOption])
      (Selection.recentReportOptions s) loginOptionsToExclude
  else
    Selection.mk (Selection.pinnedReportOptions s) (Selection.iouDebtReportOptions s)
      (Selection.draftReportOptions s)
      (Selection.recentReportOptions s ++ [reportOption]) loginOptionsToExclude.

(** [for (let i = 0; i < allReportOptions.length; i++) { ... }] *)
Fixpoint selectRecentReports (config : Config.t) (allReportOptions : list Option.t)
    (s : Selection.t) : Selection.t :=
  match allReportOptions with
  | [] => s
  | reportOption :: rest =>
      if capReached config s then s
      else if isSkipped config s reportOption then selectRecentReports config rest s
      else selectRecentReports config rest (accept config s reportOption)
  end.

(** The three prepending steps after the loop. *)
Definition recombine (config : Config.t) (s : Selection.t) : list Option.t :=
  let recentReportOptions1 :=
    if Config.prioritizeReportsWithDraftComments config then
      lodashOrderByString (Selection.draftReportOptions s) Option.text asc
      ++ Selection.recentReportOptions s
    else Selection.recentReportOptions s in
  let recentReportOptions2 :=
    if Config.prioritizeIOUDebts config then
      lodashOrderByZ (Selection.iouDebtReportOptions s) Option.iouReportAmount desc
      ++ recentReportOptions1
    else recentReportOptions1 in
  if Config.prioritizePinnedReports config then
    lodashOrderByString (Selection.pinnedReportOptions s) Option.text asc
    ++ recentReportOptions2
  else recentReportOptions2.

(** [_.partition] by [isChatRoom], rooms first, while a search is active. *)
Definition prioritizeDefaultRooms (config : Config.t)
    (recentReportOptions : list Option.t) : list Option.t :=
  if Config.prioritizeDefaultRoomsInSearch config
     && Js.nonEmpty (Config.searchValue config)
  then
    List.filter Option.isChatRoom recentReportOptions
    ++ List.filter (fun o => negb (Option.isChatRoom o)) recentReportOptions
  else recentReportOptions.

(** The personal details that are neither excluded nor rejected by the
    search. *)
Definition selectPersonalDetails (config : Config.t)
    (allPersonalDetailsOptions : list Option.t)
    (loginOptionsToExclude : list (option string)) : list Option.t :=
  if Config.includePersonalDetails config then
    List.filter
      (fun personalDetailOption =>
         negb (isExcluded loginOptionsToExclude (Option.login personalDetailOption))
         && matchesSearch config personalDetailOption)
      allPersonalDetailsOptions
  else [].

(** The option that invites the login typed in the search box. *)
Definition inviteOption (config : Config.t) (personalDetails : PersonalDetails)
    (recentReportOptions personalDetailsOptions : list Option.t)
    (loginOptionsToExclude : list (option string)) : Res (option Option.t) :=
  let searchValue := Config.searchValue config in
  let noOptions :=
    Nat.eqb (length recentReportOptions + length personalDetailsOptions) 0 in
  let noOptionsMatchExactly :=
    negb (existsb
            (fun o => bool_decide (Option.login o = Some (Js.toLowerCase searchValue)))
            (personalDetailsOptions ++ recentReportOptions)) in
  if Js.nonEmpty searchValue && (noOptions || noOptionsMatchExactly) then
    let* isCurrent := isCurrentUser onyx (Some searchValue) in
    if negb isCurrent
       && forallb (fun o => negb (bool_decide (Option.login o = Some searchValue)))
            (Config.selectedOptions config)
       && ((Str.isValidEmail searchValue && negb (Str.isDomainEmail searchValue))
           || Str.isValidPhone searchValue)
       && negb (isExcluded loginOptionsToExclude
                  (Some (Js.toLowerCase (addSMSDomainIfPhoneNumber onyx searchValue))))
       && (negb (String.eqb searchValue CONST.EMAIL_CHRONOS)
           || Permissions.canUseChronos (Config.betas config))
    then
      let login :=
        if Str.isValidPhone searchValue && negb (Js.includes "+" searchValue)
        then "+" +:+ from_option Js.ofZ "undefined" (Onyx.countryCodeByIP onyx)
             +:+ searchValue
        else searchValue in
      let* userToInvite :=
        createOption onyx [login] personalDetails None (Config.reportActions config)
          (Config.showChatPreviewLine config) false in
      OK (Some (Option.withIcons userToInvite [ReportUtils.getDefaultAvatar login]))
    else OK None
  else OK None.

(** The rank that orders the merged list of the search page. *)
Definition searchRank (config : Config.t) (o : Option.t) : Z :=
  if Option.isChatRoom o || Option.isArchivedRoom o then 3
  else
    match Option.login o with
    | Some (String c l) =>
        if negb (String.eqb (Js.toLowerCase (String c l))
                            (Js.toLowerCase (Config.searchValue config)))
        then 1 else 0
    | _ => 2
    end.

(** The state of the selection when the loop is over; the loop does not run
    unless [includeRecentReports] is set. *)
Definition selection (config : Config.t) (allReportOptions : list Option.t)
  : Selection.t :=
  if Config.includeRecentReports config
  then selectRecentReports config allReportOptions
         (Selection.start (initialExclusions config))
  else Selection.start (initialExclusions config).

(** [sortByReportTypeInSearch]: the personal details join the recent
    reports, and the rank orders the merged list. *)
Definition searchModeMerge (config : Config.t)
    (recentReportOptions personalDetailsOptions : list Option.t)
    (userToInvite : option Option.t) : Options.t :=
  if Config.sortByReportTypeInSearch config && Js.nonEmpty (Config.searchValue config)
  then
    Options.mk []
      (lodashOrderByZ (recentReportOptions ++ personalDetailsOptions)
         (searchRank config) asc)
      userToInvite
  else Options.mk personalDetailsOptions recentReportOptions userToInvite.

(** Build the options. *)
Definition getOptions (reports : list Report.t) (personalDetails : PersonalDetails)
    (activeReportID : Z) (config : Config.t) : Res Options.t :=
  let orderedReports := orderReports config reports in
  let* built :=
    buildReportOptions config personalDetails activeReportID orderedReports ∅ [] in
  let allReportOptions := fst built in
  let reportMapForLogins := snd built in
  let* allPersonalDetailsOptions :=
    buildPersonalDetailsOptions config personalDetails reportMapForLogins in
  let s := selection config allReportOptions in
  let loginOptionsToExclude := Selection.loginOptionsToExclude s in
  let recentReportOptions := prioritizeDefaultRooms config (recombine config s) in
  let personalDetailsOptions :=
    selectPersonalDetails config allPersonalDetailsOptions loginOptionsToExclude in
  let* userToInvite :=
    inviteOption config personalDetails recentReportOptions personalDetailsOptions
      loginOptionsToExclude in
  OK (searchModeMerge config recentReportOptions personalDetailsOptions userToInvite).

(** ** The views *)

(** Build the options for the Search view. *)
Definition getSearchOptions (reports : list Report.t)
    (personalDetails : PersonalDetails) (searchValue : string) (betas : list string)
  : Res Options.t :=
  getOptions reports personalDetails 0 {|
    Config.reportActions := ∅;
    Config.betas := betas;
    Config.selectedOptions := [];
    Config.maxRecentReportsToShow := 0;
    Config.excludeLogins := [];
    Config.excludeChatRooms := false;
    Config.includeMultipleParticipantReports := true;
    Config.includePersonalDetails := true;
    Config.includeRecentReports := true;
    Config.prioritizePinnedReports := false;
    Config.prioritizeDefaultRoomsInSearch := false;
    Config.sortByReportTypeInSearch := true;
    Config.sortByLastMessageTimestamp := true;
    Config.searchValue := Js.trim searchValue;
    Config.showChatPreviewLine := true;
    Config.showReportsWithNoComments := true;
    Config.hideReadReports := false;
    Config.sortByAlphaAsc := false;
    Config.sortPersonalDetailsByAlphaAsc := true;
    Config.forcePolicyNamePreview := true;
    Config.prioritizeIOUDebts := false;
    Config.prioritizeReportsWithDraftComments := false;
  |}.

(** Build the options for the New Group view. *)
Definition getNewChatOptions (reports : list Report.t)
    (personalDetails : PersonalDetails) (betas : list string) (searchValue : string)
    (selectedOptions : list Option.t) (excludeLogins : list string) : Res Options.t :=
  getOptions reports personalDetails 0 {|
    Config.reportActions := ∅;
    Config.betas := betas;
    Config.selectedOptions := selectedOptions;
    Config.maxRecentReportsToShow := 5;
    Config.excludeLogins := excludeLogins;
    Config.excludeChatRooms := true;
    Config.includeMultipleParticipantReports := false;
    Config.includePersonalDetails := true;
    Config.includeRecentReports := true;
    Config.prioritizePinnedReports := false;
    Config.prioritizeDefaultRoomsInSearch := false;
    Config.sortByReportTypeInSearch := false;
    Config.sortByLastMessageTimestamp := true;
    Config.searchValue := Js.trim searchValue;
    Config.showChatPreviewLine := false;
    Config.showReportsWithNoComments := false;
    Config.hideReadReports := false;
    Config.sortByAlphaAsc := false;
    Config.sortPersonalDetailsByAlphaAsc := true;
    Config.forcePolicyNamePreview := false;
    Config.prioritizeIOUDebts := false;
    Config.prioritizeReportsWithDraftComments := false;
  |}.

(** Build the options for the Workspace Member Invite view.  The source
    also passes [excludeDefaultRooms], which [getOptions] does not read. *)
Definition getMemberInviteOptions (personalDetails : PersonalDetails)
    (betas : list string) (searchValue : string) (excludeLogins : list string)
  : Res Options.t :=
  getOptions [] personalDetails 0 {|
    Config.reportActions := ∅;
    Config.betas := betas;
    Config.selectedOptions := [];
    Config.maxRecentReportsToShow := 0;
    Config.excludeLogins := excludeLogins;
    Config.excludeChatRooms := false;
    Config.includeMultipleParticipantReports := false;
    Config.includePersonalDetails := true;
    Config.includeRecentReports := false;
    Config.prioritizePinnedReports := false;
    Config.prioritizeDefaultRoomsInSearch := false;
    Config.sortByReportTypeInSearch := false;
    Config.sortByLastMessageTimestamp := true;
    Config.searchValue := Js.trim searchValue;
    Config.showChatPreviewLine := false;
    Config.showReportsWithNoComments := false;
    Config.hideReadReports := false;
    Config.sortByAlphaAsc := false;
    Config.sortPersonalDetailsByAlphaAsc := false;
    Config.forcePolicyNamePreview := false;
    Config.prioritizeIOUDebts := false;
    Config.prioritizeReportsWithDraftComments := false;
  |}.

(** The configuration of the sidebar: IOU debts and drafts first, or, in
    the mode [CONST.PRIORITY_MODE.GSD], unread reports only, sorted by name. *)
Definition sidebarConfig (priorityMode : string) (betas : list string)
    (reportActions : gmap Z (list ReportAction.t)) : Config.t :=
  let gsd := String.eqb priorityMode CONST.PRIORITY_MODE_GSD in
  {|
    Config.reportActions := reportActions;
    Config.betas := betas;
    Config.selectedOptions := [];
    Config.maxRecentReportsToShow := 0;
    Config.excludeLogins := [];
    Config.excludeChatRooms := false;
    Config.includeMultipleParticipantReports := true;
    Config.includePersonalDetails := false;
    Config.includeRecentReports := true;
    Config.prioritizePinnedReports := true;
    Config.prioritizeDefaultRoomsInSearch := false;
    Config.sortByReportTypeInSearch := false;
    Config.sortByLastMessageTimestamp := true;
    Config.searchValue := "";
    Config.showChatPreviewLine := true;
    Config.showReportsWithNoComments := false;
    Config.hideReadReports := gsd;
    Config.sortByAlphaAsc := gsd;
    Config.sortPersonalDetailsByAlphaAsc := true;
    Config.forcePolicyNamePreview := false;
    Config.prioritizeIOUDebts := negb gsd;
    Config.prioritizeReportsWithDraftComments := negb gsd;
  |}.

(** Build the options for the Sidebar a.k.a. LHN. *)
Definition getSidebarOptions (reports : list Report.t)
    (personalDetails : PersonalDetails) (activeReportID : Z) (priorityMode : string)
    (betas : list string) (reportActions : gmap Z (list ReportAction.t))
  : Res Options.t :=
  getOptions reports personalDetails activeReportID
    (sidebarConfig priorityMode betas reportActions).

End GetOptions.

(** ** The other exported functions *)

Definition digitChar (c : ascii) : bool :=
  let n := N_of_ascii c in ((48 <=? n) && (n <=? 57))%N.

Fixpoint allChars (p : ascii -> bool) (s : string) : bool :=
  match s with
  | EmptyString => true
  | String c rest => p c && allChars p rest
  end.

(** [/^\d+$/.test(s)] *)
Definition testDigits (s : string) : bool := Js.nonEmpty s && allChars digitChar s.

Section OtherFunctions.

Context {ST : Str.api} {LO : Localize.api}.
Variable onyx : Onyx.t.

(** [CONST.REPORT.MAXIMUM_PARTICIPANTS] and the test of
    [CONST.REGEX.DIGITS_AND_PLUS], which CONST.js defines. *)
Variable MAXIMUM_PARTICIPANTS : Z.
Variable DIGITS_AND_PLUS : string -> bool.

(** The text of the header message, if any. *)
Definition getHeaderMessage (hasSelectableOptions hasUserToInvite : bool)
    (searchValue : string) (maxParticipantsReached : bool) : string :=
  if maxParticipantsReached then
    Localize.translate (Onyx.preferredLocale onyx) "common.maxParticipantsReached"
      [("count", Js.ofZ MAXIMUM_PARTICIPANTS)]
  else if Js.nonEmpty searchValue && DIGITS_AND_PLUS searchValue
          && negb (Str.isValidPhone searchValue) then
    Localize.translate (Onyx.preferredLocale onyx) "messages.errorMessageInvalidPhone" []
  else if Js.nonEmpty searchValue && negb hasSelectableOptions
          && negb hasUserToInvite then
    if testDigits searchValue && negb (Str.isValidPhone searchValue) then
      Localize.translate (Onyx.preferredLocale onyx)
        "messages.errorMessageInvalidPhone" []
    else Localize.translate (Onyx.preferredLocale onyx) "common.noResultsFound" []
  else "".


End OtherFunctions.

(** ** Notions used to state the properties *)

(** The personal detail that [getPersonalDetailsForLogins] stores for a
    login: the known one, or the placeholder. *)
Definition personalDetailFor {RU : ReportUtils.api} {ST : Str.api}
    (personalDetails : PersonalDetails) (login : string) : PersonalDetail.t :=
  match lookupDetail personalDetails login with
  | Some personalDetail => personalDetail
  | None =>
      PersonalDetail.mk login (Str.removeSMSDomain login) "" ""
        (ReportUtils.getDefaultAvatar login) None None
  end.

(** The logins that get a key of their own that is no array index. *)
Definition nameKey (login : string) : bool :=
  negb (Js.isArrayIndex login) && negb (String.eqb login "__proto__").

(** No login of a participant or of a personal detail, and not the search
    value, is a name that an object inherits from [Object.prototype]. *)
Definition PlainLogins (reports : list Report.t) (personalDetails : PersonalDetails)
    (searchValue : string) : Prop :=
  Forall
    (fun report =>
       Forall (fun login => Js.inheritedName login = false) (Report.participants report))
    reports
  /\ Forall (fun entry => Js.inheritedName (PersonalDetail.login (snd entry)) = false)
       personalDetails
  /\ Js.inheritedName searchValue = false.

(** [name] is the lowercased login, first name, last name or display name
    of the participant, and that field is not empty. *)
Definition isNameOf (participant : PersonalDetail.t) (name : string) : Prop :=
  exists field,
    In field [PersonalDetail.login participant; PersonalDetail.firstName participant;
              PersonalDetail.lastName participant;
              PersonalDetail.displayName participant]
    /\ field <> "" /\ name = Js.toLowerCase field.

(** A string of ASCII characters. *)
Definition asciiString (s : string) : bool :=
  allChars (fun c => (N_of_ascii c <? 128)%N) s.

(** A character that the tokenization of a query drops. *)
Definition separatorChar (c : ascii) : bool :=
  Ascii.is_space c || Ascii.eqb c "." || Ascii.eqb c ",".

(** The option [o] was built from a report of the list that passed the
    filter of [getOptions]. *)
Definition FromReport {RU : ReportUtils.api} {PM : Permissions.api} {ST : Str.api}
    {LO : Localize.api} {CO : CONST.api} (onyx : Onyx.t) (config : Config.t)
    (personalDetails : PersonalDetails) (activeReportID : Z)
    (orderedReports : list Report.t) (o : Option.t) : Prop :=
  exists report,
    In report orderedReports
    /\ isReportExcluded onyx config activeReportID report = false
    /\ createReportOption onyx config personalDetails report = OK o.

(** The logins of the options that have one. *)
Definition truthyLogins (l : list Option.t) : list (option string) :=
  List.filter Js.truthy (map Option.login l).

(** What the selection loop checks before it accepts an option. *)
Definition Admissible (onyx : Onyx.t) (config : Config.t) (o : Option.t) : Prop :=
  matchesSearch config o = true
  /\ (Js.truthy (Option.login o) = true ->
      ~ In (Option.login o) (initialExclusions onyx config))
  /\ (Config.includeMultipleParticipantReports config = false ->
      Js.truthy (Option.login o) = true).

(** An array of the selection is empty unless its priority flag is set. *)
Definition UnusedArraysEmpty (config : Config.t) (s : Selection.t) : Prop :=
  (Config.prioritizePinnedReports config = false ->
   Selection.pinnedReportOptions s = [])
  /\ (Config.prioritizeIOUDebts config = false ->
      Selection.iouDebtReportOptions s = [])
  /\ (Config.prioritizeReportsWithDraftComments config = false ->
      Selection.draftReportOptions s = []).

(** The report passes the filter of [getOptions] and is stored in
    [reportMapForLogins] under [key]: it has at most one participant, and
    is neither a policy expense chat nor a chat room. *)
Definition indexedUnder {RU : ReportUtils.api} {PM : Permissions.api} {CO : CONST.api}
    (onyx : Onyx.t) (config : Config.t) (activeReportID : Z) (key : string)
    (report : Report.t) : bool :=
  negb (isReportExcluded onyx config activeReportID report)
  && ((length (Report.participants report) <=? 1)%nat
      && negb (ReportUtils.isPolicyExpenseChat report)
      && negb (ReportUtils.isChatRoom report))
  && String.eqb (default "undefined" (head (Report.participants report))) key.

(** ** Definitions that follow the words of the specification *)

(** The elements of [items] at their first occurrence, in order: an element
    is kept unless it occurs in [before] or earlier in [items]. *)
Fixpoint firstOccurrencesFrom (before items : list string) : list string :=
  match items with
  | [] => []
  | item :: rest =>
      (if bool_decide (item ∈ before) then [] else [item])
      ++ firstOccurrencesFrom (before ++ [item]) rest
  end.

Definition firstOccurrences (items : list string) : list string :=
  firstOccurrencesFrom [] items.

(** [word] is a substring of [text] up to the case of the letters. *)
Definition CISubstring (word text : string) : Prop :=
  exists pre mid post,
    text = pre +:+ mid +:+ post /\ Js.toLowerCase mid = Js.toLowerCase word.

(** An option with an outstanding IOU that the current user does not own. *)
Definition owesIOUDebt (o : Option.t) : bool :=
  Option.hasOutstandingIOU o && negb (default false (Option.isIOUReportOwner o)).

(** Each array of the selection holds the options of its class: pinned,
    else IOU debt, else draft, else plain. *)
Definition Classified (s : Selection.t) : Prop :=
  Forall (fun o => Option.isPinned o = true) (Selection.pinnedReportOptions s)
  /\ Forall (fun o => Option.isPinned o = false /\ owesIOUDebt o = true)
       (Selection.iouDebtReportOptions s)
  /\ Forall (fun o => Option.isPinned o = false /\ owesIOUDebt o = false
                      /\ Option.hasDraftComment o = true)
       (Selection.draftReportOptions s)
  /\ Forall (fun o => Option.isPinned o = false /\ owesIOUDebt o = false
                      /\ Option.hasDraftComment o = false)
       (Selection.recentReportOptions s).

(** Each array of the selection keeps the order of the candidates. *)
Definition InCandidateOrder (s : Selection.t) (candidates : list Option.t) : Prop :=
  sublist (Selection.pinnedReportOptions s) candidates
  /\ sublist (Selection.iouDebtReportOptions s) candidates
  /\ sublist (Selection.draftReportOptions s) candidates
  /\ sublist (Selection.recentReportOptions s) candidates.

(** The login of every accepted option with a login is excluded. *)
Definition LoginsExcluded (s : Selection.t) : Prop :=
  forall o, In o (Selection.accepted s) -> Js.truthy (Option.login o) = true ->
            In (Option.login o) (Selection.loginOptionsToExclude s).

(** ** Sample collaborators and data

    The theorems below hold for every implementation of the collaborators.
    The instances of this module serve to run the functions on concrete
    inputs. *)

Module Sample.

(** Modelled from the spec: ReportUtils.js is not under src/.  The spec
    describes the kind of a report (chat room, default room, policy expense
    chat, archived) as flags of the report record, a report as unread when it
    has unread actions, and the display text of a direct chat as the display
    names of its participants. *)
#[export] Instance reportUtils : ReportUtils.api := {|
  ReportUtils.isChatRoom := Report.chatRoomKind;
  ReportUtils.isDefaultRoom := Report.defaultRoomKind;
  ReportUtils.isArchivedRoom := Report.archived;
  ReportUtils.isPolicyExpenseChat := Report.policyExpenseChatKind;
  ReportUtils.isUserCreatedPolicyRoom := Report.userCreatedPolicyRoomKind;
  ReportUtils.isUnread := fun r => 0 <? Report.unreadActionCount r;
  ReportUtils.isReportMessageAttachment := fun text html => false;
  ReportUtils.hasExpensifyGuidesEmails :=
    fun logins => existsb (Js.includes "@team.expensify.com") logins;
  ReportUtils.getChatRoomSubtitle :=
    fun r policies => from_option Policy.name "" (policies !! Report.policyID r);
  ReportUtils.getPolicyName :=
    fun r policies => from_option Policy.name "" (policies !! Report.policyID r);
  ReportUtils.getPolicyType :=
    fun r policies => from_option Policy.type "" (policies !! Report.policyID r);
  ReportUtils.getReportName :=
    fun report personalDetailMap policies =>
      match report with
      | Some r =>
          if Report.chatRoomKind r || Report.policyExpenseChatKind r
          then Report.reportName r
          else Js.join ", " (map (fun d => PersonalDetail.displayName (snd d))
                               personalDetailMap)
      | None =>
          Js.join ", " (map (fun d => PersonalDetail.displayName (snd d))
                          personalDetailMap)
      end;
  ReportUtils.getReportParticipantsTitle := Js.join ", ";
  ReportUtils.getDefaultAvatar := fun login => "avatar/" +:+ login;
  ReportUtils.getIcons := fun report personalDetails policies avatar => [avatar];
|}.

(** Modelled from the spec: Permissions.js is not under src/.  A capability
    is granted when the beta set names it. *)
#[export] Instance permissions : Permissions.api := {|
  Permissions.canUseChronos := existsb (String.eqb "chronos");
  Permissions.canUseDefaultRooms := existsb (String.eqb "defaultRooms");
  Permissions.canUsePolicyRooms := existsb (String.eqb "policyRooms");
  Permissions.canUsePolicyExpenseChat := existsb (String.eqb "policyExpenseChat");
|}.

Definition isDigit (c : ascii) : bool :=
  let n := N_of_ascii c in ((48 <=? n) && (n <=? 57))%N.

Fixpoint allDigits (s : string) : bool :=
  match s with
  | EmptyString => true
  | String c rest => isDigit c && allDigits rest
  end.

(** A phone number: an optional [+] and five to fifteen digits. *)
Definition phoneLike (s : string) : bool :=
  let digits :=
    match s with
    | String "+" rest => rest
    | _ => s
    end in
  allDigits digits && (5 <=? String.length digits)%nat
  && (String.length digits <=? 15)%nat.

(** An email: one [@], no space, a name before it and a dotted domain
    after it. *)
Definition emailLike (s : string) : bool :=
  match Js.split "@" s with
  | [name; domain] =>
      Js.nonEmpty name && negb (Js.includes " " s)
      && (2 <=? length (Js.split "." domain))%nat
      && forallb Js.nonEmpty (Js.split "." domain)
  | _ => false
  end.

(** Simple validators in place of those of expensify-common. *)
#[export] Instance str : Str.api := {|
  Str.isValidPhone := phoneLike;
  Str.isValidEmail := emailLike;
  Str.isDomainEmail := Js.startsWith "+@";
  Str.removeSMSDomain := Js.removeAll "@expensify.sms";
  Str.htmlDecode := fun s => s;
|}.

#[export] Instance localize : Localize.api := {|
  Localize.translate := fun locale key params => key;
  Localize.translateLocal := fun key => key;
|}.

(** Modelled from the spec: CONST.js is not under src/.  The source names
    the SMS domain in a comment; the other values are those of the
    application. *)
#[export] Instance const : CONST.api := {|
  CONST.SMS_DOMAIN := "@expensify.sms";
  CONST.EMAIL_CHRONOS := "chronos@expensify.com";
  CONST.POLICY_TYPE_FREE := "free";
  CONST.BRICK_ROAD_INDICATOR_STATUS_ERROR := "error";
  CONST.REPORT_ARCHIVE_REASON_DEFAULT := "default";
  CONST.PRIORITY_MODE_GSD := "gsd";
|}.

Definition onyx : Onyx.t := {|
  Onyx.currentUserLogin := Some "me@x.com";
  Onyx.loginList := Some [];
  Onyx.countryCodeByIP := Some 1;
  Onyx.preferredLocale := "en";
  Onyx.policies := ∅;
  Onyx.iouReports := ∅;
  Onyx.lastReportActions := ∅;
|}.

(** A report with its last message at [timestamp]; [room] makes it a
    default room. *)
Definition report (reportID : Z) (participants : list string) (reportName : string)
    (timestamp : Z) (isPinned room archived : bool) : Report.t := {|
  Report.reportID := Some reportID;
  Report.participants := participants;
  Report.reportName := reportName;
  Report.lastMessageTimestamp := timestamp;
  Report.lastVisitedTimestamp := timestamp;
  Report.lastMessageText := "";
  Report.lastMessageHtml := "";
  Report.lastActorEmail := "";
  Report.ownerEmail := None;
  Report.unreadActionCount := 0;
  Report.hasDraft := false;
  Report.isPinned := isPinned;
  Report.hasOutstandingIOU := false;
  Report.iouReportID := None;
  Report.isOwnPolicyExpenseChat := false;
  Report.errors := [];
  Report.errorFields := [];
  Report.chatRoomKind := room;
  Report.defaultRoomKind := room;
  Report.userCreatedPolicyRoomKind := false;
  Report.policyExpenseChatKind := false;
  Report.archived := archived;
  Report.policyID := "";
|}.

(** A direct chat with one participant. *)
Definition chat (reportID : Z) (login : string) (timestamp : Z) : Report.t :=
  report reportID [login] "" timestamp false false false.

(** A configuration that includes recent reports, reports with several
    participants and personal details. *)
Definition config (maxRecentReportsToShow : Z) (searchValue : string)
    (prioritize prioritizeDefaultRoomsInSearch sortByReportTypeInSearch : bool)
  : Config.t := {|
  Config.reportActions := ∅;
  Config.betas := ["defaultRooms"];
  Config.selectedOptions := [];
  Config.maxRecentReportsToShow := maxRecentReportsToShow;
  Config.excludeLogins := [];
  Config.excludeChatRooms := false;
  Config.includeMultipleParticipantReports := true;
  Config.includePersonalDetails := true;
  Config.includeRecentReports := true;
  Config.prioritizePinnedReports := prioritize;
  Config.prioritizeDefaultRoomsInSearch := prioritizeDefaultRoomsInSearch;
  Config.sortByReportTypeInSearch := sortByReportTypeInSearch;
  Config.sortByLastMessageTimestamp := true;
  Config.searchValue := searchValue;
  Config.showChatPreviewLine := false;
  Config.showReportsWithNoComments := false;
  Config.hideReadReports := false;
  Config.sortByAlphaAsc := false;
  Config.sortPersonalDetailsByAlphaAsc := true;
  Config.forcePolicyNamePreview := false;
  Config.prioritizeIOUDebts := prioritize;
  Config.prioritizeReportsWithDraftComments := prioritize;
|}.

(** Two pinned chats and two chats that are not pinned. *)
Definition pinnedChats : list Report.t :=
  [report 1 ["a@x.com"] "" 100 true false false;
   report 2 ["b@x.com"] "" 90 true false false;
   chat 3 "c@x.com" 80;
   chat 4 "d@x.com" 70].

(** A pinned default room that is archived. *)
Definition archivedRoom : Report.t :=
  report 7 ["a@x.com"] "admins" 100 true true true.

(** A pinned chat with Ann and the room [announce], which is not pinned. *)
Definition annChat : Report.t := report 1 ["ann@x.com"] "" 100 true false false.
Definition announceRoom : Report.t :=
  report 2 ["bob@x.com"] "announce" 50 false true false.

Definition person (login displayName : string) : string * PersonalDetail.t :=
  (login, PersonalDetail.mk login displayName "" "" ("avatar/" +:+ login) None None).

(** The priority flags, and a search for [an] that puts the rooms first. *)
Definition roomSearch : Config.t := config 0 "an" true true false.

(** The configuration of the sidebar in its default mode. *)
Definition sidebar : Config.t := sidebarConfig "default" ["defaultRooms"] ∅.

(** The priority flags and at most one recent report. *)
Definition capped : Config.t := config 1 "" true false false.

(** At most two recent reports, no priority flags. *)
Definition cappedPlain : Config.t := config 2 "" false false false.

Definition people : PersonalDetails :=
  [person "ann@x.com" "Ann"; person "bob@x.com" "Bob"].

(** The module state with two IOU reports that others own. *)
Definition onyxWithDebts : Onyx.t := {|
  Onyx.currentUserLogin := Some "me@x.com";
  Onyx.loginList := Some [];
  Onyx.countryCodeByIP := Some 1;
  Onyx.preferredLocale := "en";
  Onyx.policies := ∅;
  Onyx.iouReports :=
    {[ 11 := IOUReport.mk "bob@x.com" 500; 12 := IOUReport.mk "eve@x.com" 900 ]};
  Onyx.lastReportActions := ∅;
|}.

(** A direct chat that may be pinned, have a draft, or have an outstanding
    IOU. *)
Definition chatWith (reportID : Z) (login : string) (timestamp : Z)
    (isPinned hasDraft : bool) (iouReportID : option Z) : Report.t := {|
  Report.reportID := Some reportID;
  Report.participants := [login];
  Report.reportName := "";
  Report.lastMessageTimestamp := timestamp;
  Report.lastVisitedTimestamp := timestamp;
  Report.lastMessageText := "";
  Report.lastMessageHtml := "";
  Report.lastActorEmail := "";
  Report.ownerEmail := None;
  Report.unreadActionCount := 0;
  Report.hasDraft := hasDraft;
  Report.isPinned := isPinned;
  Report.hasOutstandingIOU :=
    match iouReportID with
    | Some _ => true
    | None => false
    end;
  Report.iouReportID := iouReportID;
  Report.isOwnPolicyExpenseChat := false;
  Report.errors := [];
  Report.errorFields := [];
  Report.chatRoomKind := false;
  Report.defaultRoomKind := false;
  Report.userCreatedPolicyRoomKind := false;
  Report.policyExpenseChatKind := false;
  Report.archived := false;
  Report.policyID := "";
|}.

(** Two pinned chats, two chats with an IOU debt, two chats with a draft
    and two plain chats, from the latest to the oldest. *)
Definition busyChats : list Report.t :=
  [chatWith 1 "dan@x.com" 100 true false None;
   chatWith 2 "ann@x.com" 90 true false None;
   chatWith 3 "bob@x.com" 80 false false (Some 11);
   chatWith 4 "eve@x.com" 70 false false (Some 12);
   chatWith 5 "gus@x.com" 60 false true None;
   chatWith 6 "cid@x.com" 50 false true None;
   chatWith 7 "fay@x.com" 40 false false None;
   chatWith 8 "hal@x.com" 30 false false None].

Definition friends : PersonalDetails :=
  [person "ann@x.com" "Ann"; person "bob@x.com" "Bob"; person "cid@x.com" "Cid";
   person "dan@x.com" "Dan"; person "eve@x.com" "Eve"; person "fay@x.com" "Fay";
   person "gus@x.com" "Gus"; person "hal@x.com" "Hal"].

(** The alphabetical order that ignores the case of the ASCII letters. *)
Definition caseless (a b : string) : Prop :=
  String.leb (Js.toLowerCase a) (Js.toLowerCase b) = true.

(** Two people whose display names share a word. *)
Definition theLees : list PersonalDetail.t :=
  [snd (person "ann@x.com" "Ann Lee"); snd (person "bob@x.com" "Bob Lee")].

(** The test of [CONST.REGEX.DIGITS_AND_PLUS]: an optional plus sign,
    then digits only. *)
Definition digitsAndPlus (s : string) : bool :=
  match s with
  | String "+" rest => allChars digitChar rest
  | _ => allChars digitChar s
  end.

(** Two chats with Ann, the older one pinned, and the room [announce]. *)
Definition twoChatsWithAnn : list Report.t :=
  [report 1 ["ann@x.com"] "" 100 true false false;
   report 3 ["ann@x.com"] "" 200 false false false;
   announceRoom].

(** A search that merges the lists; it matches Ann and the room. *)
Definition mergedSearch : Config.t := config 0 "an" false false true.

(** A search for a phone number without a plus sign. *)
Definition phoneSearch : Config.t := config 0 "5551234567" false false false.

End Sample.

(** * Properties *)

(** ** Strings *)

Lemma append_cons (c : ascii) (a b : string) :
  String c a +:+ b = String c (a +:+ b).
Proof. reflexivity. Qed.

Lemma append_empty_l (a : string) : "" +:+ a = a.
Proof. reflexivity. Qed.

Lemma append_assoc (a b c : string) : (a +:+ b) +:+ c = a +:+ b +:+ c.
Proof.
  induction a as [|x a IH]; [reflexivity|].
  rewrite !append_cons. now rewrite IH.
Qed.

Lemma toLowerCase_append (a b : string) :
  Js.toLowerCase (a +:+ b) = Js.toLowerCase a +:+ Js.toLowerCase b.
Proof.
  induction a as [|x a IH]; [reflexivity|].
  rewrite append_cons. simpl. now rewrite IH.
Qed.

(** A split of the lowercased string comes from a split of the string. *)
Lemma toLowerCase_split (s a b : string) :
  Js.toLowerCase s = a +:+ b ->
  exists a' b', s = a' +:+ b' /\ Js.toLowerCase a' = a /\ Js.toLowerCase b' = b.
Proof.
  revert s. induction a as [|x a IH]; intros s H.
  - exists "", s. now rewrite !append_empty_l in *.
  - destruct s as [|y s]; [discriminate|].
    rewrite append_cons in H. simpl in H. injection H as Hx Hs.
    destruct (IH _ Hs) as (a' & b' & -> & Ha & Hb).
    exists (String y a'), b'. rewrite append_cons. simpl. now rewrite Hx, Ha.
Qed.

Lemma startsWith_spec (p s : string) :
  Js.startsWith p s = true <-> exists rest, s = p +:+ rest.
Proof.
  revert s. induction p as [|a p IH]; intros s; simpl.
  - split; [intros _; now exists s | reflexivity].
  - destruct s as [|b s].
    + split; [discriminate | intros [r H]; discriminate].
    + rewrite andb_true_iff, Ascii.eqb_eq, IH. split.
      * intros [-> [r ->]]. now exists r.
      * intros [r H]. rewrite append_cons in H. injection H as -> ->. eauto.
Qed.

Lemma includes_spec (p s : string) :
  Js.includes p s = true <-> exists pre post, s = pre +:+ p +:+ post.
Proof.
  induction s as [|c s IH].
  - simpl. rewrite orb_false_r, startsWith_spec. split.
    + intros [r H]. now exists "", r.
    + intros (pre & post & H). destruct pre; [now exists post|discriminate].
  - cbn [Js.includes]. rewrite orb_true_iff, startsWith_spec, IH. split.
    + intros [[r H] | (pre & post & H)].
      * now exists "", r.
      * exists (String c pre), post. now rewrite append_cons, H.
    + intros (pre & post & H). destruct pre as [|d pre].
      * left. now exists post.
      * right. rewrite append_cons in H. injection H as _ H. eauto.
Qed.

(** The regular expression with the flag [i] finds the word exactly when
    the word is a substring up to case. *)
Lemma testIgnoreCase_spec (word text : string) :
  Js.testIgnoreCase word text = true <-> CISubstring word text.
Proof.
  unfold Js.testIgnoreCase, CISubstring. rewrite includes_spec. split.
  - intros (pre & post & H).
    destruct (toLowerCase_split _ _ _ H) as (pre' & r & -> & _ & Hr).
    destruct (toLowerCase_split _ _ _ Hr) as (mid & post' & -> & Hm & _).
    now exists pre', mid, post'.
  - intros (pre & mid & post & -> & Hm).
    exists (Js.toLowerCase pre), (Js.toLowerCase post).
    now rewrite !toLowerCase_append, Hm.
Qed.

(** The pieces of [split] joined by the separator give the string back,
    and no piece contains the separator. *)
Lemma split_nonempty (c : ascii) (s : string) : Js.split c s <> [].
Proof.
  destruct s as [|d s]; simpl; [discriminate|].
  destruct (Ascii.eqb d c); [discriminate|].
  destruct (Js.split c s); discriminate.
Qed.

Lemma join_cons (sep w : string) (l : list string) :
  l <> [] -> Js.join sep (w :: l) = w +:+ sep +:+ Js.join sep l.
Proof. destruct l; [contradiction|reflexivity]. Qed.

Lemma join_split (c : ascii) (s : string) :
  Js.join (String c "") (Js.split c s) = s.
Proof.
  induction s as [|d s IH]; [reflexivity|].
  cbn [Js.split]. pose proof (split_nonempty c s) as Hn.
  destruct (Ascii.eqb_spec d c) as [->|Hne].
  - rewrite join_cons by assumption. now rewrite IH.
  - destruct (Js.split c s) as [|w ws] eqn:E; [contradiction|].
    destruct ws as [|w' ws].
    + cbn [Js.join] in *. now rewrite IH.
    + rewrite join_cons by discriminate. rewrite join_cons in IH by discriminate.
      now rewrite append_cons, IH.
Qed.

Lemma split_pieces (c : ascii) (s w : string) :
  In w (Js.split c s) -> Js.includes (String c "") w = false.
Proof.
  revert w. induction s as [|d s IH]; intros w.
  - simpl. intros [<-|[]]. reflexivity.
  - simpl. destruct (Ascii.eqb_spec d c) as [->|Hne].
    + intros [<-|H]; [reflexivity|now apply IH].
    + pose proof (split_nonempty c s) as Hn.
      destruct (Js.split c s) as [|w0 ws] eqn:E; [contradiction|].
      intros [<-|H].
      * cbn [Js.includes Js.startsWith].
        destruct (Ascii.eqb_spec c d) as [->|_]; [contradiction|].
        simpl. apply IH. now left.
      * apply IH. now right.
Qed.

(** ** [uniqFast] and the search text *)

Lemma firstOccurrencesFrom_elem (items before : list string) (x : string) :
  x ∈ firstOccurrencesFrom before items <-> x ∈ items /\ x ∉ before.
Proof.
  revert before. induction items as [|item rest IH]; intros before; simpl.
  - split; [intros H; inversion H | intros [H _]; inversion H].
  - rewrite elem_of_app, IH, elem_of_cons, not_elem_of_app, list_elem_of_singleton.
    case_bool_decide as Hin.
    + split.
      * intros [H|(H & Hb & _)]; [inversion H | tauto].
      * intros [[->|H] Hb]; [contradiction|].
        right. destruct (decide (x = item)) as [->|]; tauto.
    + rewrite list_elem_of_singleton. split.
      * intros [->|(H & Hb & _)]; tauto.
      * intros [[->|H] Hb]; [tauto|].
        destruct (decide (x = item)) as [->|]; tauto.
Qed.

Lemma firstOccurrencesFrom_NoDup (items before : list string) :
  NoDup (firstOccurrencesFrom before items).
Proof.
  revert before. induction items as [|item rest IH]; intros before; simpl.
  - constructor.
  - case_bool_decide as Hin; simpl; [apply IH|].
    constructor; [|apply IH].
    rewrite firstOccurrencesFrom_elem, not_elem_of_app, list_elem_of_singleton.
    tauto.
Qed.

(** Only the elements of [before] matter, and an element more in
    [before] removes its occurrences from the result. *)
Lemma firstOccurrencesFrom_more (items before before' : list string) (x : string) :
  (forall y, y ∈ before' <-> y ∈ before \/ y = x) ->
  firstOccurrencesFrom before' items
  = List.filter (fun y => negb (String.eqb y x)) (firstOccurrencesFrom before items).
Proof.
  revert before before'.
  induction items as [|item rest IH]; intros before before' Hb; [reflexivity|].
  cbn [firstOccurrencesFrom]. rewrite List.filter_app.
  rewrite (IH (before ++ [item]) (before' ++ [item])).
  - f_equal. destruct (String.eqb_spec item x) as [->|Hne].
    + rewrite bool_decide_eq_true_2 by (apply Hb; now right).
      case_bool_decide; [reflexivity|]. simpl. now rewrite String.eqb_refl.
    + case_bool_decide as H1; case_bool_decide as H2; simpl.
      * reflexivity.
      * apply Hb in H1 as [H1| ->]; contradiction.
      * exfalso. apply H1, Hb. now left.
      * apply String.eqb_neq in Hne. now rewrite Hne.
  - intros y. rewrite !elem_of_app, Hb. tauto.
Qed.

(** The head of the list is kept, and dropped from what the rest gives. *)
Lemma firstOccurrences_cons (item : string) (rest : list string) :
  firstOccurrences (item :: rest)
  = item :: List.filter (fun y => negb (String.eqb y item)) (firstOccurrences rest).
Proof.
  unfold firstOccurrences. cbn [firstOccurrencesFrom].
  rewrite bool_decide_eq_false_2 by (intros H; inversion H).
  cbn [app]. f_equal. apply firstOccurrencesFrom_more.
  intros y. rewrite list_elem_of_singleton. split; [tauto|].
  intros [H|H]; [inversion H|exact H].
Qed.

(** The loop keeps in [seenItems] the items met so far, as long as none
    of them is [__proto__]. *)
Lemma uniqFastLoop_spec (items : list string) :
  forall (seenItems : gmap string Z) (result before : list string),
    "__proto__" ∉ items ->
    (forall x, seenItems !! x = Some 1 <-> x ∈ before) ->
    uniqFastLoop items seenItems result
    = result ++ firstOccurrencesFrom before items.
Proof.
  induction items as [|item rest IH]; intros seenItems result before Hp Hseen; simpl.
  - now rewrite app_nil_r.
  - apply not_elem_of_cons in Hp as [Hitem Hp].
    case_bool_decide as Hs; case_bool_decide as Hb;
      try (apply Hseen in Hs; contradiction);
      try (apply Hseen in Hb; contradiction).
    + simpl. apply IH; [exact Hp|].
      intros x. rewrite Hseen, elem_of_app, list_elem_of_singleton.
      split; [tauto|]. intros [H| ->]; assumption.
    + unfold markSeen. destruct (String.eqb_spec item "__proto__") as [E|_];
        [now subst item|].
      rewrite (IH (<[item:=1]> seenItems) (result ++ [item]) (before ++ [item]));
        [|exact Hp|].
      * now rewrite <- app_assoc.
      * intros x. rewrite elem_of_app, list_elem_of_singleton, <- Hseen.
        destruct (decide (item = x)) as [->|Hne].
        -- rewrite lookup_insert_eq. tauto.
        -- rewrite lookup_insert_ne by assumption. split; [tauto|].
           intros [H| ->]; [assumption|contradiction].
Qed.

(** Splitting a joined list gives the list back when no piece contains the
    separator. *)
Lemma split_append_piece (c : ascii) (w s : string) :
  Js.includes (String c "") w = false ->
  Js.split c (w +:+ String c s) = w :: Js.split c s.
Proof.
  induction w as [|d w IH]; intros Hw.
  - simpl. now rewrite Ascii.eqb_refl.
  - cbn [Js.includes Js.startsWith] in Hw.
    apply orb_false_iff in Hw as [Hd Hw].
    rewrite append_cons. cbn [Js.split].
    destruct (Ascii.eqb_spec d c) as [->|_].
    + rewrite Ascii.eqb_refl in Hd. discriminate.
    + now rewrite (IH Hw).
Qed.

Lemma split_piece (c : ascii) (w : string) :
  Js.includes (String c "") w = false -> Js.split c w = [w].
Proof.
  induction w as [|d w IH]; intros Hw; [reflexivity|].
  cbn [Js.includes Js.startsWith] in Hw.
  apply orb_false_iff in Hw as [Hd Hw].
  cbn [Js.split]. destruct (Ascii.eqb_spec d c) as [->|_].
  - rewrite Ascii.eqb_refl in Hd. discriminate.
  - now rewrite (IH Hw).
Qed.

Lemma split_join (c : ascii) (l : list string) :
  l <> [] ->
  Forall (fun w => Js.includes (String c "") w = false) l ->
  Js.split c (Js.join (String c "") l) = l.
Proof.
  induction l as [|w l IH]; intros Hne Hl; [contradiction|].
  apply Forall_cons in Hl as [Hw Hl].
  destruct l as [|w' l].
  - simpl. now apply split_piece.
  - rewrite join_cons by discriminate.
    change (String c "" +:+ Js.join (String c "") (w' :: l))
      with (String c (Js.join (String c "") (w' :: l))).
    rewrite split_append_piece by assumption.
    f_equal. apply IH; [discriminate|assumption].
Qed.

Section SearchText.

Context {RU : ReportUtils.api}.
Variable onyx : Onyx.t.

(** C8, as amended. For an array of strings none of which is
    [__proto__], [uniqFast] returns the array restricted to the first
    occurrence of each distinct element, in the order of the first
    occurrences: the result has no duplicate and the same elements.  Hence,
    when this array is the search terms that [getSearchText] collects and no
    term contains a space, the words of the search text, which single
    spaces separate, are the distinct terms in the order of their first
    occurrence, and no word is repeated. *)
Theorem uniqFast_first_occurrences (items : list string) :
  "__proto__" ∉ items ->
  uniqFast items = firstOccurrences items
  /\ NoDup (uniqFast items)
  /\ (forall x, x ∈ uniqFast items <-> x ∈ items)
  /\ forall report reportName personalDetailList isChatRoomOrPolicyExpenseChat,
       searchTerms onyx report reportName personalDetailList
         isChatRoomOrPolicyExpenseChat = items ->
       items <> [] ->
       Forall (fun term => Js.includes " " term = false) items ->
       Js.split " "
         (getSearchText onyx report reportName personalDetailList
            isChatRoomOrPolicyExpenseChat)
       = firstOccurrences items
       /\ NoDup
            (Js.split " "
               (getSearchText onyx report reportName personalDetailList
                  isChatRoomOrPolicyExpenseChat)).
Proof.
  intros Hp.
  assert (Hspec : uniqFast items = firstOccurrences items).
  { unfold uniqFast, firstOccurrences.
    rewrite (uniqFastLoop_spec items ∅ [] []); [reflexivity|exact Hp|].
    intros x. rewrite lookup_empty. split; [discriminate|].
    intros H. inversion H. }
  assert (Helem : forall x, x ∈ firstOccurrences items <-> x ∈ items).
  { intros x. unfold firstOccurrences.
    rewrite firstOccurrencesFrom_elem. split; [tauto|].
    intros H. split; [assumption|]. intros H'. inversion H'. }
  split; [exact Hspec|]. split; [|split].
  - rewrite Hspec. apply firstOccurrencesFrom_NoDup.
  - intros x. rewrite Hspec. apply Helem.
  - intros report reportName personalDetailList isRoom Hterms Hne Hspace.
    assert (Hs : Js.split " "
                   (getSearchText onyx report reportName personalDetailList isRoom)
                 = firstOccurrences items).
    { unfold getSearchText. rewrite Hterms, Hspec. apply split_join.
      - destruct items as [|item rest]; [contradiction|].
        rewrite firstOccurrences_cons. discriminate.
      - apply List.Forall_forall. intros w Hw.
        rewrite List.Forall_forall in Hspace. apply Hspace.
        apply list_elem_of_In, Helem, list_elem_of_In in Hw. exact Hw. }
    split; [exact Hs|]. rewrite Hs. apply firstOccurrencesFrom_NoDup.
Qed.

End SearchText.

Section IsCurrentUser.

Context {ST : Str.api} {CO : CONST.api}.

(** C10. [isCurrentUser] returns [false] for a [null] or [undefined]
    argument in every state of the module, also before any subscription
    has delivered the current user or the login list: neither is read. *)
Theorem isCurrentUser_null (onyx : Onyx.t) :
  isCurrentUser onyx None = OK false.
Proof. reflexivity. Qed.

(** With an argument, the current user is read, and the call throws as
    long as it is undefined. *)
Lemma isCurrentUser_reads_current_user (onyx : Onyx.t) (login : string) :
  Onyx.currentUserLogin onyx = None ->
  isCurrentUser onyx (Some login) = Throw (TypeError "toLowerCase").
Proof. intros H. unfold isCurrentUser. now rewrite H. Qed.

End IsCurrentUser.

Section CreateOption.

Context {RU : ReportUtils.api} {ST : Str.api} {LO : Localize.api} {CO : CONST.api}.
Variable onyx : Onyx.t.

(** C3 fails on the code. With an empty list of logins, [personalDetail]
    is [undefined], and [createOption] throws for every report: for a chat
    room or a policy expense chat at [personalDetail.avatar], the argument
    of [getIcons], and for any other report at [personalDetail.login]. *)
Theorem createOption_without_logins_throws (personalDetails : PersonalDetails)
    (report : Report.t) (reportActions : gmap Z (list ReportAction.t))
    (showChatPreviewLine forcePolicyNamePreview : bool) :
  createOption onyx [] personalDetails (Some report) reportActions
    showChatPreviewLine forcePolicyNamePreview
  = Throw (TypeError
             (if ReportUtils.isChatRoom report || ReportUtils.isPolicyExpenseChat report
              then "avatar" else "login")).
Proof.
  unfold createOption. simpl.
  destruct (ReportUtils.isChatRoom report), (ReportUtils.isPolicyExpenseChat report);
    simpl; try reflexivity.
  destruct (showChatPreviewLine && _); reflexivity.
Qed.

End CreateOption.

(** ** The stable sort *)

Section StableSort.

Context {A : Type}.
Variable le : A -> A -> bool.

Lemma insertBy_Permutation (x : A) (l : list A) :
  Permutation (insertBy le x l) (x :: l).
Proof.
  induction l as [|y l IH]; simpl; [reflexivity|].
  destruct (le x y); [reflexivity|].
  rewrite IH. apply perm_swap.
Qed.

Lemma stableSort_Permutation (l : list A) : Permutation (stableSort le l) l.
Proof.
  induction l as [|x l IH]; simpl; [reflexivity|].
  rewrite insertBy_Permutation. now constructor.
Qed.

Lemma stableSort_length (l : list A) : length (stableSort le l) = length l.
Proof. apply Permutation_length, stableSort_Permutation. Qed.

Lemma stableSort_In (l : list A) (x : A) : In x (stableSort le l) <-> In x l.
Proof.
  split; apply Permutation_in;
    [apply stableSort_Permutation | symmetry; apply stableSort_Permutation].
Qed.

(** An element passes the elements that it exceeds and stops at the first
    one that it does not exceed. *)
Lemma insertBy_app_passes (x : A) (l1 l2 : list A) :
  Forall (fun y => le x y = false) l1 ->
  insertBy le x (l1 ++ l2) = l1 ++ insertBy le x l2.
Proof.
  induction 1 as [|y l1 Hy _ IH]; simpl; [reflexivity|].
  now rewrite Hy, IH.
Qed.

Lemma insertBy_stops (x : A) (l : list A) :
  Forall (fun y => le x y = true) l -> insertBy le x l = x :: l.
Proof.
  destruct 1 as [|y l Hy _]; simpl; [reflexivity|]. now rewrite Hy.
Qed.

(** Stability: a class of elements that do not exceed each other keeps its
    order. *)
Lemma insertBy_filter (p : A -> bool) (x : A) (l : list A) :
  (forall a b, p a = true -> p b = true -> le a b = true) ->
  List.filter p (insertBy le x l) = List.filter p (x :: l).
Proof.
  intros Hp. induction l as [|y l IH]; [reflexivity|].
  cbn [insertBy]. destruct (le x y) eqn:Hxy; [reflexivity|].
  cbn [List.filter] in *. rewrite IH.
  destruct (p x) eqn:Hx, (p y) eqn:Hy; try reflexivity.
  rewrite (Hp x y Hx Hy) in Hxy. discriminate.
Qed.

Lemma stableSort_filter (p : A -> bool) (l : list A) :
  (forall a b, p a = true -> p b = true -> le a b = true) ->
  List.filter p (stableSort le l) = List.filter p l.
Proof.
  intros Hp. induction l as [|x l IH]; [reflexivity|].
  cbn [stableSort]. rewrite insertBy_filter by assumption.
  cbn [List.filter]. now rewrite IH.
Qed.

Hypothesis le_total : forall a b, le a b = true \/ le b a = true.
Hypothesis le_trans : forall a b c, le a b = true -> le b c = true -> le a c = true.

Lemma insertBy_sorted (x : A) (l : list A) :
  StronglySorted (fun a b => le a b = true) l ->
  StronglySorted (fun a b => le a b = true) (insertBy le x l).
Proof.
  induction 1 as [|y l Hs IH Hy]; simpl.
  - repeat constructor.
  - destruct (le x y) eqn:Hxy.
    + constructor; [now constructor|].
      constructor; [assumption|].
      eapply List.Forall_impl; [|exact Hy]. intros z Hz. eauto.
    + constructor; [assumption|].
      apply List.Forall_forall. intros z Hz.
      apply (Permutation_in _ (insertBy_Permutation x l)) in Hz.
      destruct Hz as [<-|Hz].
      * destruct (le_total x y) as [H|H]; [congruence|assumption].
      * rewrite List.Forall_forall in Hy. now apply Hy.
Qed.

Lemma stableSort_sorted (l : list A) :
  StronglySorted (fun a b => le a b = true) (stableSort le l).
Proof.
  induction l as [|x l IH]; simpl; [constructor|].
  now apply insertBy_sorted.
Qed.

End StableSort.

(** The orders of the keys are total and transitive. *)
Lemma Zleb_total (a b : Z) : (a <=? b) = true \/ (b <=? a) = true.
Proof. rewrite !Z.leb_le. lia. Qed.

Lemma Zleb_trans (a b c : Z) :
  (a <=? b) = true -> (b <=? c) = true -> (a <=? c) = true.
Proof. rewrite !Z.leb_le. lia. Qed.

Lemma Stringleb_trans (a b c : string) :
  String.leb a b = true -> String.leb b c = true -> String.leb a c = true.
Proof.
  intros H1 H2. apply Is_true_true.
  apply Is_true_true in H1, H2.
  exact (transitivity (R := String.le) H1 H2).
Qed.

Lemma directed_total {K : Type} (leK : K -> K -> bool) (d : Direction) :
  (forall a b, leK a b = true \/ leK b a = true) ->
  forall a b, directed leK d a b = true \/ directed leK d b a = true.
Proof. intros H a b. destruct d; simpl; auto. Qed.

Lemma directed_trans {K : Type} (leK : K -> K -> bool) (d : Direction) :
  (forall a b c, leK a b = true -> leK b c = true -> leK a c = true) ->
  forall a b c,
    directed leK d a b = true -> directed leK d b c = true ->
    directed leK d a c = true.
Proof. intros H a b c. destruct d; simpl; eauto. Qed.

(** [lodashOrderBy] sorts by the key in the requested direction and
    returns a permutation. *)
Lemma lodashOrderByZ_sorted {A : Type} (l : list A) (key : A -> Z) (d : Direction) :
  StronglySorted (fun a b => directed Z.leb d (key a) (key b) = true)
    (lodashOrderByZ l key d).
Proof.
  apply (stableSort_sorted (fun a b => directed Z.leb d (key a) (key b))).
  - intros a b. apply directed_total, Zleb_total.
  - intros a b c. apply directed_trans, Zleb_trans.
Qed.

Lemma lodashOrderByString_sorted {A : Type} (l : list A) (key : A -> string)
    (d : Direction) :
  StronglySorted (fun a b => directed String.leb d (key a) (key b) = true)
    (lodashOrderByString l key d).
Proof.
  apply (stableSort_sorted (fun a b => directed String.leb d (key a) (key b))).
  - intros a b. apply directed_total, String.leb_total.
  - intros a b c. apply directed_trans, Stringleb_trans.
Qed.

Lemma lodashOrderByZ_Permutation {A : Type} (l : list A) (key : A -> Z)
    (d : Direction) : Permutation (lodashOrderByZ l key d) l.
Proof. apply stableSort_Permutation. Qed.

Lemma lodashOrderByString_Permutation {A : Type} (l : list A) (key : A -> string)
    (d : Direction) : Permutation (lodashOrderByString l key d) l.
Proof. apply stableSort_Permutation. Qed.

(** Elements with the same key keep their order. *)
Lemma lodashOrderByZ_stable {A : Type} (l : list A) (key : A -> Z) (d : Direction)
    (k : Z) :
  List.filter (fun a => key a =? k) (lodashOrderByZ l key d)
  = List.filter (fun a => key a =? k) l.
Proof.
  apply stableSort_filter. intros a b Ha Hb.
  apply Z.eqb_eq in Ha, Hb. rewrite Ha, Hb.
  destruct d; simpl; apply Z.leb_refl.
Qed.

Lemma lodashOrderByString_stable {A : Type} (l : list A) (key : A -> string)
    (d : Direction) (k : string) :
  List.filter (fun a => String.eqb (key a) k) (lodashOrderByString l key d)
  = List.filter (fun a => String.eqb (key a) k) l.
Proof.
  apply stableSort_filter. intros a b Ha Hb.
  apply String.eqb_eq in Ha, Hb. rewrite Ha, Hb.
  destruct (String.leb_total k k) as [H|H]; destruct d; exact H.
Qed.

(** [_.sortBy] with a boolean key is the stable partition. *)
Lemma underscoreSortByBool_partition {A : Type} (l : list A) (key : A -> bool) :
  underscoreSortByBool l key
  = List.filter (fun a => negb (key a)) l ++ List.filter key l.
Proof.
  unfold underscoreSortByBool. induction l as [|x l IH]; [reflexivity|].
  cbn [stableSort List.filter]. rewrite IH. destruct (key x) eqn:Hx; simpl.
  - rewrite insertBy_app_passes.
    + f_equal. apply insertBy_stops.
      apply List.Forall_forall. intros y Hy. apply List.filter_In in Hy as [_ Hy].
      now rewrite Hx, Hy.
    + apply List.Forall_forall. intros y Hy. apply List.filter_In in Hy as [_ Hy].
      rewrite Hx. simpl. now apply negb_true_iff.
  - apply insertBy_stops. apply List.Forall_forall. intros y _. now rewrite Hx.
Qed.

(** ** The order of the candidate reports *)

Section OrderReports.

Context {RU : ReportUtils.api}.

Lemma StronglySorted_weaken {A : Type} (R S : A -> A -> Prop) (l : list A) :
  (forall a b, R a b -> S a b) -> StronglySorted R l -> StronglySorted S l.
Proof.
  intros H. induction 1 as [|x l _ IH Hx]; constructor; [assumption|].
  eapply List.Forall_impl; [|exact Hx]. intros b. apply H.
Qed.

Lemma StronglySorted_weaken_In {A : Type} (R S : A -> A -> Prop) (l : list A) :
  (forall a b, In a l -> In b l -> R a b -> S a b) ->
  StronglySorted R l -> StronglySorted S l.
Proof.
  intros H Hl. induction Hl as [|x l _ IH Hx]; constructor.
  - apply IH. intros a b Ha Hb. apply H; now right.
  - apply List.Forall_forall. intros b Hb.
    rewrite List.Forall_forall in Hx. apply H; [now left|now right|now apply Hx].
Qed.

(** The requested sort orders by the key of the configuration. *)
Lemma primarySort_sorted (config : Config.t) (reports : list Report.t) :
  if Config.sortByAlphaAsc config then
    StronglySorted
      (fun a b => String.leb (Report.reportName a) (Report.reportName b) = true)
      (primarySort config reports)
  else if Config.sortByLastMessageTimestamp config then
    StronglySorted
      (fun a b => Report.lastMessageTimestamp b <= Report.lastMessageTimestamp a)
      (primarySort config reports)
  else
    StronglySorted
      (fun a b => Report.lastVisitedTimestamp b <= Report.lastVisitedTimestamp a)
      (primarySort config reports).
Proof.
  unfold primarySort. destruct (Config.sortByAlphaAsc config).
  - apply (lodashOrderByString_sorted reports Report.reportName asc).
  - destruct (Config.sortByLastMessageTimestamp config).
    + pose proof (lodashOrderByZ_sorted reports Report.lastMessageTimestamp desc) as H.
      eapply StronglySorted_weaken; [|exact H]. intros a b. simpl. apply Z.leb_le.
    + pose proof (lodashOrderByZ_sorted reports Report.lastVisitedTimestamp desc) as H.
      eapply StronglySorted_weaken; [|exact H]. intros a b. simpl. apply Z.leb_le.
Qed.

Lemma primarySort_Permutation (config : Config.t) (reports : list Report.t) :
  Permutation (primarySort config reports) reports.
Proof.
  unfold primarySort.
  destruct (Config.sortByAlphaAsc config);
    [|destruct (Config.sortByLastMessageTimestamp config)];
    apply stableSort_Permutation.
Qed.

Lemma filter_filter_same {A : Type} (p : A -> bool) (l : list A) :
  List.filter p (List.filter p l) = List.filter p l.
Proof.
  induction l as [|x l IH]; [reflexivity|].
  simpl. destruct (p x) eqn:Hx; simpl; now rewrite ?Hx, IH.
Qed.

Lemma filter_filter_none {A : Type} (p q : A -> bool) (l : list A) :
  (forall a, q a = true -> p a = false) ->
  List.filter p (List.filter q l) = [].
Proof.
  intros H. induction l as [|x l IH]; [reflexivity|].
  simpl. destruct (q x) eqn:Hx; simpl; [rewrite (H x Hx)|]; exact IH.
Qed.

(** C4. Whatever the requested sort (last message or last visit,
    descending, or name, ascending), the ordered candidates are the
    reports that are not archived rooms, in the order of the requested
    sort, followed by the archived rooms, in the order of the requested
    sort.  So every archived room comes after every other report, and the
    move keeps the relative order inside each of the two groups. *)
Theorem archived_rooms_last (config : Config.t) (reports : list Report.t) :
  let primary := primarySort config reports in
  let ordered := orderReports config reports in
  ordered
  = List.filter (fun r => negb (ReportUtils.isArchivedRoom r)) primary
    ++ List.filter ReportUtils.isArchivedRoom primary
  /\ (forall (i j : nat) (a b : Report.t),
        ordered !! i = Some a -> ordered !! j = Some b ->
        ReportUtils.isArchivedRoom a = true -> ReportUtils.isArchivedRoom b = false ->
        (j < i)%nat)
  /\ List.filter ReportUtils.isArchivedRoom ordered
     = List.filter ReportUtils.isArchivedRoom primary
  /\ List.filter (fun r => negb (ReportUtils.isArchivedRoom r)) ordered
     = List.filter (fun r => negb (ReportUtils.isArchivedRoom r)) primary
  /\ Permutation ordered reports.
Proof.
  intros primary ordered.
  assert (Heq : ordered
                = List.filter (fun r => negb (ReportUtils.isArchivedRoom r)) primary
                  ++ List.filter ReportUtils.isArchivedRoom primary)
    by apply underscoreSortByBool_partition.
  split; [exact Heq|]. split; [|split; [|split]].
  - intros i j a b Hi Hj Ha Hb. rewrite Heq in Hi, Hj.
    apply lookup_app_Some in Hi as [Hi|[Hi _]].
    + apply list_elem_of_lookup_2, list_elem_of_In, List.filter_In in Hi as [_ Hi].
      rewrite Ha in Hi. discriminate.
    + apply lookup_app_Some in Hj as [Hj|[_ Hj]].
      * apply lookup_lt_Some in Hj. lia.
      * apply list_elem_of_lookup_2, list_elem_of_In, List.filter_In in Hj as [_ Hj].
        rewrite Hb in Hj. discriminate.
  - rewrite Heq, List.filter_app, filter_filter_same, filter_filter_none;
      [reflexivity|].
    intros a Ha. now apply negb_true_iff in Ha.
  - rewrite Heq, List.filter_app, filter_filter_same, filter_filter_none.
    + now rewrite app_nil_r.
    + intros a Ha. now rewrite Ha.
  - unfold ordered, orderReports, underscoreSortByBool.
    rewrite stableSort_Permutation. apply primarySort_Permutation.
Qed.

End OrderReports.

(** ** The selection loop *)

Section SelectionLoop.

Variable config : Config.t.

Lemma selectRecentReports_capped (allReportOptions : list Option.t) (s : Selection.t) :
  capReached config s = true -> selectRecentReports config allReportOptions s = s.
Proof. intros H. destruct allReportOptions; simpl; [reflexivity|now rewrite H]. Qed.

(** Once the cap is reached, the rest of the candidates is not looked at. *)
Lemma selectRecentReports_app_capped (pre post : list Option.t) (s : Selection.t) :
  capReached config (selectRecentReports config pre s) = true ->
  selectRecentReports config (pre ++ post) s = selectRecentReports config pre s.
Proof.
  revert s. induction pre as [|o pre IH]; intros s H; simpl in *.
  - now apply selectRecentReports_capped.
  - destruct (capReached config s); [reflexivity|].
    destruct (isSkipped config s o); now apply IH.
Qed.

Lemma selectRecentReports_app (pre post : list Option.t) (s : Selection.t) :
  capReached config (selectRecentReports config pre s) = false ->
  selectRecentReports config (pre ++ post) s
  = selectRecentReports config post (selectRecentReports config pre s).
Proof.
  revert s. induction pre as [|o pre IH]; intros s H; simpl in *; [reflexivity|].
  destruct (capReached config s) eqn:Hc; [congruence|].
  destruct (isSkipped config s o); now apply IH.
Qed.

Lemma accept_recent_length (s : Selection.t) (o : Option.t) :
  (length (Selection.recentReportOptions (accept config s o))
   <= S (length (Selection.recentReportOptions s)))%nat.
Proof.
  unfold accept. repeat (destruct (_ && _); simpl; [lia|]).
  rewrite length_app. simpl. lia.
Qed.

Lemma accept_accepted (s : Selection.t) (o x : Option.t) :
  In x (Selection.accepted (accept config s o)) <-> x = o \/ In x (Selection.accepted s).
Proof.
  unfold accept, Selection.accepted.
  repeat (destruct (_ && _); simpl;
          [rewrite !in_app_iff; simpl; intuition congruence|]).
  rewrite !in_app_iff. simpl. intuition congruence.
Qed.

Lemma accept_accepted_length (s : Selection.t) (o : Option.t) :
  length (Selection.accepted (accept config s o)) = S (length (Selection.accepted s)).
Proof.
  unfold accept, Selection.accepted.
  repeat (destruct (_ && _); simpl; [rewrite !length_app; simpl; lia|]).
  rewrite !length_app. simpl. lia.
Qed.

Lemma selectRecentReports_accepted_mono (allReportOptions : list Option.t)
    (s : Selection.t) (x : Option.t) :
  In x (Selection.accepted s) ->
  In x (Selection.accepted (selectRecentReports config allReportOptions s)).
Proof.
  revert s. induction allReportOptions as [|o rest IH]; intros s H; simpl; [exact H|].
  destruct (capReached config s); [exact H|].
  destruct (isSkipped config s o); apply IH; [exact H|].
  apply accept_accepted. now right.
Qed.

(** The plain recent options never exceed a positive cap. *)
Lemma selectRecentReports_recent_bound (allReportOptions : list Option.t)
    (s : Selection.t) :
  0 < Config.maxRecentReportsToShow config ->
  Z.of_nat (length (Selection.recentReportOptions s))
  <= Config.maxRecentReportsToShow config ->
  Z.of_nat (length (Selection.recentReportOptions
                      (selectRecentReports config allReportOptions s)))
  <= Config.maxRecentReportsToShow config.
Proof.
  intros Hm. revert s.
  induction allReportOptions as [|o rest IH]; intros s H; simpl; [exact H|].
  destruct (capReached config s) eqn:Hc; [exact H|].
  destruct (isSkipped config s o); apply IH; [exact H|].
  pose proof (accept_recent_length s o) as Ha.
  unfold capReached in Hc. apply andb_false_iff in Hc as [Hc|Hc].
  - apply Nat.ltb_ge in Hc. lia.
  - apply Z.eqb_neq in Hc. lia.
Qed.

(** Without a cap the loop never stops early. *)
Lemma capReached_unlimited (s : Selection.t) :
  Config.maxRecentReportsToShow config = 0 -> capReached config s = false.
Proof.
  intros Hm. unfold capReached. rewrite Hm.
  destruct (Selection.recentReportOptions s); reflexivity.
Qed.

(** Without the priority flags every accepted option is a plain recent
    option. *)
Lemma accept_without_priorities (s : Selection.t) (o : Option.t) :
  Config.prioritizePinnedReports config = false ->
  Config.prioritizeIOUDebts config = false ->
  Config.prioritizeReportsWithDraftComments config = false ->
  Selection.accepted s = Selection.recentReportOptions s ->
  Selection.accepted (accept config s o)
  = Selection.recentReportOptions (accept config s o).
Proof.
  intros H1 H2 H3 H. unfold accept. rewrite H1, H2, H3. simpl.
  unfold Selection.accepted in *. simpl.
  assert (Hlen := f_equal (@length _) H). rewrite !length_app in Hlen.
  destruct (Selection.pinnedReportOptions s); [|simpl in Hlen; lia].
  destruct (Selection.iouDebtReportOptions s); [|simpl in Hlen; lia].
  destruct (Selection.draftReportOptions s); [reflexivity|simpl in Hlen; lia].
Qed.

Lemma selectRecentReports_without_priorities (allReportOptions : list Option.t)
    (s : Selection.t) :
  Config.prioritizePinnedReports config = false ->
  Config.prioritizeIOUDebts config = false ->
  Config.prioritizeReportsWithDraftComments config = false ->
  Selection.accepted s = Selection.recentReportOptions s ->
  Selection.accepted (selectRecentReports config allReportOptions s)
  = Selection.recentReportOptions (selectRecentReports config allReportOptions s).
Proof.
  intros H1 H2 H3. revert s.
  induction allReportOptions as [|o rest IH]; intros s H; simpl; [exact H|].
  destruct (capReached config s); [exact H|].
  destruct (isSkipped config s o); apply IH; [exact H|].
  now apply accept_without_priorities.
Qed.

(** C6, as amended. The cap counts the plain recent options only, that
    is the accepted options that go to none of the pinned, IOU and draft
    arrays.  For a cap [m > 0] the plain recent options never exceed [m],
    the loop stops for good once there are [m] of them, and without the
    three priority flags the accepted options are at most [m] in total.
    For [m = 0] no limit applies: every candidate that none of the three
    filters skips is accepted. *)
Theorem cap_counts_plain_recent_options (allReportOptions : list Option.t)
    (loginOptionsToExclude : list (option string)) :
  let start := Selection.start loginOptionsToExclude in
  let s := selectRecentReports config allReportOptions start in
  let m := Config.maxRecentReportsToShow config in
  (0 < m -> Z.of_nat (length (Selection.recentReportOptions s)) <= m)
  /\ (0 < m ->
      forall pre post,
        allReportOptions = pre ++ post ->
        Z.of_nat (length (Selection.recentReportOptions
                            (selectRecentReports config pre start))) = m ->
        s = selectRecentReports config pre start)
  /\ (0 < m ->
      Config.prioritizePinnedReports config = false ->
      Config.prioritizeIOUDebts config = false ->
      Config.prioritizeReportsWithDraftComments config = false ->
      Z.of_nat (length (Selection.accepted s)) <= m)
  /\ (m = 0 ->
      forall pre reportOption post,
        allReportOptions = pre ++ reportOption :: post ->
        isSkipped config (selectRecentReports config pre start) reportOption = false ->
        In reportOption (Selection.accepted s)).
Proof.
  intros start s m. split; [|split; [|split]].
  - intros Hm. apply selectRecentReports_recent_bound; [exact Hm|]. simpl. lia.
  - intros Hm pre post -> Hlen. apply selectRecentReports_app_capped.
    unfold capReached. fold m. rewrite Hlen, Z.eqb_refl, andb_true_r.
    apply Nat.ltb_lt. lia.
  - intros Hm H1 H2 H3. unfold s.
    rewrite selectRecentReports_without_priorities by (assumption || reflexivity).
    apply selectRecentReports_recent_bound; [exact Hm|]. simpl. lia.
  - intros Hm pre o post -> Hskip. unfold s.
    rewrite selectRecentReports_app by now apply capReached_unlimited.
    simpl. rewrite capReached_unlimited by exact Hm. rewrite Hskip.
    apply selectRecentReports_accepted_mono, accept_accepted. now left.
Qed.

(** C7 fails on the code. The option record has no [isDefaultRoom]
    property, so the test that should keep archived default rooms out of
    the pinned array never holds: with [prioritizePinnedReports], every
    accepted pinned option goes to the pinned array, archived or not. *)
Theorem pinned_archived_room_is_prioritized (s : Selection.t) (reportOption : Option.t) :
  Config.prioritizePinnedReports config = true ->
  Option.isPinned reportOption = true ->
  Selection.pinnedReportOptions (accept config s reportOption)
  = Selection.pinnedReportOptions s ++ [reportOption].
Proof.
  intros Hp Ho. unfold accept, Option.isDefaultRoom.
  now rewrite Hp, Ho, andb_false_r.
Qed.

End SelectionLoop.

Section SelectionClasses.

Variable config : Config.t.

Hypothesis prioritizePinned : Config.prioritizePinnedReports config = true.
Hypothesis prioritizeIOU : Config.prioritizeIOUDebts config = true.
Hypothesis prioritizeDrafts : Config.prioritizeReportsWithDraftComments config = true.

Lemma accept_Classified (s : Selection.t) (o : Option.t) :
  Classified s -> Classified (accept config s o).
Proof.
  intros (H1 & H2 & H3 & H4). unfold accept, Option.isDefaultRoom.
  rewrite prioritizePinned, prioritizeIOU, prioritizeDrafts, andb_false_r.
  cbn [negb andb]. rewrite andb_true_r. fold (owesIOUDebt o).
  destruct (Option.isPinned o) eqn:Hp.
  { repeat split; simpl; try assumption. apply Forall_app. split; [assumption|].
    repeat constructor. assumption. }
  destruct (owesIOUDebt o) eqn:Hi.
  { repeat split; simpl; try assumption. apply Forall_app. split; [assumption|].
    repeat constructor; assumption. }
  destruct (Option.hasDraftComment o) eqn:Hd.
  { repeat split; simpl; try assumption. apply Forall_app. split; [assumption|].
    repeat constructor; assumption. }
  repeat split; simpl; try assumption. apply Forall_app. split; [assumption|].
  repeat constructor; assumption.
Qed.

Lemma selectRecentReports_Classified (allReportOptions : list Option.t)
    (s : Selection.t) :
  Classified s -> Classified (selectRecentReports config allReportOptions s).
Proof.
  revert s. induction allReportOptions as [|o rest IH]; intros s H; simpl; [exact H|].
  destruct (capReached config s); [exact H|].
  destruct (isSkipped config s o); apply IH; [exact H|].
  now apply accept_Classified.
Qed.

End SelectionClasses.

(** The loop appends to each array a subsequence of the candidates. *)
Lemma selectRecentReports_order (config : Config.t) (allReportOptions : list Option.t) :
  forall s : Selection.t,
  exists pinned iouDebts drafts recent,
    Selection.pinnedReportOptions (selectRecentReports config allReportOptions s)
    = Selection.pinnedReportOptions s ++ pinned
    /\ Selection.iouDebtReportOptions (selectRecentReports config allReportOptions s)
       = Selection.iouDebtReportOptions s ++ iouDebts
    /\ Selection.draftReportOptions (selectRecentReports config allReportOptions s)
       = Selection.draftReportOptions s ++ drafts
    /\ Selection.recentReportOptions (selectRecentReports config allReportOptions s)
       = Selection.recentReportOptions s ++ recent
    /\ sublist pinned allReportOptions /\ sublist iouDebts allReportOptions
    /\ sublist drafts allReportOptions /\ sublist recent allReportOptions.
Proof.
  induction allReportOptions as [|o rest IH]; intros s; simpl.
  - exists [], [], [], []. rewrite !app_nil_r. repeat split; constructor.
  - destruct (capReached config s).
    { exists [], [], [], []. rewrite !app_nil_r.
      repeat split; apply sublist_nil_l. }
    destruct (isSkipped config s o).
    { destruct (IH s) as (p & i & d & r & Hp & Hi & Hd & Hr & Sp & Si & Sd & Sr).
      exists p, i, d, r. repeat split; try assumption; now apply sublist_cons. }
    destruct (IH (accept config s o))
      as (p & i & d & r & Hp & Hi & Hd & Hr & Sp & Si & Sd & Sr).
    rewrite Hp, Hi, Hd, Hr. unfold accept.
    destruct (_ && _); [|destruct (_ && _); [|destruct (_ && _)]]; simpl.
    + exists (o :: p), i, d, r. rewrite <- app_assoc.
      repeat split; try reflexivity; try (now apply sublist_cons).
      now apply sublist_skip.
    + exists p, (o :: i), d, r. rewrite <- app_assoc.
      repeat split; try reflexivity; try (now apply sublist_cons).
      now apply sublist_skip.
    + exists p, i, (o :: d), r. rewrite <- app_assoc.
      repeat split; try reflexivity; try (now apply sublist_cons).
      now apply sublist_skip.
    + exists p, i, d, (o :: r). rewrite <- app_assoc.
      repeat split; try reflexivity; try (now apply sublist_cons).
      now apply sublist_skip.
Qed.

Lemma selectRecentReports_InCandidateOrder (config : Config.t)
    (allReportOptions : list Option.t) (loginOptionsToExclude : list (option string)) :
  InCandidateOrder
    (selectRecentReports config allReportOptions (Selection.start loginOptionsToExclude))
    allReportOptions.
Proof.
  destruct (selectRecentReports_order config allReportOptions
              (Selection.start loginOptionsToExclude))
    as (p & i & d & r & Hp & Hi & Hd & Hr & Sp & Si & Sd & Sr).
  unfold InCandidateOrder. rewrite Hp, Hi, Hd, Hr. simpl. tauto.
Qed.

(** ** The exclusions *)

Lemma isExcluded_spec (loginOptionsToExclude : list (option string))
    (login : option string) :
  isExcluded loginOptionsToExclude login = true <-> In login loginOptionsToExclude.
Proof.
  unfold isExcluded. rewrite existsb_exists. split.
  - intros (x & Hx & He). apply bool_decide_eq_true in He. now subst.
  - intros H. exists login. split; [assumption|]. now apply bool_decide_eq_true.
Qed.

Lemma accept_exclusions (config : Config.t) (s : Selection.t) (o : Option.t) :
  Selection.loginOptionsToExclude (accept config s o)
  = Selection.loginOptionsToExclude s
    ++ (if Js.truthy (Option.login o) then [Option.login o] else []).
Proof.
  unfold accept.
  destruct (_ && _); [|destruct (_ && _); [|destruct (_ && _)]]; simpl;
    destruct (Js.truthy (Option.login o)); now rewrite ?app_nil_r.
Qed.

Lemma selectRecentReports_LoginsExcluded (config : Config.t)
    (allReportOptions : list Option.t) (s : Selection.t) :
  LoginsExcluded s -> LoginsExcluded (selectRecentReports config allReportOptions s).
Proof.
  revert s. induction allReportOptions as [|o rest IH]; intros s H; simpl; [exact H|].
  destruct (capReached config s); [exact H|].
  destruct (isSkipped config s o); apply IH; [exact H|].
  intros x Hx Ht. rewrite accept_exclusions. apply in_app_iff.
  apply accept_accepted in Hx as [->|Hx].
  - right. rewrite Ht. now left.
  - left. now apply H.
Qed.

Lemma selectRecentReports_exclusions_mono (config : Config.t)
    (allReportOptions : list Option.t) (s : Selection.t) (login : option string) :
  In login (Selection.loginOptionsToExclude s) ->
  In login (Selection.loginOptionsToExclude
              (selectRecentReports config allReportOptions s)).
Proof.
  revert s. induction allReportOptions as [|o rest IH]; intros s H; simpl; [exact H|].
  destruct (capReached config s); [exact H|].
  destruct (isSkipped config s o); apply IH; [exact H|].
  rewrite accept_exclusions. apply in_app_iff. now left.
Qed.

(** ** Recombination *)

Lemma recombine_accepted (config : Config.t) (s : Selection.t) (o : Option.t) :
  In o (recombine config s) -> In o (Selection.accepted s).
Proof.
  unfold recombine, Selection.accepted, lodashOrderByString, lodashOrderByZ.
  destruct (Config.prioritizePinnedReports config),
    (Config.prioritizeIOUDebts config),
    (Config.prioritizeReportsWithDraftComments config);
    rewrite ?in_app_iff, ?stableSort_In; rewrite ?in_app_iff; tauto.
Qed.

Lemma prioritizeDefaultRooms_Permutation (config : Config.t) (l : list Option.t) :
  Permutation (prioritizeDefaultRooms config l) l.
Proof.
  unfold prioritizeDefaultRooms. destruct (_ && _); [|reflexivity].
  induction l as [|x l IH]; [reflexivity|].
  simpl. destruct (Option.isChatRoom x); simpl.
  - now constructor.
  - rewrite <- Permutation_middle. now constructor.
Qed.

Lemma searchModeMerge_recentReports (config : Config.t)
    (recent personalDetails : list Option.t) (invite : option Option.t) (o : Option.t) :
  In o (Options.recentReports (searchModeMerge config recent personalDetails invite)
        ++ Options.personalDetails
             (searchModeMerge config recent personalDetails invite))
  <-> In o (recent ++ personalDetails).
Proof.
  unfold searchModeMerge. destruct (_ && _); simpl; [|reflexivity].
  rewrite app_nil_r. unfold lodashOrderByZ. apply stableSort_In.
Qed.

(** ** The pipeline *)

Section Pipeline.

Context {RU : ReportUtils.api} {PM : Permissions.api} {ST : Str.api}.
Context {LO : Localize.api} {CO : CONST.api}.
Variable onyx : Onyx.t.

(** A call of [getOptions] that returns went through each stage. *)
Lemma getOptions_OK (reports : list Report.t) (personalDetails : PersonalDetails)
    (activeReportID : Z) (config : Config.t) (result : Options.t) :
  getOptions onyx reports personalDetails activeReportID config = OK result ->
  exists allReportOptions reportMapForLogins allPersonalDetailsOptions userToInvite,
    buildReportOptions onyx config personalDetails activeReportID
      (orderReports config reports) ∅ []
    = OK (allReportOptions, reportMapForLogins)
    /\ buildPersonalDetailsOptions onyx config personalDetails reportMapForLogins
       = OK allPersonalDetailsOptions
    /\ inviteOption onyx config personalDetails
         (prioritizeDefaultRooms config
            (recombine config (selection onyx config allReportOptions)))
         (selectPersonalDetails config allPersonalDetailsOptions
            (Selection.loginOptionsToExclude (selection onyx config allReportOptions)))
         (Selection.loginOptionsToExclude (selection onyx config allReportOptions))
       = OK userToInvite
    /\ result
       = searchModeMerge config
           (prioritizeDefaultRooms config
              (recombine config (selection onyx config allReportOptions)))
           (selectPersonalDetails config allPersonalDetailsOptions
              (Selection.loginOptionsToExclude
                 (selection onyx config allReportOptions)))
           userToInvite.
Proof.
  unfold getOptions. intros H.
  destruct (buildReportOptions _ _ _ _ _ _ _) as [[opts m]|e] eqn:Hb;
    [|discriminate]. cbn [bind fst snd] in H.
  destruct (buildPersonalDetailsOptions _ _ _ _) as [pdo|e] eqn:Hp;
    [|discriminate]. cbn [bind] in H.
  destruct (inviteOption _ _ _ _ _ _) as [invite|e] eqn:Hi; [|discriminate].
  cbn [bind] in H. injection H as <-.
  exists opts, m, pdo, invite. auto.
Qed.

Lemma selection_LoginsExcluded (config : Config.t) (allReportOptions : list Option.t) :
  LoginsExcluded (selection onyx config allReportOptions).
Proof.
  unfold selection. destruct (Config.includeRecentReports config).
  - apply selectRecentReports_LoginsExcluded. intros o [].
  - intros o [].
Qed.

Lemma selection_initialExclusions (config : Config.t)
    (allReportOptions : list Option.t) (login : option string) :
  In login (initialExclusions onyx config) ->
  In login (Selection.loginOptionsToExclude (selection onyx config allReportOptions)).
Proof.
  unfold selection. destruct (Config.includeRecentReports config); [|trivial].
  intros H. now apply selectRecentReports_exclusions_mono.
Qed.

(** C1, as amended. With the three priority flags, and unless a later
    step reorders the list (an active search with
    [prioritizeDefaultRoomsInSearch] or [sortByReportTypeInSearch]), the
    recent reports are the pinned options sorted alphabetically by text,
    then the IOU debts sorted by amount, largest first, then the drafts
    sorted alphabetically by text, then the plain recent options in the
    order of the candidates.  The arrays hold the accepted options by
    class: pinned, else IOU debt, else draft, else plain.

    The sort compares the code units of the texts.  [alphabetical] is the
    alphabetical order that the reader has in mind, and the theorem speaks
    of the texts on which it agrees with the order of the code units: how
    texts that differ in the case of their letters are ordered is left
    out. *)
Theorem recombination_order (alphabetical : string -> string -> Prop)
    (reports : list Report.t)
    (personalDetails : PersonalDetails) (activeReportID : Z) (config : Config.t)
    (result : Options.t) :
  getOptions onyx reports personalDetails activeReportID config = OK result ->
  Config.prioritizePinnedReports config = true ->
  Config.prioritizeIOUDebts config = true ->
  Config.prioritizeReportsWithDraftComments config = true ->
  Config.searchValue config = ""
  \/ (Config.prioritizeDefaultRoomsInSearch config = false
      /\ Config.sortByReportTypeInSearch config = false) ->
  (forall a b,
     In a (Options.recentReports result) -> In b (Options.recentReports result) ->
     String.leb (Option.text a) (Option.text b) = true ->
     alphabetical (Option.text a) (Option.text b)) ->
  exists allReportOptions reportMapForLogins pinned iouDebts drafts,
    buildReportOptions onyx config personalDetails activeReportID
      (orderReports config reports) ∅ []
    = OK (allReportOptions, reportMapForLogins)
    /\ Options.recentReports result
       = pinned ++ iouDebts ++ drafts
         ++ Selection.recentReportOptions (selection onyx config allReportOptions)
    /\ Permutation pinned
         (Selection.pinnedReportOptions (selection onyx config allReportOptions))
    /\ StronglySorted
         (fun a b => alphabetical (Option.text a) (Option.text b)) pinned
    /\ Permutation iouDebts
         (Selection.iouDebtReportOptions (selection onyx config allReportOptions))
    /\ StronglySorted
         (fun a b => Option.iouReportAmount b <= Option.iouReportAmount a) iouDebts
    /\ Permutation drafts
         (Selection.draftReportOptions (selection onyx config allReportOptions))
    /\ StronglySorted
         (fun a b => alphabetical (Option.text a) (Option.text b)) drafts
    /\ Classified (selection onyx config allReportOptions)
    /\ InCandidateOrder (selection onyx config allReportOptions) allReportOptions.
Proof.
  intros H Hp Hi Hd Hs Halpha.
  destruct (getOptions_OK _ _ _ _ _ H) as (opts & m & pdo & invite & Hb & _ & _ & ->).
  set (s := selection onyx config opts) in *.
  exists opts, m,
    (lodashOrderByString (Selection.pinnedReportOptions s) Option.text asc),
    (lodashOrderByZ (Selection.iouDebtReportOptions s) Option.iouReportAmount desc),
    (lodashOrderByString (Selection.draftReportOptions s) Option.text asc).
  assert (Hr : Options.recentReports
                 (searchModeMerge config
                    (prioritizeDefaultRooms config (recombine config s))
                    (selectPersonalDetails config pdo
                       (Selection.loginOptionsToExclude s)) invite)
               = lodashOrderByString (Selection.pinnedReportOptions s) Option.text asc
                 ++ lodashOrderByZ (Selection.iouDebtReportOptions s)
                      Option.iouReportAmount desc
                 ++ lodashOrderByString (Selection.draftReportOptions s)
                      Option.text asc
                 ++ Selection.recentReportOptions s).
  { assert (Hm : Config.sortByReportTypeInSearch config
                 && Js.nonEmpty (Config.searchValue config) = false).
    { destruct Hs as [->|[_ ->]]; [apply andb_false_r|reflexivity]. }
    assert (Hr : Config.prioritizeDefaultRoomsInSearch config
                 && Js.nonEmpty (Config.searchValue config) = false).
    { destruct Hs as [->|[-> _]]; [apply andb_false_r|reflexivity]. }
    unfold searchModeMerge, prioritizeDefaultRooms, recombine.
    rewrite Hm, Hr, Hp, Hi, Hd. reflexivity. }
  rewrite Hr in Halpha.
  split; [exact Hb|]. split; [exact Hr|].
  split; [apply lodashOrderByString_Permutation|].
  split.
  { eapply StronglySorted_weaken_In;
      [|apply (lodashOrderByString_sorted _ Option.text asc)].
    intros a b Ha Hb'. apply Halpha; apply in_or_app; now left. }
  split; [apply lodashOrderByZ_Permutation|].
  split.
  { eapply StronglySorted_weaken;
      [|apply (lodashOrderByZ_sorted _ Option.iouReportAmount desc)].
    intros a b. simpl. apply Z.leb_le. }
  split; [apply lodashOrderByString_Permutation|].
  split.
  { eapply StronglySorted_weaken_In;
      [|apply (lodashOrderByString_sorted _ Option.text asc)].
    intros a b Ha Hb'.
    apply Halpha; apply in_or_app; right; apply in_or_app; right;
      apply in_or_app; now left. }
  unfold s, selection. destruct (Config.includeRecentReports config).
    + split; [|apply selectRecentReports_InCandidateOrder].
      apply selectRecentReports_Classified; try assumption.
      repeat split; constructor.
    + split; [repeat split; constructor|].
      repeat split; apply sublist_nil_l.
Qed.

(** C9, as amended. No login that is not empty is both the login of a
    returned recent report and the login of a returned personal detail:
    the login of an accepted recent option is excluded before the personal
    details are selected, unless it is missing or empty. *)
Theorem recent_logins_not_in_personalDetails (reports : list Report.t)
    (personalDetails : PersonalDetails) (activeReportID : Z) (config : Config.t)
    (result : Options.t) (login : option string) :
  getOptions onyx reports personalDetails activeReportID config = OK result ->
  Js.truthy login = true ->
  In login (map Option.login (Options.recentReports result)) ->
  Forall (fun personalDetailOption => Option.login personalDetailOption <> login)
    (Options.personalDetails result).
Proof.
  intros H Ht Hr. apply List.Forall_forall. intros p Hpd Hlogin.
  destruct (getOptions_OK _ _ _ _ _ H) as (opts & m & pdo & invite & _ & _ & _ & ->).
  unfold searchModeMerge in Hr, Hpd.
  destruct (_ && _); simpl in Hr, Hpd; [contradiction|].
  apply in_map_iff in Hr as (o & <- & Ho).
  apply (Permutation_in _ (prioritizeDefaultRooms_Permutation _ _)) in Ho.
  apply recombine_accepted in Ho.
  pose proof (selection_LoginsExcluded config opts o Ho Ht) as He.
  unfold selectPersonalDetails in Hpd.
  destruct (Config.includePersonalDetails config); [|contradiction].
  apply List.filter_In in Hpd as [_ Hpd].
  apply andb_true_iff in Hpd as [Hpd _]. apply negb_true_iff in Hpd.
  rewrite Hlogin in Hpd. apply isExcluded_spec in He. congruence.
Qed.

(** What [inviteOption] checks before it makes an option. *)
Lemma inviteOption_Some (config : Config.t) (personalDetails : PersonalDetails)
    (recent selected : list Option.t) (loginOptionsToExclude : list (option string))
    (invite : Option.t) :
  inviteOption onyx config personalDetails recent selected loginOptionsToExclude
  = OK (Some invite) ->
  let searchValue := Config.searchValue config in
  searchValue <> ""
  /\ (forall o, In o (recent ++ selected) ->
                Option.login o <> Some (Js.toLowerCase searchValue))
  /\ isCurrentUser onyx (Some searchValue) = OK false
  /\ (forall o, In o (Config.selectedOptions config) ->
                Option.login o <> Some searchValue)
  /\ ((Str.isValidEmail searchValue = true /\ Str.isDomainEmail searchValue = false)
      \/ Str.isValidPhone searchValue = true)
  /\ ~ In (Some (Js.toLowerCase (addSMSDomainIfPhoneNumber onyx searchValue)))
         loginOptionsToExclude
  /\ (searchValue = CONST.EMAIL_CHRONOS ->
      Permissions.canUseChronos (Config.betas config) = true).
Proof.
  intros H searchValue. unfold inviteOption in H. fold searchValue in H.
  destruct (Js.nonEmpty searchValue && _) eqn:Hfirst; [|discriminate].
  apply andb_true_iff in Hfirst as [Hne Hno].
  destruct (isCurrentUser onyx (Some searchValue)) as [isCurrent|e] eqn:Hc;
    [|discriminate]. cbn [bind] in H.
  destruct (negb isCurrent && _ && _ && _ && _) eqn:Hconds; [|discriminate].
  repeat (apply andb_true_iff in Hconds as [Hconds ?]).
  apply negb_true_iff in Hconds. subst isCurrent.
  split; [intros E; rewrite E in Hne; discriminate|].
  split.
  { intros o Ho Hl. apply orb_true_iff in Hno as [Hno|Hno].
    - apply Nat.eqb_eq in Hno. apply in_app_iff in Ho.
      destruct recent, selected; simpl in *; try lia; tauto.
    - apply negb_true_iff in Hno.
      assert (Hex : existsb
                      (fun o => bool_decide
                                  (Option.login o = Some (Js.toLowerCase searchValue)))
                      (selected ++ recent) = true).
      { apply existsb_exists. exists o. split.
        - apply in_app_iff. apply in_app_iff in Ho. tauto.
        - now apply bool_decide_eq_true. }
      congruence. }
  split; [reflexivity|].
  split.
  { intros o Ho Hl.
    match goal with
    | Hf : forallb _ _ = true |- _ =>
        rewrite forallb_forall in Hf; specialize (Hf o Ho);
        apply negb_true_iff, bool_decide_eq_false in Hf; contradiction
    end. }
  split.
  { match goal with
    | Hv : (_ && negb _) || _ = true |- _ =>
        apply orb_true_iff in Hv as [Hv|Hv]; [left|now right];
        apply andb_true_iff in Hv as [? Hv]; apply negb_true_iff in Hv; tauto
    end. }
  split.
  { intros Hin. apply isExcluded_spec in Hin.
    match goal with
    | Hx : negb (isExcluded _ _) = true |- _ => apply negb_true_iff in Hx; congruence
    end. }
  intros Heq.
  match goal with
  | Hch : negb (String.eqb _ _) || _ = true |- _ =>
      apply orb_true_iff in Hch as [Hch|Hch]; [|exact Hch];
      apply negb_true_iff, String.eqb_neq in Hch; contradiction
  end.
Qed.

(** The flags of an option are those of its report. *)
Lemma createOption_isArchivedRoom (logins : list string)
    (personalDetails : PersonalDetails) (report : option Report.t)
    (reportActions : gmap Z (list ReportAction.t))
    (showChatPreviewLine forcePolicyNamePreview : bool) (o : Option.t) :
  createOption onyx logins personalDetails report reportActions
    showChatPreviewLine forcePolicyNamePreview = OK o ->
  Option.isArchivedRoom o = from_option ReportUtils.isArchivedRoom false report.
Proof.
  unfold createOption. intros H. cbv zeta in H.
  repeat match type of H with
         | bind ?r _ = OK _ => destruct r eqn:?; cbn [bind] in H; [|discriminate]
         end.
  injection H as <-. reflexivity.
Qed.

(** The candidate options follow the ordered reports that pass the
    filter, one option per report. *)
Lemma buildReportOptions_archived (config : Config.t)
    (personalDetails : PersonalDetails) (activeReportID : Z)
    (orderedReports : list Report.t) :
  forall (reportMapForLogins reportMapForLogins' : gmap string Report.t)
         (allReportOptions allReportOptions' : list Option.t),
    buildReportOptions onyx config personalDetails activeReportID orderedReports
      reportMapForLogins allReportOptions
    = OK (allReportOptions', reportMapForLogins') ->
    map Option.isArchivedRoom allReportOptions'
    = map Option.isArchivedRoom allReportOptions
      ++ map ReportUtils.isArchivedRoom
           (List.filter
              (fun r => negb (isReportExcluded onyx config activeReportID r))
              orderedReports).
Proof.
  induction orderedReports as [|report rest IH]; intros m m' acc acc' H; simpl in H.
  - injection H as <- _. cbn [List.filter map]. now rewrite app_nil_r.
  - cbn [List.filter].
    destruct (isReportExcluded onyx config activeReportID report); cbn [negb].
    + now apply IH in H.
    + destruct (createReportOption onyx config personalDetails report)
        as [reportOption|e] eqn:Hc; [|discriminate].
      cbn [bind] in H. apply IH in H. rewrite H, map_app, <- app_assoc.
      cbn [map app]. do 2 f_equal.
      unfold createReportOption in Hc.
      now apply createOption_isArchivedRoom in Hc.
Qed.

(** Among the candidate options too, the archived rooms come last. *)
Lemma candidate_options_archived_last (reports : list Report.t)
    (personalDetails : PersonalDetails) (activeReportID : Z) (config : Config.t)
    (allReportOptions : list Option.t) (reportMapForLogins : gmap string Report.t)
    (i j : nat) (a b : Option.t) :
  buildReportOptions onyx config personalDetails activeReportID
    (orderReports config reports) ∅ []
  = OK (allReportOptions, reportMapForLogins) ->
  allReportOptions !! i = Some a -> allReportOptions !! j = Some b ->
  Option.isArchivedRoom a = true -> Option.isArchivedRoom b = false ->
  (j < i)%nat.
Proof.
  intros H Hi Hj Ha Hb. apply buildReportOptions_archived in H.
  unfold orderReports in H. rewrite underscoreSortByBool_partition in H.
  rewrite List.filter_app, map_app in H. cbn [map app] in H.
  assert (Hi' : map Option.isArchivedRoom allReportOptions !! i = Some true)
    by now rewrite list_lookup_fmap, Hi; simpl; rewrite Ha.
  assert (Hj' : map Option.isArchivedRoom allReportOptions !! j = Some false)
    by now rewrite list_lookup_fmap, Hj; simpl; rewrite Hb.
  rewrite H in Hi', Hj'.
  apply lookup_app_Some in Hi' as [Hi'|[Hi' _]].
  - apply list_elem_of_lookup_2, list_elem_of_In, in_map_iff in Hi'
      as (r & Hr & Hin).
    apply List.filter_In in Hin as [Hin _]. apply List.filter_In in Hin as [_ Hin].
    rewrite Hr in Hin. discriminate.
  - apply lookup_app_Some in Hj' as [Hj'|[_ Hj']].
    + apply lookup_lt_Some in Hj'. lia.
    + apply list_elem_of_lookup_2, list_elem_of_In, in_map_iff in Hj'
        as (r & Hr & Hin).
      apply List.filter_In in Hin as [Hin _]. apply List.filter_In in Hin as [_ Hin].
      rewrite Hr in Hin. discriminate.
Qed.

(** What the guard of the invitation tests, comparison by comparison.
    An invitation is suggested only if the search value is not empty, is a
    valid email that is not a domain email or a valid phone number, is not
    the current user and is not the login of a selected option, and if
    moreover its lowercased form is the login of no returned option and
    the lowercased form of its SMS login is not in the exclusions (the
    selected options, the current user, the logins to exclude and the
    logins of the accepted recent options).  The reserved Chronos address
    also needs its permission. *)
Theorem userToInvite_only_if (reports : list Report.t)
    (personalDetails : PersonalDetails) (activeReportID : Z) (config : Config.t)
    (result : Options.t) (invite : Option.t) :
  getOptions onyx reports personalDetails activeReportID config = OK result ->
  Options.userToInvite result = Some invite ->
  Config.searchValue config <> ""
  /\ ((Str.isValidEmail (Config.searchValue config) = true
       /\ Str.isDomainEmail (Config.searchValue config) = false)
      \/ Str.isValidPhone (Config.searchValue config) = true)
  /\ (forall o,
        In o (Options.recentReports result ++ Options.personalDetails result) ->
        Option.login o <> Some (Js.toLowerCase (Config.searchValue config)))
  /\ isCurrentUser onyx (Some (Config.searchValue config)) = OK false
  /\ (forall o, In o (Config.selectedOptions config) ->
                Option.login o <> Some (Config.searchValue config))
  /\ ~ In (Some (Js.toLowerCase
                   (addSMSDomainIfPhoneNumber onyx (Config.searchValue config))))
         (initialExclusions onyx config)
  /\ (exists allReportOptions reportMapForLogins,
        buildReportOptions onyx config personalDetails activeReportID
          (orderReports config reports) ∅ []
        = OK (allReportOptions, reportMapForLogins)
        /\ ~ In (Some (Js.toLowerCase
                         (addSMSDomainIfPhoneNumber onyx (Config.searchValue config))))
               (Selection.loginOptionsToExclude
                  (selection onyx config allReportOptions)))
  /\ (Config.searchValue config = CONST.EMAIL_CHRONOS ->
      Permissions.canUseChronos (Config.betas config) = true).
Proof.
  intros H Hinvite.
  destruct (getOptions_OK _ _ _ _ _ H) as (opts & m & pdo & invite' & Hb & _ & Hi & ->).
  assert (Hu : Options.userToInvite (searchModeMerge config
                 (prioritizeDefaultRooms config
                    (recombine config (selection onyx config opts)))
                 (selectPersonalDetails config pdo
                    (Selection.loginOptionsToExclude (selection onyx config opts)))
                 invite') = invite').
  { unfold searchModeMerge. now destruct (_ && _). }
  rewrite Hu in Hinvite. subst invite'.
  destruct (inviteOption_Some _ _ _ _ _ _ Hi) as (H1 & H2 & H3 & H4 & H5 & H6 & H7).
  split; [exact H1|]. split; [exact H5|]. split.
  { intros o Ho. apply searchModeMerge_recentReports in Ho. now apply H2. }
  split; [exact H3|]. split; [exact H4|]. split.
  { intros Hin. apply H6. now apply selection_initialExclusions. }
  split; [|exact H7].
  exists opts, m. split; [exact Hb|exact H6].
Qed.

End Pipeline.

(** * Further properties *)

(** ** Characters and strings *)

Lemma lowerChar_idem (c : ascii) : Js.lowerChar (Js.lowerChar c) = Js.lowerChar c.
Proof. destruct c as [[] [] [] [] [] [] [] []]; reflexivity. Qed.

Lemma toLowerCase_idem (s : string) :
  Js.toLowerCase (Js.toLowerCase s) = Js.toLowerCase s.
Proof.
  induction s as [|c s IH]; [reflexivity|].
  simpl. now rewrite lowerChar_idem, IH.
Qed.

Lemma removeChar_append (c : ascii) (a b : string) :
  Js.removeChar c (a +:+ b) = Js.removeChar c a +:+ Js.removeChar c b.
Proof.
  induction a as [|d a IH]; [reflexivity|].
  rewrite append_cons. simpl. destruct (Ascii.eqb d c); [exact IH|].
  now rewrite append_cons, IH.
Qed.

Lemma replaceChar_append (c d : ascii) (a b : string) :
  Js.replaceChar c d (a +:+ b) = Js.replaceChar c d a +:+ Js.replaceChar c d b.
Proof.
  induction a as [|e a IH]; [reflexivity|].
  rewrite append_cons. simpl. now rewrite append_cons, IH.
Qed.

(** Splitting at a separator that is known to be there. *)
Lemma split_append_sep (c : ascii) (a b : string) :
  Js.split c (a +:+ String c b) = Js.split c a ++ Js.split c b.
Proof.
  induction a as [|d a IH].
  - rewrite append_empty_l. simpl. now rewrite Ascii.eqb_refl.
  - rewrite append_cons. cbn [Js.split]. rewrite IH.
    destruct (Ascii.eqb d c); [reflexivity|].
    pose proof (split_nonempty c a) as Hn.
    destruct (Js.split c a); [contradiction|reflexivity].
Qed.

Lemma forallb_pointwise {A : Type} (f g : A -> bool) (l : list A) :
  (forall x, In x l -> f x = g x) -> forallb f l = forallb g l.
Proof.
  induction l as [|x l IH]; intros H; [reflexivity|].
  simpl. rewrite (H x) by now left. rewrite IH; [reflexivity|].
  intros y Hy. apply H. now right.
Qed.

Lemma forallb_of_map {A B : Type} (f : A -> B) (p : B -> bool) (l : list A) :
  forallb p (map f l) = forallb (fun x => p (f x)) l.
Proof. induction l as [|x l IH]; [reflexivity|]. simpl. now rewrite IH. Qed.

Lemma includes_empty (s : string) : Js.includes "" s = true.
Proof. destruct s; reflexivity. Qed.

(** ** Queries *)

Lemma searchWords_append_space (q1 q2 : string) :
  searchWords (q1 +:+ String " " q2) = searchWords q1 ++ searchWords q2.
Proof.
  unfold searchWords.
  rewrite removeChar_append. cbn [Js.removeChar]. change (Ascii.eqb " " ".") with false.
  cbn iota. rewrite replaceChar_append. cbn [Js.replaceChar].
  change (Ascii.eqb " " ",") with false. cbn iota.
  now rewrite split_append_sep, map_app.
Qed.

Lemma searchWords_append_comma (q1 q2 : string) :
  searchWords (q1 +:+ String "," q2) = searchWords q1 ++ searchWords q2.
Proof.
  unfold searchWords.
  rewrite removeChar_append. cbn [Js.removeChar]. change (Ascii.eqb "," ".") with false.
  cbn iota. rewrite replaceChar_append. cbn [Js.replaceChar].
  change (Ascii.eqb "," ",") with true. cbn iota.
  now rewrite split_append_sep, map_app.
Qed.

(** X11. A query of two parts separated by a space or by a comma matches
    exactly when both parts match. *)
Theorem isSearchStringMatch_both_parts (q1 q2 searchText : string)
    (participantNames : gset string) (isChatRoom : bool) :
  isSearchStringMatch (q1 +:+ String " " q2) searchText participantNames isChatRoom
  = isSearchStringMatch q1 searchText participantNames isChatRoom
    && isSearchStringMatch q2 searchText participantNames isChatRoom
  /\ isSearchStringMatch (q1 +:+ String "," q2) searchText participantNames isChatRoom
     = isSearchStringMatch q1 searchText participantNames isChatRoom
       && isSearchStringMatch q2 searchText participantNames isChatRoom.
Proof.
  unfold isSearchStringMatch.
  rewrite searchWords_append_space, searchWords_append_comma, !forallb_app.
  split; reflexivity.
Qed.

(** X12. The dots of a query do not count: a query with a dot matches
    exactly when the query without it does. *)
Theorem isSearchStringMatch_ignores_dots (q1 q2 searchText : string)
    (participantNames : gset string) (isChatRoom : bool) :
  isSearchStringMatch (q1 +:+ String "." q2) searchText participantNames isChatRoom
  = isSearchStringMatch (q1 +:+ q2) searchText participantNames isChatRoom.
Proof.
  unfold isSearchStringMatch, searchWords.
  rewrite !removeChar_append. cbn [Js.removeChar].
  change (Ascii.eqb "." ".") with true. cbn iota. reflexivity.
Qed.

(** X9. For a chat room the participant names play no part, and a query
    that matches a chat room matches every option with the same search
    text. *)
Theorem isSearchStringMatch_room_ignores_names (searchValue searchText : string)
    (participantNames participantNames' : gset string) (isChatRoom : bool) :
  isSearchStringMatch searchValue searchText participantNames true
  = isSearchStringMatch searchValue searchText ∅ true
  /\ (isSearchStringMatch searchValue searchText participantNames true = true ->
      isSearchStringMatch searchValue searchText participantNames' isChatRoom = true).
Proof.
  unfold isSearchStringMatch. split.
  - apply forallb_pointwise. intros word _. reflexivity.
  - rewrite !forallb_forall. intros H word Hin. specialize (H word Hin).
    cbn [negb andb] in H. rewrite orb_false_r in H. now rewrite H.
Qed.

(** The words of a query made of separators only are all empty. *)
Lemma removeChar_allChars (p : ascii -> bool) (c : ascii) (s : string) :
  allChars p s = true -> allChars p (Js.removeChar c s) = true.
Proof.
  induction s as [|d s IH]; [reflexivity|].
  simpl. intros H. apply andb_true_iff in H as [Hd Hs].
  destruct (Ascii.eqb d c); simpl; [now apply IH|]. now rewrite Hd, IH.
Qed.

Lemma separators_to_spaces (s : string) :
  allChars separatorChar s = true ->
  allChars Ascii.is_space (Js.replaceChar "," " " (Js.removeChar "." s)) = true.
Proof.
  induction s as [|d s IH]; [reflexivity|].
  simpl. intros H. apply andb_true_iff in H as [Hd Hs].
  destruct (Ascii.eqb_spec d ".") as [->|Hdot]; [now apply IH|].
  simpl. rewrite (IH Hs), andb_true_r.
  destruct (Ascii.eqb_spec d ",") as [->|Hcomma]; [reflexivity|].
  unfold separatorChar in Hd.
  apply (proj2 (Ascii.eqb_neq _ _)) in Hdot, Hcomma.
  now rewrite Hdot, Hcomma, !orb_false_r in Hd.
Qed.

Lemma split_allChars (p : ascii -> bool) (c : ascii) (s w : string) :
  allChars p s = true -> In w (Js.split c s) -> allChars p w = true.
Proof.
  revert w. induction s as [|d s IH]; intros w H.
  - simpl. intros [<-|[]]. reflexivity.
  - simpl in H. apply andb_true_iff in H as [Hd Hs]. cbn [Js.split].
    pose proof (split_nonempty c s) as Hn.
    destruct (Ascii.eqb d c).
    + intros [<-|Hw]; [reflexivity|now apply IH].
    + destruct (Js.split c s) as [|w0 ws]; [contradiction|].
      intros [<-|Hw].
      * simpl. rewrite Hd. apply IH; [assumption|now left].
      * apply IH; [assumption|now right].
Qed.

Lemma trim_spaces (s : string) : allChars Ascii.is_space s = true -> Js.trim s = "".
Proof.
  unfold Js.trim. induction s as [|c s IH]; [reflexivity|].
  simpl. intros H. apply andb_true_iff in H as [Hc Hs]. rewrite Hc. now apply IH.
Qed.

(** X10. A query made only of spaces, dots and commas (an empty query for
    one) matches every option. *)
Theorem isSearchStringMatch_blank_query (searchValue searchText : string)
    (participantNames : gset string) (isChatRoom : bool) :
  allChars separatorChar searchValue = true ->
  isSearchStringMatch searchValue searchText participantNames isChatRoom = true.
Proof.
  intros H. unfold isSearchStringMatch, searchWords.
  apply forallb_forall. intros word Hin.
  apply in_map_iff in Hin as (w & <- & Hw).
  rewrite trim_spaces.
  - unfold Js.testIgnoreCase. simpl. now rewrite includes_empty.
  - eapply split_allChars; [|exact Hw]. now apply separators_to_spaces.
Qed.

(** ** The case of a query *)

Lemma lowerChar_dot (c : ascii) : Ascii.eqb (Js.lowerChar c) "." = Ascii.eqb c ".".
Proof. destruct c as [[] [] [] [] [] [] [] []]; reflexivity. Qed.

Lemma lowerChar_comma (c : ascii) : Ascii.eqb (Js.lowerChar c) "," = Ascii.eqb c ",".
Proof. destruct c as [[] [] [] [] [] [] [] []]; reflexivity. Qed.

Lemma lowerChar_space (c : ascii) : Ascii.eqb (Js.lowerChar c) " " = Ascii.eqb c " ".
Proof. destruct c as [[] [] [] [] [] [] [] []]; reflexivity. Qed.

Lemma lowerChar_is_space (c : ascii) :
  Ascii.is_space (Js.lowerChar c) = Ascii.is_space c.
Proof. destruct c as [[] [] [] [] [] [] [] []]; reflexivity. Qed.

Lemma toLowerCase_removeChar_dot (s : string) :
  Js.removeChar "." (Js.toLowerCase s) = Js.toLowerCase (Js.removeChar "." s).
Proof.
  induction s as [|c s IH]; [reflexivity|].
  simpl. rewrite lowerChar_dot. destruct (Ascii.eqb c "."); simpl; now rewrite IH.
Qed.

Lemma toLowerCase_replaceChar_comma (s : string) :
  Js.replaceChar "," " " (Js.toLowerCase s)
  = Js.toLowerCase (Js.replaceChar "," " " s).
Proof.
  induction s as [|c s IH]; [reflexivity|].
  simpl. rewrite lowerChar_comma, IH. now destruct (Ascii.eqb c ",").
Qed.

Lemma toLowerCase_split_space (s : string) :
  Js.split " " (Js.toLowerCase s) = map Js.toLowerCase (Js.split " " s).
Proof.
  induction s as [|c s IH]; [reflexivity|].
  cbn [Js.toLowerCase Js.split]. rewrite lowerChar_space, IH.
  destruct (Ascii.eqb c " "); [reflexivity|].
  now destruct (Js.split " " s).
Qed.

Lemma toLowerCase_trimStart (s : string) :
  Js.trimStart (Js.toLowerCase s) = Js.toLowerCase (Js.trimStart s).
Proof.
  induction s as [|c s IH]; [reflexivity|].
  simpl. rewrite lowerChar_is_space. now destruct (Ascii.is_space c).
Qed.

Lemma toLowerCase_trimEnd (s : string) :
  Js.trimEnd (Js.toLowerCase s) = Js.toLowerCase (Js.trimEnd s).
Proof.
  induction s as [|c s IH]; [reflexivity|].
  simpl. rewrite IH, lowerChar_is_space.
  destruct (Js.trimEnd s); simpl; [now destruct (Ascii.is_space c)|reflexivity].
Qed.

Lemma toLowerCase_trim (s : string) :
  Js.trim (Js.toLowerCase s) = Js.toLowerCase (Js.trim s).
Proof. unfold Js.trim. now rewrite toLowerCase_trimStart, toLowerCase_trimEnd. Qed.

Lemma searchWords_toLowerCase (q : string) :
  searchWords (Js.toLowerCase q) = map Js.toLowerCase (searchWords q).
Proof.
  unfold searchWords.
  rewrite toLowerCase_removeChar_dot, toLowerCase_replaceChar_comma,
    toLowerCase_split_space, !map_map.
  apply map_ext. intros w. apply toLowerCase_trim.
Qed.

(** X13. Lowercasing a query of ASCII characters never loses a match when
    no participant name has an ASCII capital letter, as is the case of the
    names of [getParticipantNames]; for a chat room the case of the letters
    of such a query makes no difference at all. *)
Theorem isSearchStringMatch_lowercased_query (searchValue searchText : string)
    (participantNames : gset string) (isChatRoom : bool) :
  asciiString searchValue = true ->
  (forall name, name ∈ participantNames -> Js.toLowerCase name = name) ->
  (isSearchStringMatch searchValue searchText participantNames isChatRoom = true ->
   isSearchStringMatch (Js.toLowerCase searchValue) searchText participantNames
     isChatRoom = true)
  /\ isSearchStringMatch (Js.toLowerCase searchValue) searchText participantNames true
     = isSearchStringMatch searchValue searchText participantNames true.
Proof.
  intros _ Hnames. unfold isSearchStringMatch. rewrite searchWords_toLowerCase. split.
  - rewrite !forallb_forall. intros H word Hin.
    apply in_map_iff in Hin as (w & <- & Hw). specialize (H w Hw).
    unfold Js.testIgnoreCase in *. rewrite toLowerCase_idem.
    apply orb_true_iff in H as [H|H]; [now rewrite H|].
    apply andb_true_iff in H as [Hr Hn]. rewrite Hr. cbn [andb].
    apply bool_decide_eq_true in Hn. apply orb_true_iff. right.
    apply bool_decide_eq_true. now rewrite (Hnames w Hn).
  - rewrite forallb_of_map. apply forallb_pointwise. intros w _.
    unfold Js.testIgnoreCase. now rewrite toLowerCase_idem.
Qed.

(** ** [getParticipantNames] *)

Lemma nonEmpty_spec (s : string) : Js.nonEmpty s = true <-> s <> "".
Proof. destruct s; simpl; split; congruence. Qed.

Lemma getParticipantNames_fold (personalDetailList : list PersonalDetail.t) :
  forall (acc : gset string) (name : string),
    name ∈ fold_left
             (fun participantNames participant =>
                let s1 :=
                  if Js.nonEmpty (PersonalDetail.login participant)
                  then participantNames
                       ∪ {[Js.toLowerCase (PersonalDetail.login participant)]}
                  else participantNames in
                let s2 :=
                  if Js.nonEmpty (PersonalDetail.firstName participant)
                  then s1 ∪ {[Js.toLowerCase (PersonalDetail.firstName participant)]}
                  else s1 in
                let s3 :=
                  if Js.nonEmpty (PersonalDetail.lastName participant)
                  then s2 ∪ {[Js.toLowerCase (PersonalDetail.lastName participant)]}
                  else s2 in
                if Js.nonEmpty (PersonalDetail.displayName participant)
                then s3 ∪ {[Js.toLowerCase (PersonalDetail.displayName participant)]}
                else s3)
             personalDetailList acc
    <-> name ∈ acc
        \/ exists participant, In participant personalDetailList
                               /\ isNameOf participant name.
Proof.
  induction personalDetailList as [|p l IH]; intros acc name; cbn [fold_left].
  - split; [auto|]. intros [H|(q & [] & _)]. exact H.
  - rewrite IH. clear IH. unfold isNameOf. cbn zeta.
    assert (Hfield : forall (s : gset string) (field : string),
               name ∈ (if Js.nonEmpty field then s ∪ {[Js.toLowerCase field]} else s)
               <-> name ∈ s \/ (field <> "" /\ name = Js.toLowerCase field)).
    { intros s field. destruct field; simpl.
      - split; [auto|]. intros [H|[H _]]; [exact H|congruence].
      - rewrite elem_of_union, elem_of_singleton. split.
        + intros [H|H]; [auto|]. right. split; [discriminate|exact H].
        + intros [H|[_ H]]; auto. }
    rewrite !Hfield. split.
    + intros [[[[[H|H]|H]|H]|H]|(q & Hq & Hn)]; [now left|..].
      * right. exists p. split; [now left|].
        exists (PersonalDetail.login p). simpl. tauto.
      * right. exists p. split; [now left|].
        exists (PersonalDetail.firstName p). simpl. tauto.
      * right. exists p. split; [now left|].
        exists (PersonalDetail.lastName p). simpl. tauto.
      * right. exists p. split; [now left|].
        exists (PersonalDetail.displayName p). simpl. tauto.
      * right. exists q. split; [now right|exact Hn].
    + intros [H|(q & [<-|Hq] & Hn)]; [tauto| |right; eauto].
      destruct Hn as (field & Hin & Hne & ->). left. simpl in Hin.
      destruct Hin as [<-|[<-|[<-|[<-|[]]]]]; tauto.
Qed.

(** X4. The set of participant names holds exactly the lowercased logins,
    first names, last names and display names that are not empty. *)
Theorem getParticipantNames_spec (personalDetailList : list PersonalDetail.t)
    (name : string) :
  name ∈ getParticipantNames personalDetailList
  <-> exists participant, In participant personalDetailList
                          /\ isNameOf participant name.
Proof.
  unfold getParticipantNames. rewrite getParticipantNames_fold. split.
  - intros [H|H]; [|exact H]. now apply not_elem_of_empty in H.
  - auto.
Qed.

(** X5. Every participant name of the set is in lower case, so a word
    with a capital letter is never found in it. *)
Theorem getParticipantNames_lowercase (personalDetailList : list PersonalDetail.t)
    (name : string) :
  name ∈ getParticipantNames personalDetailList -> Js.toLowerCase name = name.
Proof.
  unfold getParticipantNames. rewrite getParticipantNames_fold.
  intros [H|(p & _ & field & _ & _ & ->)].
  - now apply not_elem_of_empty in H.
  - apply toLowerCase_idem.
Qed.

(** C2. A word typed with a capital letter is never found in the set of
    participant names, whose members are all lowercased: a query of one
    such word does not match unless the search text contains the word, also
    when the lowercased word is a participant name.  The code looks the
    word up as it was typed, where the claim has the lowercased word. *)
Theorem isSearchStringMatch_capital_misses_name (word searchText : string)
    (personalDetailList : list PersonalDetail.t) (isChatRoom : bool) :
  asciiString word = true ->
  searchWords word = [word] ->
  Js.toLowerCase word <> word ->
  Js.testIgnoreCase word (Js.removeAll "&nbsp;" searchText) = false ->
  isSearchStringMatch word searchText (getParticipantNames personalDetailList)
    isChatRoom = false.
Proof.
  intros _ Hword Hcapital Htext. unfold isSearchStringMatch.
  rewrite Hword. cbn [forallb]. rewrite Htext, andb_true_r. cbn [orb].
  apply andb_false_iff. right. apply bool_decide_eq_false.
  unfold getParticipantNames. rewrite getParticipantNames_fold.
  intros [H|(p & _ & field & _ & _ & Hname)].
  - now apply not_elem_of_empty in H.
  - apply Hcapital. rewrite Hname. apply toLowerCase_idem.
Qed.

(** ** [getPersonalDetailsForLogins] *)

Lemma hasDetail_spec (m : PersonalDetails) (key : string) :
  hasDetail m key = true <-> key ∈ map fst m.
Proof.
  unfold hasDetail. induction m as [|[k w] m IH]; cbn [existsb map fst].
  - split; [discriminate|]. intros H. inversion H.
  - rewrite orb_true_iff, IH, elem_of_cons, String.eqb_eq.
    split; (intros [H|H]; [left; now symmetry|now right]).
Qed.

Lemma lookupDetail_None (m : PersonalDetails) (key : string) :
  lookupDetail m key = None <-> key ∉ map fst m.
Proof.
  induction m as [|[k w] m IH]; cbn [lookupDetail map fst].
  - split; [|reflexivity]. intros _ H. inversion H.
  - rewrite not_elem_of_cons. destruct (String.eqb_spec k key) as [->|Hk].
    + split; [discriminate|]. intros [H _]. contradiction.
    + rewrite IH. split; [|tauto]. intros H. split; [congruence|exact H].
Qed.

Lemma lookupDetail_replaceDetail (m : PersonalDetails) (key key' : string)
    (v : PersonalDetail.t) :
  hasDetail m key = true ->
  lookupDetail (replaceDetail m key v) key'
  = if String.eqb key key' then Some v else lookupDetail m key'.
Proof.
  unfold hasDetail.
  induction m as [|[k w] m IH]; cbn [existsb fst]; [discriminate|].
  intros H. cbn [replaceDetail lookupDetail].
  destruct (String.eqb_spec k key) as [->|Hk].
  - cbn [lookupDetail]. now destruct (String.eqb key key').
  - cbn [lookupDetail orb] in *. rewrite (IH H).
    destruct (String.eqb_spec k key') as [->|_]; [|reflexivity].
    apply String.eqb_neq in Hk. rewrite String.eqb_sym in Hk. now rewrite Hk.
Qed.

Lemma lookupDetail_insertDetail (m : PersonalDetails) (key key' : string)
    (v : PersonalDetail.t) :
  hasDetail m key = false ->
  lookupDetail (insertDetail m key v) key'
  = if String.eqb key key' then Some v else lookupDetail m key'.
Proof.
  unfold hasDetail.
  induction m as [|[k w] m IH]; cbn [existsb fst insertDetail]; [reflexivity|].
  intros H. apply orb_false_iff in H as [Hk H].
  destruct (Js.listedBefore key k); [reflexivity|].
  cbn [lookupDetail]. rewrite (IH H).
  destruct (String.eqb_spec k key') as [->|_]; [|reflexivity].
  rewrite String.eqb_sym in Hk. now rewrite Hk.
Qed.

(** Reading after an assignment. *)
Lemma lookupDetail_assignDetail (m : PersonalDetails) (key key' : string)
    (v : PersonalDetail.t) :
  lookupDetail (assignDetail m key v) key'
  = if String.eqb key "__proto__" then lookupDetail m key'
    else if String.eqb key key' then Some v else lookupDetail m key'.
Proof.
  unfold assignDetail. destruct (String.eqb key "__proto__"); [reflexivity|].
  destruct (hasDetail m key) eqn:H.
  - now apply lookupDetail_replaceDetail.
  - now apply lookupDetail_insertDetail.
Qed.

Lemma keys_replaceDetail (m : PersonalDetails) (key : string) (v : PersonalDetail.t) :
  map fst (replaceDetail m key v) = map fst m.
Proof.
  induction m as [|[k w] m IH]; [reflexivity|].
  cbn [replaceDetail]. destruct (String.eqb k key); cbn [map fst]; [reflexivity|].
  now rewrite IH.
Qed.

Lemma keys_insertDetail_elem (m : PersonalDetails) (key k : string)
    (v : PersonalDetail.t) :
  k ∈ map fst (insertDetail m key v) <-> k = key \/ k ∈ map fst m.
Proof.
  induction m as [|[k0 w] m IH]; cbn [insertDetail map fst].
  - rewrite list_elem_of_singleton. split; [tauto|].
    intros [H|H]; [exact H|inversion H].
  - destruct (Js.listedBefore key k0); cbn [map fst].
    + now rewrite elem_of_cons.
    + rewrite !elem_of_cons, IH. tauto.
Qed.

(** The keys after an assignment: none more for [__proto__] or for a key
    that is there. *)
Lemma keys_assignDetail_elem (m : PersonalDetails) (key k : string)
    (v : PersonalDetail.t) :
  k ∈ map fst (assignDetail m key v)
  <-> k ∈ map fst m \/ (k = key /\ key <> "__proto__").
Proof.
  unfold assignDetail. destruct (String.eqb_spec key "__proto__") as [->|Hp].
  - split; [tauto|]. intros [H|[_ H]]; [exact H|contradiction].
  - destruct (hasDetail m key) eqn:H.
    + rewrite keys_replaceDetail. apply hasDetail_spec in H. split; [tauto|].
      intros [Hk|[-> _]]; assumption.
    + rewrite keys_insertDetail_elem. tauto.
Qed.

Lemma keys_insertDetail_NoDup (m : PersonalDetails) (key : string)
    (v : PersonalDetail.t) :
  key ∉ map fst m -> NoDup (map fst m) -> NoDup (map fst (insertDetail m key v)).
Proof.
  induction m as [|[k w] m IH]; cbn [insertDetail map fst]; intros Hk Hm.
  - now constructor.
  - destruct (Js.listedBefore key k); cbn [map fst].
    + now constructor.
    + apply not_elem_of_cons in Hk as [Hne Hk].
      apply NoDup_cons in Hm as [Hkm Hm]. constructor; [|now apply IH].
      rewrite keys_insertDetail_elem. intros [->|H]; contradiction.
Qed.

Lemma keys_assignDetail_NoDup (m : PersonalDetails) (key : string)
    (v : PersonalDetail.t) :
  NoDup (map fst m) -> NoDup (map fst (assignDetail m key v)).
Proof.
  intros Hm. unfold assignDetail. destruct (String.eqb key "__proto__"); [exact Hm|].
  destruct (hasDetail m key) eqn:H.
  - now rewrite keys_replaceDetail.
  - apply keys_insertDetail_NoDup; [|exact Hm].
    intros Hin. apply hasDetail_spec in Hin. congruence.
Qed.

(** A key that is not listed before an old key may come after it, and a key
    that is listed before an old key comes before all that follow it. *)
Lemma keyOrder_after (new old : string) :
  Js.listedBefore new old = false -> Js.keyOrder old new.
Proof.
  unfold Js.listedBefore, Js.keyOrder.
  destruct (Js.arrayIndex new) as [i|], (Js.arrayIndex old) as [j|];
    try (intros; exact I); try discriminate.
  intros H. apply N.ltb_ge in H. exact H.
Qed.

Lemma keyOrder_before (new old later : string) :
  Js.listedBefore new old = true ->
  (old = later \/ Js.keyOrder old later) -> Js.keyOrder new later.
Proof.
  unfold Js.listedBefore, Js.keyOrder. intros H [<-|Hl]; revert H.
  - destruct (Js.arrayIndex new) as [i|], (Js.arrayIndex old) as [j|];
      try discriminate; try (intros; exact I).
    intros H. apply N.ltb_lt in H. lia.
  - revert Hl.
    destruct (Js.arrayIndex new) as [i|], (Js.arrayIndex old) as [j|],
      (Js.arrayIndex later) as [l|];
      try discriminate; try (intros; exact I); try contradiction.
    intros Hl H. apply N.ltb_lt in H. lia.
Qed.

Lemma keys_insertDetail_sorted (m : PersonalDetails) (key : string)
    (v : PersonalDetail.t) :
  StronglySorted Js.keyOrder (map fst m) ->
  StronglySorted Js.keyOrder (map fst (insertDetail m key v)).
Proof.
  induction m as [|[k w] m IH]; cbn [insertDetail map fst]; intros Hm.
  - repeat constructor.
  - apply StronglySorted_inv in Hm as [Hm Hk].
    destruct (Js.listedBefore key k) eqn:Hb; cbn [map fst].
    + constructor; [now constructor|].
      constructor; [apply (keyOrder_before key k k Hb); now left|].
      eapply List.Forall_impl; [|exact Hk].
      intros later Hl. apply (keyOrder_before key k later Hb). now right.
    + constructor; [now apply IH|].
      apply List.Forall_forall. intros k' Hin.
      apply list_elem_of_In, keys_insertDetail_elem in Hin as [->|Hin].
      * now apply keyOrder_after.
      * rewrite List.Forall_forall in Hk. apply Hk. now apply list_elem_of_In.
Qed.

Lemma keys_assignDetail_sorted (m : PersonalDetails) (key : string)
    (v : PersonalDetail.t) :
  StronglySorted Js.keyOrder (map fst m) ->
  StronglySorted Js.keyOrder (map fst (assignDetail m key v)).
Proof.
  intros Hm. unfold assignDetail. destruct (String.eqb key "__proto__"); [exact Hm|].
  destruct (hasDetail m key).
  - now rewrite keys_replaceDetail.
  - now apply keys_insertDetail_sorted.
Qed.

(** A name that is no array index goes to the end; an array index leaves
    the other names as they are. *)
Lemma keys_insertDetail_name (m : PersonalDetails) (key : string)
    (v : PersonalDetail.t) :
  Js.isArrayIndex key = false -> map fst (insertDetail m key v) = map fst m ++ [key].
Proof.
  intros Hk.
  assert (Hb : forall k, Js.listedBefore key k = false).
  { intros k. unfold Js.listedBefore. unfold Js.isArrayIndex in Hk.
    now destruct (Js.arrayIndex key). }
  induction m as [|[k w] m IH]; cbn [insertDetail map fst app]; [reflexivity|].
  rewrite Hb. cbn [map fst]. now rewrite IH.
Qed.

Lemma keys_insertDetail_index (m : PersonalDetails) (key : string)
    (v : PersonalDetail.t) :
  Js.isArrayIndex key = true ->
  List.filter (fun k => negb (Js.isArrayIndex k)) (map fst (insertDetail m key v))
  = List.filter (fun k => negb (Js.isArrayIndex k)) (map fst m).
Proof.
  intros Hk. induction m as [|[k w] m IH]; cbn [insertDetail map fst].
  - cbn [List.filter]. now rewrite Hk.
  - destruct (Js.listedBefore key k); cbn [map fst List.filter].
    + now rewrite Hk.
    + now rewrite IH.
Qed.

Lemma firstOccurrencesFrom_same (items before before' : list string) :
  (forall y, y ∈ before' <-> y ∈ before) ->
  firstOccurrencesFrom before' items = firstOccurrencesFrom before items.
Proof.
  revert before before'.
  induction items as [|item rest IH]; intros before before' Hb; [reflexivity|].
  cbn [firstOccurrencesFrom].
  rewrite (IH (before ++ [item]) (before' ++ [item])).
  - f_equal. case_bool_decide as H1; case_bool_decide as H2; try reflexivity.
    + apply Hb in H1. contradiction.
    + apply Hb in H2. contradiction.
  - intros y. rewrite !elem_of_app, Hb. tauto.
Qed.

Lemma inheritedName_proto (key : string) :
  Js.inheritedName key = false -> key <> "__proto__".
Proof. intros H ->. discriminate. Qed.

Section PersonalDetailsForLogins.

Context {RU : ReportUtils.api} {ST : Str.api}.
Variable personalDetails : PersonalDetails.

Lemma getPersonalDetailsForLogins_fold (logins : list string) :
  forall acc : PersonalDetails,
    (forall key,
       lookupDetail
         (fold_left
            (fun m login => assignDetail m login (personalDetailFor personalDetails login))
            logins acc) key
       = if bool_decide (key ∈ logins) && negb (String.eqb key "__proto__")
         then Some (personalDetailFor personalDetails key)
         else lookupDetail acc key)
    /\ (NoDup (map fst acc) ->
        NoDup
          (map fst
             (fold_left
                (fun m login =>
                   assignDetail m login (personalDetailFor personalDetails login))
                logins acc)))
    /\ (StronglySorted Js.keyOrder (map fst acc) ->
        StronglySorted Js.keyOrder
          (map fst
             (fold_left
                (fun m login =>
                   assignDetail m login (personalDetailFor personalDetails login))
                logins acc)))
    /\ List.filter (fun k => negb (Js.isArrayIndex k))
         (map fst
            (fold_left
               (fun m login =>
                  assignDetail m login (personalDetailFor personalDetails login))
               logins acc))
       = List.filter (fun k => negb (Js.isArrayIndex k)) (map fst acc)
         ++ firstOccurrencesFrom
              (List.filter (fun k => negb (Js.isArrayIndex k)) (map fst acc))
              (List.filter nameKey logins).
Proof.
  induction logins as [|login rest IH]; intros acc; cbn [fold_left].
  - split; [reflexivity|]. split; [tauto|]. split; [tauto|].
    simpl. now rewrite app_nil_r.
  - destruct (IH (assignDetail acc login (personalDetailFor personalDetails login)))
      as (IH1 & IH2 & IH3 & IH4). split; [|split; [|split]].
    + intros key. rewrite IH1, lookupDetail_assignDetail.
      destruct (String.eqb_spec key "__proto__") as [->|Hkey];
        cbn [negb]; rewrite ?andb_false_r, ?andb_true_r.
      * now destruct (String.eqb_spec login "__proto__").
      * case_bool_decide as H1; case_bool_decide as H2; try reflexivity.
        -- exfalso. apply H2. now right.
        -- apply elem_of_cons in H2 as [->|H2]; [|contradiction].
           apply String.eqb_neq in Hkey. now rewrite Hkey, String.eqb_refl.
        -- destruct (String.eqb login "__proto__"); [reflexivity|].
           destruct (String.eqb_spec login key) as [->|]; [|reflexivity].
           exfalso. apply H2. now left.
    + intros H. now apply IH2, keys_assignDetail_NoDup.
    + intros H. now apply IH3, keys_assignDetail_sorted.
    + rewrite IH4. clear IH1 IH2 IH3 IH4. unfold assignDetail, nameKey.
      cbn [List.filter].
      destruct (String.eqb_spec login "__proto__") as [->|Hp].
      { rewrite andb_false_r. reflexivity. }
      rewrite andb_true_r.
      destruct (Js.isArrayIndex login) eqn:Hidx; cbn [negb].
      { destruct (hasDetail acc login);
          [now rewrite keys_replaceDetail|now rewrite keys_insertDetail_index]. }
      cbn [firstOccurrencesFrom].
      destruct (hasDetail acc login) eqn:Hhas.
      * rewrite keys_replaceDetail. apply hasDetail_spec in Hhas.
        assert (Hin : login ∈ List.filter (fun k => negb (Js.isArrayIndex k))
                                 (map fst acc)).
        { apply list_elem_of_In, List.filter_In. split; [now apply list_elem_of_In|].
          now rewrite Hidx. }
        rewrite bool_decide_eq_true_2 by exact Hin. cbn [app]. f_equal.
        symmetry. apply firstOccurrencesFrom_same.
        intros y. rewrite elem_of_app, list_elem_of_singleton. split; [|tauto].
        intros [Hy| ->]; assumption.
      * rewrite keys_insertDetail_name by exact Hidx.
        rewrite List.filter_app. cbn [List.filter]. rewrite Hidx. cbn [negb].
        rewrite bool_decide_eq_false_2.
        -- now rewrite <- app_assoc.
        -- intros Hin. apply list_elem_of_In, List.filter_In in Hin as [Hin _].
           apply list_elem_of_In, hasDetail_spec in Hin. congruence.
Qed.

(** X2. The result of [getPersonalDetailsForLogins] has a property of its
    own for a login that was asked for, and none for another name: it
    holds the known personal detail of the login, or its placeholder.  The
    names that an object inherits are left out. *)
Theorem getPersonalDetailsForLogins_lookup (logins : list string) (key : string) :
  Js.inheritedName key = false ->
  lookupDetail (getPersonalDetailsForLogins logins personalDetails) key
  = if bool_decide (key ∈ logins)
    then Some (personalDetailFor personalDetails key)
    else None.
Proof.
  intros Hkey. apply inheritedName_proto, String.eqb_neq in Hkey.
  unfold getPersonalDetailsForLogins.
  etransitivity; [exact (proj1 (getPersonalDetailsForLogins_fold logins []) key)|].
  rewrite Hkey, andb_true_r. reflexivity.
Qed.

Lemma getPersonalDetailsForLogins_elem (logins : list string) (key : string) :
  key ∈ map fst (getPersonalDetailsForLogins logins personalDetails)
  <-> key ∈ logins /\ key <> "__proto__".
Proof.
  pose proof (proj1 (getPersonalDetailsForLogins_fold logins []) key) as H.
  change (lookupDetail (getPersonalDetailsForLogins logins personalDetails) key
          = if bool_decide (key ∈ logins) && negb (String.eqb key "__proto__")
            then Some (personalDetailFor personalDetails key)
            else None) in H.
  destruct (decide (key ∈ map fst (getPersonalDetailsForLogins logins personalDetails)))
    as [Hin|Hin].
  - split; [|intros _; exact Hin]. intros _.
    destruct (bool_decide (key ∈ logins)) eqn:H1;
      destruct (String.eqb_spec key "__proto__") as [H2|H2];
      cbn [andb negb] in H;
      try (apply lookupDetail_None in H; contradiction).
    apply bool_decide_eq_true in H1. tauto.
  - split; [contradiction|]. intros [H1 H2].
    apply lookupDetail_None in Hin. rewrite Hin in H.
    rewrite bool_decide_eq_true_2 in H by exact H1.
    apply String.eqb_neq in H2. rewrite H2 in H. discriminate.
Qed.

(** X3. The result of [getPersonalDetailsForLogins] has one key per
    distinct login, [__proto__] apart, which never becomes a key.  The
    logins that are array indices come first, in ascending order; the
    other logins follow in the order in which they first occur. *)
Theorem getPersonalDetailsForLogins_keys (logins : list string) :
  NoDup (map fst (getPersonalDetailsForLogins logins personalDetails))
  /\ (forall key,
        key ∈ map fst (getPersonalDetailsForLogins logins personalDetails)
        <-> key ∈ logins /\ key <> "__proto__")
  /\ StronglySorted Js.keyOrder
       (map fst (getPersonalDetailsForLogins logins personalDetails))
  /\ List.filter (fun key => negb (Js.isArrayIndex key))
       (map fst (getPersonalDetailsForLogins logins personalDetails))
     = firstOccurrences (List.filter nameKey logins)
  /\ (length (getPersonalDetailsForLogins logins personalDetails)
      <= length logins)%nat.
Proof.
  destruct (getPersonalDetailsForLogins_fold logins []) as (_ & Hn & Hs & Hf).
  assert (Hnodup : NoDup (map fst (getPersonalDetailsForLogins logins personalDetails))).
  { apply Hn. constructor. }
  split; [exact Hnodup|].
  split; [apply getPersonalDetailsForLogins_elem|].
  split; [apply Hs; constructor|].
  split; [exact Hf|].
  rewrite <- (length_map fst). apply submseteq_length, NoDup_submseteq; [exact Hnodup|].
  intros key Hkey. now apply getPersonalDetailsForLogins_elem in Hkey.
Qed.

Lemma getPersonalDetailsForLogins_nil (logins : list string) :
  getPersonalDetailsForLogins logins personalDetails = []
  <-> Forall (fun login => login = "__proto__") logins.
Proof.
  split.
  - intros Hnil. apply List.Forall_forall. intros login Hin.
    destruct (String.eqb_spec login "__proto__") as [E|Hne]; [exact E|].
    exfalso.
    assert (H : login ∈ map fst (getPersonalDetailsForLogins logins personalDetails)).
    { apply getPersonalDetailsForLogins_elem. split; [now apply list_elem_of_In|].
      exact Hne. }
    rewrite Hnil in H. inversion H.
  - intros Hall.
    destruct (getPersonalDetailsForLogins logins personalDetails) as [|[k v] m] eqn:Hm;
      [reflexivity|].
    assert (H : k ∈ map fst (getPersonalDetailsForLogins logins personalDetails)).
    { rewrite Hm. left. }
    apply getPersonalDetailsForLogins_elem in H as [Hin Hne].
    rewrite List.Forall_forall in Hall. apply list_elem_of_In, Hall in Hin.
    contradiction.
Qed.

Lemma getPersonalDetailsForLogins_length (logins : list string) :
  Forall (fun login => login <> "__proto__") logins ->
  length (getPersonalDetailsForLogins logins personalDetails)
  = length (firstOccurrences logins).
Proof.
  intros Hall. rewrite <- (length_map fst). apply Permutation_length.
  apply NoDup_Permutation.
  - destruct (getPersonalDetailsForLogins_fold logins []) as (_ & Hn & _).
    apply Hn. constructor.
  - apply firstOccurrencesFrom_NoDup.
  - intros key. rewrite getPersonalDetailsForLogins_elem.
    unfold firstOccurrences. rewrite firstOccurrencesFrom_elem.
    rewrite List.Forall_forall in Hall. split.
    + intros [H _]. split; [exact H|]. intros H'. inversion H'.
    + intros [H _]. split; [exact H|]. now apply Hall, list_elem_of_In.
Qed.

(** The first login keeps the first place when no later login is an array
    index. *)
Lemma getPersonalDetailsForLogins_head (login : string) (rest : list string) :
  login <> "__proto__" ->
  Forall (fun l => Js.isArrayIndex l = false) rest ->
  exists others,
    getPersonalDetailsForLogins (login :: rest) personalDetails
    = (login, personalDetailFor personalDetails login) :: others.
Proof.
  intros Hp Hrest. unfold getPersonalDetailsForLogins. cbn [fold_left].
  unfold assignDetail at 2. apply String.eqb_neq in Hp. rewrite Hp.
  cbn [hasDetail existsb insertDetail].
  change (exists others,
            fold_left
              (fun m l => assignDetail m l (personalDetailFor personalDetails l))
              rest [(login, personalDetailFor personalDetails login)]
            = (login, personalDetailFor personalDetails login) :: others).
  generalize (@nil (string * PersonalDetail.t)).
  induction Hrest as [|l rest Hl Hrest IH]; intros m; cbn [fold_left]; [eauto|].
  unfold assignDetail at 2.
  destruct (String.eqb l "__proto__"); [apply IH|].
  destruct (hasDetail _ l).
  - cbn [replaceDetail]. destruct (String.eqb_spec login l) as [<-|_]; apply IH.
  - cbn [insertDetail].
    assert (Hb : Js.listedBefore l login = false).
    { unfold Js.listedBefore. unfold Js.isArrayIndex in Hl.
      now destruct (Js.arrayIndex l). }
    rewrite Hb. apply IH.
Qed.

End PersonalDetailsForLogins.

(** ** [addSMSDomainIfPhoneNumber] and [isCurrentUser] *)

Section Logins.

Context {ST : Str.api} {CO : CONST.api}.
Variable onyx : Onyx.t.

Lemma includes_prefix (p s rest : string) :
  Js.includes p s = true -> Js.includes p (rest +:+ s) = true.
Proof.
  intros H. apply includes_spec in H as (pre & post & ->).
  apply includes_spec. exists (rest +:+ pre), post. now rewrite append_assoc.
Qed.

(** X1. A login that is not a phone number, or that is an email, is left
    as it is.  A phone number gets the SMS domain at its end, and a plus
    sign: its own if it has one, else the one of the country code in
    front. *)
Theorem addSMSDomainIfPhoneNumber_spec (login : string) :
  (Str.isValidPhone login = false \/ Str.isValidEmail login = true ->
   addSMSDomainIfPhoneNumber onyx login = login)
  /\ (Str.isValidPhone login = true -> Str.isValidEmail login = false ->
      Js.includes "+" (addSMSDomainIfPhoneNumber onyx login) = true
      /\ exists prefix,
           addSMSDomainIfPhoneNumber onyx login = prefix +:+ login +:+ CONST.SMS_DOMAIN
           /\ (Js.includes "+" (login +:+ CONST.SMS_DOMAIN) = true -> prefix = "")).
Proof.
  unfold addSMSDomainIfPhoneNumber. split.
  - intros [->| ->]; [reflexivity|]. now rewrite andb_false_r.
  - intros -> ->. cbn [negb andb].
    destruct (Js.includes "+" (login +:+ CONST.SMS_DOMAIN)) eqn:Hplus.
    + split; [exact Hplus|]. exists "". split; [reflexivity|auto].
    + split.
      * apply includes_spec.
        exists "", (from_option Js.ofZ "undefined" (Onyx.countryCodeByIP onyx)
                    +:+ login +:+ CONST.SMS_DOMAIN).
        reflexivity.
      * exists ("+" +:+ from_option Js.ofZ "undefined" (Onyx.countryCodeByIP onyx)).
        split; [now rewrite append_assoc|discriminate].
Qed.

Lemma isCurrentUserLoop_spec (loginList : list Onyx.LoginEntry)
    (userDetailsLogin : string) (result : bool) :
  isCurrentUserLoop loginList userDetailsLogin result
  = result
    || existsb
         (fun entry =>
            String.eqb (Js.toLowerCase (Onyx.partnerUserID entry))
                       (Js.toLowerCase userDetailsLogin))
         loginList.
Proof.
  revert result. induction loginList as [|entry rest IH]; intros result.
  - destruct result; reflexivity.
  - simpl. destruct result; [reflexivity|]. rewrite IH. reflexivity.
Qed.

(** X14. Once the session and the login list are known, [isCurrentUser]
    tells whether the login, with its SMS domain, is the login of the
    current user or one of the logins of the login list, whatever the case
    of the letters. *)
Theorem isCurrentUser_spec (login currentUserLogin : string)
    (loginList : list Onyx.LoginEntry) :
  Onyx.currentUserLogin onyx = Some currentUserLogin ->
  Onyx.loginList onyx = Some loginList ->
  exists result,
    isCurrentUser onyx (Some login) = OK result
    /\ (result = true
        <-> Js.toLowerCase currentUserLogin
            = Js.toLowerCase (addSMSDomainIfPhoneNumber onyx login)
            \/ exists entry,
                 In entry loginList
                 /\ Js.toLowerCase (Onyx.partnerUserID entry)
                    = Js.toLowerCase (addSMSDomainIfPhoneNumber onyx login)).
Proof.
  intros Hc Hl. unfold isCurrentUser. rewrite Hc, Hl. cbn [bind].
  eexists. split; [reflexivity|].
  rewrite isCurrentUserLoop_spec, orb_true_iff, String.eqb_eq, existsb_exists.
  split; intros [H|(entry & Hin & H)]; auto; right; exists entry;
    (split; [exact Hin|]); now apply String.eqb_eq.
Qed.

End Logins.

(** ** [getBrickRoadIndicatorStatusForReport] *)

Section BrickRoad.

Context {CO : CONST.api}.

(** X6. The indicator is either empty or the error status.  It is empty
    exactly when the report has no error, none of its fields has one, and,
    for a report with an identifier, none of its actions has one. *)
Theorem getBrickRoadIndicatorStatusForReport_spec (report : Report.t)
    (reportActions : gmap Z (list ReportAction.t)) :
  CONST.BRICK_ROAD_INDICATOR_STATUS_ERROR <> "" ->
  (getBrickRoadIndicatorStatusForReport report reportActions = ""
   \/ getBrickRoadIndicatorStatusForReport report reportActions
      = CONST.BRICK_ROAD_INDICATOR_STATUS_ERROR)
  /\ (getBrickRoadIndicatorStatusForReport report reportActions = ""
      <-> Report.errors report = []
          /\ Forall (fun fieldErrors => snd fieldErrors = []) (Report.errorFields report)
          /\ forall reportID actions,
               Report.reportID report = Some reportID ->
               reportActions !! reportID = Some actions ->
               Forall (fun action => ReportAction.errors action = []) actions).
Proof.
  intros Hne. unfold getBrickRoadIndicatorStatusForReport.
  assert (Hlen : forall (A : Type) (l : list A), Nat.eqb (length l) 0 = true <-> l = []).
  { intros A l. destruct l; simpl; split; congruence. }
  assert (Hex : forall (A B : Type) (f : A -> list B) (l : list A),
             existsb (fun x => negb (Nat.eqb (length (f x)) 0)) l = false
             <-> Forall (fun x => f x = []) l).
  { intros A B f l. induction l as [|x l IH]; simpl.
    - split; [constructor|reflexivity].
    - rewrite orb_false_iff, negb_false_iff, Hlen, IH. split.
      + intros [H1 H2]. now constructor.
      + intros H. inversion H. tauto. }
  destruct (Nat.eqb (length (Report.errors report)) 0 && _ && _) eqn:Hc.
  - split; [now left|]. split; [intros _|reflexivity].
    apply andb_true_iff in Hc as [Hc H3]. apply andb_true_iff in Hc as [H1 H2].
    apply Hlen in H1. apply negb_true_iff in H2, H3.
    apply (Hex _ _ snd) in H2. split; [exact H1|]. split; [exact H2|].
    intros reportID actions Hid Ha. rewrite Hid, Ha in H3. simpl in H3.
    now apply (Hex _ _ ReportAction.errors) in H3.
  - split; [now right|]. split; [intros H; now apply Hne in H|].
    intros (H1 & H2 & H3). exfalso.
    apply Hlen in H1. apply (Hex _ _ snd) in H2. rewrite H1, H2 in Hc.
    cbn [negb andb] in Hc. apply negb_false_iff in Hc.
    destruct (Report.reportID report) as [reportID|]; [|discriminate].
    destruct (reportActions !! reportID) as [actions|] eqn:Ha; [|discriminate].
    simpl in Hc. specialize (H3 reportID actions eq_refl Ha).
    apply (Hex _ _ ReportAction.errors) in H3. congruence.
Qed.

End BrickRoad.

(** ** [createOption] *)

Section CreateOptionFields.

Context {RU : ReportUtils.api} {ST : Str.api} {LO : Localize.api} {CO : CONST.api}.
Variable onyx : Onyx.t.

Ltac createOption_inversion H :=
  unfold createOption in H; cbv zeta in H;
  repeat match type of H with
         | bind ?r _ = OK _ => destruct r eqn:?; cbn [bind] in H; [|discriminate]
         end;
  injection H as <-.

Lemma createOption_flags (logins : list string) (personalDetails : PersonalDetails)
    (report : option Report.t) (reportActions : gmap Z (list ReportAction.t))
    (showChatPreviewLine forcePolicyNamePreview : bool) (o : Option.t) :
  createOption onyx logins personalDetails report reportActions
    showChatPreviewLine forcePolicyNamePreview = OK o ->
  Option.isChatRoom o = from_option ReportUtils.isChatRoom false report
  /\ Option.isPolicyExpenseChat o = from_option ReportUtils.isPolicyExpenseChat false report
  /\ Option.reportID o = from_option Report.reportID None report
  /\ Option.isPinned o = from_option Report.isPinned false report
  /\ Option.hasDraftComment o = from_option Report.hasDraft false report
  /\ Option.participantsList o
     = map snd (getPersonalDetailsForLogins logins personalDetails)
  /\ Option.text o
     = ReportUtils.getReportName report
         (getPersonalDetailsForLogins logins personalDetails) (Onyx.policies onyx)
  /\ Option.searchText o
     = getSearchText onyx report (Option.text o) (Option.participantsList o)
         (Option.isChatRoom o || Option.isPolicyExpenseChat o).
Proof.
  intros H. createOption_inversion H. repeat split; reflexivity.
Qed.

Lemma readDetail_Some {A : Type} (name : string) (d : PersonalDetail.t)
    (get : PersonalDetail.t -> A) :
  readDetail name (Some d) get = OK (get d).
Proof. reflexivity. Qed.

Lemma if_OK {A : Type} (b : bool) (x y : A) :
  (if b then OK x else OK y) = OK (if b then x else y).
Proof. now destruct b. Qed.

(** With a first personal detail at hand, [createOption] returns, and the
    login and the key of the option are as follows. *)
Lemma createOption_login (logins : list string) (personalDetails : PersonalDetails)
    (report : option Report.t) (reportActions : gmap Z (list ReportAction.t))
    (showChatPreviewLine forcePolicyNamePreview : bool)
    (d : PersonalDetail.t) (rest : list PersonalDetail.t) :
  map snd (getPersonalDetailsForLogins logins personalDetails) = d :: rest ->
  exists o,
    createOption onyx logins personalDetails report reportActions
      showChatPreviewLine forcePolicyNamePreview = OK o
    /\ Option.login o
       = (if (1 <? length (d :: rest))%nat
             || from_option ReportUtils.isChatRoom false report
             || from_option ReportUtils.isPolicyExpenseChat false report
          then None else Some (PersonalDetail.login d))
    /\ Option.keyForList o
       = match report with
         | Some r => from_option Js.ofZ "undefined" (Report.reportID r)
         | None => PersonalDetail.login d
         end.
Proof.
  intros Hl. unfold createOption. cbv zeta. rewrite Hl. cbn [head].
  rewrite !readDetail_Some. cbn [bind].
  destruct report as [r|]; cbn [from_option].
  - rewrite ?if_OK. cbn [bind]. rewrite ?if_OK. cbn [bind].
    eexists. split; [reflexivity|].
    cbn [Option.login Option.keyForList fst snd].
    split; [|reflexivity].
    now destruct ((1 <? length (d :: rest))%nat || ReportUtils.isChatRoom r
                  || ReportUtils.isPolicyExpenseChat r).
  - rewrite ?if_OK. cbn [bind].
    eexists. split; [reflexivity|].
    cbn [Option.login Option.keyForList fst snd]. rewrite !orb_false_r.
    split; [|reflexivity].
    now destruct (1 <? length (d :: rest))%nat.
Qed.

Lemma createOption_without_details (logins : list string)
    (personalDetails : PersonalDetails)
    (report : option Report.t) (reportActions : gmap Z (list ReportAction.t))
    (showChatPreviewLine forcePolicyNamePreview : bool) :
  getPersonalDetailsForLogins logins personalDetails = [] ->
  exists e,
    createOption onyx logins personalDetails report reportActions
      showChatPreviewLine forcePolicyNamePreview = Throw e.
Proof.
  intros Hnil. unfold createOption. cbv zeta. rewrite Hnil. cbn [map head].
  destruct report as [r|]; cbn [from_option readDetail bind]; [|eauto].
  destruct (ReportUtils.isChatRoom r || ReportUtils.isPolicyExpenseChat r) eqn:Hroom.
  - cbn [bind]. cbn [orb Nat.ltb Nat.leb length].
    rewrite Hroom. cbn [negb bind]. eauto.
  - destruct (showChatPreviewLine && _); cbn [bind]; [|eauto].
    cbn [orb Nat.ltb Nat.leb length]. rewrite Hroom.
    cbn [negb bind]. eauto.
Qed.

(** [createOption] returns exactly when the logins give it a personal
    detail to read. *)
Lemma createOption_returns_aux (logins : list string)
    (personalDetails : PersonalDetails) (report : option Report.t)
    (reportActions : gmap Z (list ReportAction.t))
    (showChatPreviewLine forcePolicyNamePreview : bool) :
  (exists o,
     createOption onyx logins personalDetails report reportActions
       showChatPreviewLine forcePolicyNamePreview = OK o)
  <-> getPersonalDetailsForLogins logins personalDetails <> [].
Proof.
  split.
  - intros [o H] Hnil.
    destruct (createOption_without_details logins personalDetails report reportActions
                showChatPreviewLine forcePolicyNamePreview Hnil) as [e He].
    congruence.
  - intros Hne.
    destruct (getPersonalDetailsForLogins logins personalDetails) as [|[k d] m] eqn:Hm;
      [contradiction|].
    destruct (createOption_login logins personalDetails report reportActions
                showChatPreviewLine forcePolicyNamePreview d (map snd m))
      as (o & Ho & _); [now rewrite Hm|].
    eauto.
Qed.

Lemma createOption_returns_some (logins : list string)
    (personalDetails : PersonalDetails) (report : option Report.t)
    (reportActions : gmap Z (list ReportAction.t))
    (showChatPreviewLine forcePolicyNamePreview : bool) :
  (exists o,
     createOption onyx logins personalDetails report reportActions
       showChatPreviewLine forcePolicyNamePreview = OK o)
  <-> exists login, In login logins /\ login <> "__proto__".
Proof.
  rewrite createOption_returns_aux, getPersonalDetailsForLogins_nil.
  rewrite List.Forall_forall. split.
  - intros H.
    destruct (List.Exists_dec (fun login => login <> "__proto__") logins) as [He|He].
    { intros login. destruct (String.eqb_spec login "__proto__"); [right|left]; tauto. }
    + apply List.Exists_exists in He. exact He.
    + exfalso. apply H. intros login Hin.
      destruct (String.eqb_spec login "__proto__") as [E|Hne]; [exact E|].
      exfalso. apply He, List.Exists_exists. eauto.
  - intros (login & Hin & Hne) H. apply Hne, H, Hin.
Qed.

(** X7. For logins none of which is a name that an object inherits,
    [createOption] returns an option exactly when the list of logins is
    not empty; with an empty list it throws, with or without a report. *)
Theorem createOption_returns_iff (logins : list string)
    (personalDetails : PersonalDetails) (report : option Report.t)
    (reportActions : gmap Z (list ReportAction.t))
    (showChatPreviewLine forcePolicyNamePreview : bool) :
  Forall (fun login => Js.inheritedName login = false) logins ->
  (exists o,
     createOption onyx logins personalDetails report reportActions
       showChatPreviewLine forcePolicyNamePreview = OK o)
  <-> logins <> [].
Proof.
  intros Hplain. rewrite createOption_returns_some. split.
  - intros (login & Hin & _) ->. destruct Hin.
  - intros Hne. destruct logins as [|login rest]; [contradiction|].
    exists login. split; [now left|].
    apply List.Forall_inv in Hplain. now apply inheritedName_proto.
Qed.

Lemma createOption_login_aux (login : string) (rest : list string)
    (personalDetails : PersonalDetails) (report : option Report.t)
    (reportActions : gmap Z (list ReportAction.t))
    (showChatPreviewLine forcePolicyNamePreview : bool) (o : Option.t) :
  createOption onyx (login :: rest) personalDetails report reportActions
    showChatPreviewLine forcePolicyNamePreview = OK o ->
  Forall (fun l => l <> "__proto__") (login :: rest) ->
  Forall (fun l => Js.isArrayIndex l = false) rest ->
  Option.keyForList o
  = match report with
    | Some r => from_option Js.ofZ "undefined" (Report.reportID r)
    | None => PersonalDetail.login (personalDetailFor personalDetails login)
    end
  /\ Option.login o
     = (if (1 <? length (firstOccurrences (login :: rest)))%nat
           || from_option ReportUtils.isChatRoom false report
           || from_option ReportUtils.isPolicyExpenseChat false report
        then None
        else Some (PersonalDetail.login (personalDetailFor personalDetails login))).
Proof.
  intros H Hproto Hindex.
  destruct (getPersonalDetailsForLogins_head personalDetails login rest)
    as (others & Hl); [now apply List.Forall_inv in Hproto|exact Hindex|].
  pose proof (getPersonalDetailsForLogins_length personalDetails (login :: rest) Hproto)
    as Hlen.
  rewrite <- (length_map snd), Hl in Hlen. cbn [map snd] in Hlen.
  destruct (createOption_login (login :: rest) personalDetails report reportActions
              showChatPreviewLine forcePolicyNamePreview
              (personalDetailFor personalDetails login) (map snd others))
    as (o' & Ho & Hlogin & Hkey); [now rewrite Hl|].
  rewrite H in Ho. injection Ho as <-. rewrite Hlogin, Hkey, Hlen. tauto.
Qed.

(** An option for one login. *)
Lemma createOption_single (login : string)
    (personalDetails : PersonalDetails) (report : option Report.t)
    (reportActions : gmap Z (list ReportAction.t))
    (showChatPreviewLine forcePolicyNamePreview : bool) (o : Option.t) :
  createOption onyx [login] personalDetails report reportActions
    showChatPreviewLine forcePolicyNamePreview = OK o ->
  login <> "__proto__"
  /\ Option.keyForList o
     = match report with
       | Some r => from_option Js.ofZ "undefined" (Report.reportID r)
       | None => PersonalDetail.login (personalDetailFor personalDetails login)
       end
  /\ Option.login o
     = (if from_option ReportUtils.isChatRoom false report
           || from_option ReportUtils.isPolicyExpenseChat false report
        then None
        else Some (PersonalDetail.login (personalDetailFor personalDetails login))).
Proof.
  intros H.
  assert (Hp : login <> "__proto__").
  { assert (He : exists o, createOption onyx [login] personalDetails report reportActions
                             showChatPreviewLine forcePolicyNamePreview = OK o)
      by eauto.
    apply createOption_returns_some in He as (l & [<-|[]] & Hl). exact Hl. }
  split; [exact Hp|].
  apply (createOption_login_aux login []) in H;
    [exact H|repeat constructor; exact Hp|constructor].
Qed.

(** X8. The key of an option is the identifier of its report, or, without
    a report, the login of its first personal detail: that of the first
    login of the list, when no later login is an array index (an object
    lists its array indices first).  The option has a login exactly when it
    stands for one person: one distinct login, and a report, if any, that
    is neither a chat room nor a policy expense chat; the login is then the
    one of the personal detail.  The names that an object inherits are left
    out. *)
Theorem createOption_login_and_key (login : string) (rest : list string)
    (personalDetails : PersonalDetails) (report : option Report.t)
    (reportActions : gmap Z (list ReportAction.t))
    (showChatPreviewLine forcePolicyNamePreview : bool) (o : Option.t) :
  createOption onyx (login :: rest) personalDetails report reportActions
    showChatPreviewLine forcePolicyNamePreview = OK o ->
  Forall (fun l => Js.inheritedName l = false) (login :: rest) ->
  Forall (fun l => Js.isArrayIndex l = false) rest ->
  Option.keyForList o
  = match report with
    | Some r => from_option Js.ofZ "undefined" (Report.reportID r)
    | None => PersonalDetail.login (personalDetailFor personalDetails login)
    end
  /\ Option.login o
     = (if (1 <? length (firstOccurrences (login :: rest)))%nat
           || from_option ReportUtils.isChatRoom false report
           || from_option ReportUtils.isPolicyExpenseChat false report
        then None
        else Some (PersonalDetail.login (personalDetailFor personalDetails login))).
Proof.
  intros H Hplain Hindex. apply (createOption_login_aux login rest) in H;
    [exact H| |exact Hindex].
  eapply List.Forall_impl; [|exact Hplain]. intros l. apply inheritedName_proto.
Qed.

End CreateOptionFields.

(** ** The candidates of [getOptions] *)

Lemma mapM_Forall2 {A B : Type} (f : A -> Res B) (l : list A) (ys : list B) :
  mapM f l = OK ys -> Forall2 (fun x y => f x = OK y) l ys.
Proof.
  revert ys. induction l as [|x l IH]; intros ys H; simpl in H.
  - injection H as <-. constructor.
  - destruct (f x) as [y|e] eqn:Hx; [|discriminate]. cbn [bind] in H.
    destruct (mapM f l) as [ys'|e] eqn:Hl; [|discriminate]. cbn [bind] in H.
    injection H as <-. constructor; [exact Hx|now apply IH].
Qed.

Lemma mapM_returns {A B : Type} (f : A -> Res B) (l : list A) :
  (forall x, In x l -> exists y, f x = OK y) -> exists ys, mapM f l = OK ys.
Proof.
  induction l as [|x l IH]; intros H; simpl; [eauto|].
  destruct (H x) as [y Hy]; [now left|]. rewrite Hy. cbn [bind].
  destruct IH as [ys Hys]; [intros z Hz; apply H; now right|].
  rewrite Hys. cbn [bind]. eauto.
Qed.

Section Candidates.

Context {RU : ReportUtils.api} {PM : Permissions.api} {ST : Str.api}.
Context {LO : Localize.api} {CO : CONST.api}.
Variable onyx : Onyx.t.
Variable config : Config.t.
Variable personalDetails : PersonalDetails.
Variable activeReportID : Z.

(** A report that passed the filter has an identifier, and is no chat
    room if chat rooms are excluded. *)
Lemma isReportExcluded_false (report : Report.t) :
  isReportExcluded onyx config activeReportID report = false ->
  truthyID (Report.reportID report) = true
  /\ (Config.excludeChatRooms config = true -> ReportUtils.isChatRoom report = false)
  /\ (Report.participants report = [] ->
      ReportUtils.isChatRoom report = true \/ ReportUtils.isDefaultRoom report = true
      \/ ReportUtils.isPolicyExpenseChat report = true).
Proof.
  unfold isReportExcluded. cbv zeta.
  destruct (truthyID (Report.reportID report)); cbn [negb orb]; [|discriminate].
  destruct (Nat.eqb (length (Report.participants report)) 0 && _ && _ && _) eqn:Hn;
    [discriminate|].
  destruct (_ && _ && _ && _ && _); [discriminate|].
  destruct (ReportUtils.isChatRoom report && Config.excludeChatRooms config) eqn:Hx;
    [discriminate|].
  intros _. split; [reflexivity|]. split.
  - intros He. rewrite He, andb_true_r in Hx. exact Hx.
  - intros Hp. rewrite Hp in Hn. cbn [length Nat.eqb andb] in Hn.
    destruct (ReportUtils.isChatRoom report), (ReportUtils.isDefaultRoom report),
      (ReportUtils.isPolicyExpenseChat report); auto; discriminate.
Qed.

Lemma buildReportOptions_sources (orderedReports : list Report.t) :
  forall (m m' : gmap string Report.t) (acc opts : list Option.t),
    buildReportOptions onyx config personalDetails activeReportID orderedReports m acc
    = OK (opts, m') ->
    (exists new, opts = acc ++ new /\ Forall (FromReport onyx config personalDetails activeReportID orderedReports) new)
    /\ forall key report,
         m' !! key = Some report ->
         m !! key = Some report
         \/ (In report orderedReports
             /\ isReportExcluded onyx config activeReportID report = false
             /\ ReportUtils.isChatRoom report = false
             /\ ReportUtils.isPolicyExpenseChat report = false).
Proof.
  induction orderedReports as [|report rest IH]; intros m m' acc opts H; simpl in H.
  - injection H as <- <-. split; [|auto]. exists []. now rewrite app_nil_r.
  - assert (Hweak : forall o,
               FromReport onyx config personalDetails activeReportID rest o ->
               FromReport onyx config personalDetails activeReportID
                 (report :: rest) o).
    { intros o (r & Hin & Hr). exists r. split; [now right|exact Hr]. }
    destruct (isReportExcluded onyx config activeReportID report) eqn:Hex.
    + apply IH in H as [(new & -> & Hnew) Hm]. split.
      * exists new. split; [reflexivity|].
        eapply List.Forall_impl; [|exact Hnew]. exact Hweak.
      * intros key r Hr. destruct (Hm key r Hr) as [?|(? & ?)]; [now left|].
        right. split; [now right|assumption].
    + destruct (createReportOption onyx config personalDetails report)
        as [o|e] eqn:Hc; [|discriminate].
      cbn [bind] in H. apply IH in H as [(new & -> & Hnew) Hm]. split.
      * exists (o :: new). rewrite <- app_assoc. split; [reflexivity|].
        constructor.
        -- exists report. split; [now left|]. now split.
        -- eapply List.Forall_impl; [|exact Hnew]. exact Hweak.
      * intros key r Hr. destruct (Hm key r Hr) as [Hk|(? & ?)].
        -- destruct ((length (Report.participants report) <=? 1)%nat
                     && negb (ReportUtils.isPolicyExpenseChat report)
                     && negb (ReportUtils.isChatRoom report)) eqn:Hsingle;
             [|now left].
           destruct (decide (default "undefined" (head (Report.participants report))
                             = key)) as [<-|Hne].
           ++ rewrite lookup_insert_eq in Hk. injection Hk as <-. right.
              apply andb_true_iff in Hsingle as [Hs Hroom].
              apply andb_true_iff in Hs as [_ Hpec].
              apply negb_true_iff in Hroom, Hpec.
              split; [now left|]. now repeat split.
           ++ rewrite lookup_insert_ne in Hk by assumption. now left.
        -- right. split; [now right|assumption].
Qed.

(** When [buildReportOptions] returns. *)
Lemma buildReportOptions_returns (orderedReports : list Report.t) :
  forall (m : gmap string Report.t) (acc : list Option.t),
    (exists built,
       buildReportOptions onyx config personalDetails activeReportID orderedReports
         m acc = OK built)
    <-> Forall (fun report =>
                  isReportExcluded onyx config activeReportID report = true
                  \/ exists login,
                       In login (Report.participants report) /\ login <> "__proto__")
          orderedReports.
Proof.
  induction orderedReports as [|report rest IH]; intros m acc; simpl.
  - split; [constructor|eauto].
  - destruct (isReportExcluded onyx config activeReportID report) eqn:Hex.
    + rewrite IH. split; [intros H; constructor; auto|intros H; now inversion H].
    + unfold createReportOption.
      destruct (createOption onyx (Report.participants report) personalDetails
                  (Some report) (Config.reportActions config)
                  (Config.showChatPreviewLine config) _) as [o|e] eqn:Hc;
        cbn [bind].
      * rewrite IH. split; intros H.
        -- constructor; [|exact H]. right.
           eapply (proj1 (createOption_returns_some onyx _ _ _ _ _ _)). eauto.
        -- now inversion H.
      * split; [intros [built Hb]; discriminate|].
        intros H. inversion H as [|? ? [Hd|Hd] _]; [congruence|].
        exfalso.
        destruct (proj2 (createOption_returns_some onyx _ personalDetails
                           (Some report) (Config.reportActions config)
                           (Config.showChatPreviewLine config)
                           (if ReportUtils.isPolicyExpenseChat report
                            then negb (Report.isOwnPolicyExpenseChat report)
                                 && Js.nonEmpty (Config.searchValue config)
                            else Config.forcePolicyNamePreview config)) Hd)
          as [o Ho].
        rewrite Hc in Ho. discriminate.
Qed.

End Candidates.

(** ** What the selection loop keeps *)

Section LoopInvariants.

Variable config : Config.t.

(** An invariant of the loop body is an invariant of the loop. *)
Lemma selectRecentReports_invariant (P : Selection.t -> Prop)
    (allReportOptions : list Option.t) :
  (forall s o, P s -> isSkipped config s o = false -> P (accept config s o)) ->
  forall s, P s -> P (selectRecentReports config allReportOptions s).
Proof.
  intros Hstep. induction allReportOptions as [|o rest IH]; intros s Hs; simpl;
    [exact Hs|].
  destruct (capReached config s); [exact Hs|].
  destruct (isSkipped config s o) eqn:Hskip; apply IH; [exact Hs|].
  now apply Hstep.
Qed.

Lemma isSkipped_false (s : Selection.t) (o : Option.t) :
  isSkipped config s o = false ->
  matchesSearch config o = true
  /\ (Js.truthy (Option.login o) = true ->
      ~ In (Option.login o) (Selection.loginOptionsToExclude s))
  /\ (Config.includeMultipleParticipantReports config = false ->
      Js.truthy (Option.login o) = true).
Proof.
  unfold isSkipped.
  destruct (negb (Config.includeMultipleParticipantReports config)
            && negb (Js.truthy (Option.login o))) eqn:H1; [discriminate|].
  destruct (Js.truthy (Option.login o)
            && isExcluded (Selection.loginOptionsToExclude s) (Option.login o))
    eqn:H2; [discriminate|].
  intros H3. apply negb_false_iff in H3. split; [exact H3|]. split.
  - intros Ht Hin. apply isExcluded_spec in Hin. now rewrite Ht, Hin in H2.
  - intros Hm. rewrite Hm in H1. cbn [negb andb] in H1. now apply negb_false_iff in H1.
Qed.

Lemma Permutation_insert {A : Type} (a b c : list A) (x : A) :
  Permutation (a ++ (b ++ [x]) ++ c) (x :: a ++ b ++ c).
Proof.
  rewrite <- app_assoc. simpl. rewrite !app_assoc. symmetry. apply Permutation_middle.
Qed.

Lemma accept_accepted_Permutation (s : Selection.t) (o : Option.t) :
  Permutation (Selection.accepted (accept config s o)) (o :: Selection.accepted s).
Proof.
  unfold accept, Selection.accepted.
  destruct (_ && _); [|destruct (_ && _); [|destruct (_ && _)]]; simpl.
  - apply (Permutation_insert []).
  - apply Permutation_insert.
  - rewrite !(app_assoc (Selection.pinnedReportOptions s)).
    apply Permutation_insert.
  - rewrite !app_assoc. rewrite <- Permutation_cons_append. reflexivity.
Qed.

Lemma truthyLogins_Permutation (l l' : list Option.t) :
  Permutation l l' -> Permutation (truthyLogins l) (truthyLogins l').
Proof.
  unfold truthyLogins. induction 1 as [|x l l' _ IH|x y l|l l' l'' _ IH1 _ IH2]; simpl.
  - reflexivity.
  - destruct (Js.truthy (Option.login x)); [now constructor|exact IH].
  - destruct (Js.truthy (Option.login x)), (Js.truthy (Option.login y));
      try reflexivity. apply perm_swap.
  - now transitivity (List.filter Js.truthy (map Option.login l')).
Qed.

Lemma truthyLogins_In (l : list Option.t) (login : option string) :
  In login (truthyLogins l)
  <-> exists o, In o l /\ Option.login o = login /\ Js.truthy login = true.
Proof.
  unfold truthyLogins. rewrite List.filter_In, in_map_iff. split.
  - intros [(o & Ho & Hin) Ht]. eauto.
  - intros (o & Hin & Ho & Ht). eauto.
Qed.

(** The logins of the accepted options are excluded, and no two accepted
    options share a login. *)
Lemma selectRecentReports_distinct_logins (allReportOptions : list Option.t)
    (s : Selection.t) :
  LoginsExcluded s /\ NoDup (truthyLogins (Selection.accepted s)) ->
  LoginsExcluded (selectRecentReports config allReportOptions s)
  /\ NoDup (truthyLogins
              (Selection.accepted (selectRecentReports config allReportOptions s))).
Proof.
  apply (selectRecentReports_invariant
           (fun s => LoginsExcluded s /\ NoDup (truthyLogins (Selection.accepted s)))).
  clear s. intros s o [Hex Hnd] Hskip. split.
  - intros x Hx Ht. rewrite accept_exclusions. apply in_app_iff.
    apply accept_accepted in Hx as [->|Hx].
    + right. rewrite Ht. now left.
    + left. now apply Hex.
  - rewrite (truthyLogins_Permutation _ _ (accept_accepted_Permutation s o)).
    unfold truthyLogins. cbn [map List.filter].
    destruct (Js.truthy (Option.login o)) eqn:Ht; [|exact Hnd].
    constructor; [|exact Hnd].
    intros Hin. apply list_elem_of_In, truthyLogins_In in Hin as (x & Hx & Hlogin & _).
    apply isSkipped_false in Hskip as (_ & Hne & _). apply (Hne Ht).
    rewrite <- Hlogin. apply Hex; [exact Hx|]. now rewrite Hlogin.
Qed.

Lemma selectRecentReports_UnusedArraysEmpty (allReportOptions : list Option.t)
    (s : Selection.t) :
  UnusedArraysEmpty config s ->
  UnusedArraysEmpty config (selectRecentReports config allReportOptions s).
Proof.
  apply (selectRecentReports_invariant (UnusedArraysEmpty config)).
  clear s. intros s o (H1 & H2 & H3) _. unfold accept, UnusedArraysEmpty.
  destruct (Config.prioritizePinnedReports config),
    (Config.prioritizeIOUDebts config),
    (Config.prioritizeReportsWithDraftComments config); cbn [andb];
    repeat match goal with
           | |- context [if ?b then _ else _] => destruct b
           end; simpl; repeat split; auto; discriminate.
Qed.

(** The recombined list holds the accepted options, each once. *)
Lemma recombine_Permutation (s : Selection.t) :
  UnusedArraysEmpty config s ->
  Permutation (recombine config s) (Selection.accepted s).
Proof.
  intros (H1 & H2 & H3). unfold recombine, Selection.accepted.
  destruct (Config.prioritizePinnedReports config) eqn:E1;
    [rewrite (lodashOrderByString_Permutation _ Option.text asc)|rewrite (H1 eq_refl)];
    (destruct (Config.prioritizeIOUDebts config) eqn:E2;
     [rewrite (lodashOrderByZ_Permutation _ Option.iouReportAmount desc)
     |rewrite (H2 eq_refl)]);
    (destruct (Config.prioritizeReportsWithDraftComments config) eqn:E3;
     [rewrite (lodashOrderByString_Permutation _ Option.text asc)
     |rewrite (H3 eq_refl)]);
    reflexivity.
Qed.

End LoopInvariants.

(** ** What [getOptions] returns *)

Section Returned.

Context {RU : ReportUtils.api} {PM : Permissions.api} {ST : Str.api}.
Context {LO : Localize.api} {CO : CONST.api}.
Variable onyx : Onyx.t.

Lemma orderReports_In (config : Config.t) (reports : list Report.t) (r : Report.t) :
  In r (orderReports config reports) <-> In r reports.
Proof.
  unfold orderReports, underscoreSortByBool. rewrite stableSort_In.
  split; apply Permutation_in;
    [apply primarySort_Permutation|symmetry; apply primarySort_Permutation].
Qed.

Lemma selectRecentReports_accepted_In (config : Config.t)
    (allReportOptions : list Option.t) (s : Selection.t) (x : Option.t) :
  In x (Selection.accepted (selectRecentReports config allReportOptions s)) ->
  In x (Selection.accepted s) \/ In x allReportOptions.
Proof.
  revert s. induction allReportOptions as [|o rest IH]; intros s H; simpl in *;
    [now left|].
  destruct (capReached config s); [now left|].
  destruct (isSkipped config s o).
  - destruct (IH s H); auto.
  - destruct (IH _ H) as [Ha|Hr]; [|auto].
    apply accept_accepted in Ha as [->|Ha]; auto.
Qed.

(** Every accepted option is a candidate that the loop checked. *)
Lemma selection_accepted (config : Config.t) (allReportOptions : list Option.t)
    (o : Option.t) :
  In o (Selection.accepted (selection onyx config allReportOptions)) ->
  In o allReportOptions /\ Admissible onyx config o.
Proof.
  unfold selection. destruct (Config.includeRecentReports config); [|intros []].
  intros H. split.
  - apply selectRecentReports_accepted_In in H as [[]|H]. exact H.
  - revert o H.
    assert (Hinv :
      (forall l, In l (initialExclusions onyx config) ->
                 In l (Selection.loginOptionsToExclude
                         (selectRecentReports config allReportOptions
                            (Selection.start (initialExclusions onyx config)))))
      /\ forall o,
           In o (Selection.accepted
                   (selectRecentReports config allReportOptions
                      (Selection.start (initialExclusions onyx config)))) ->
           Admissible onyx config o).
    { apply (selectRecentReports_invariant config
               (fun s =>
                  (forall l, In l (initialExclusions onyx config) ->
                             In l (Selection.loginOptionsToExclude s))
                  /\ forall o, In o (Selection.accepted s) -> Admissible onyx config o)).
      - intros s x [Hsub Hadm] Hskip. split.
        + intros l Hl. rewrite accept_exclusions. apply in_app_iff. left. auto.
        + intros y Hy. apply accept_accepted in Hy as [->|Hy]; [|auto].
          apply isSkipped_false in Hskip as (Hm & Hx & Hmulti).
          split; [exact Hm|]. split; [|exact Hmulti].
          intros Ht Hin. apply (Hx Ht). auto.
      - split; [auto|intros y []]. }
    exact (proj2 Hinv).
Qed.

Lemma selection_distinct_logins (config : Config.t) (allReportOptions : list Option.t) :
  NoDup (truthyLogins (Selection.accepted (selection onyx config allReportOptions))).
Proof.
  unfold selection. destruct (Config.includeRecentReports config); [|constructor].
  apply selectRecentReports_distinct_logins. split; [intros o []|constructor].
Qed.

Lemma selection_UnusedArraysEmpty (config : Config.t)
    (allReportOptions : list Option.t) :
  UnusedArraysEmpty config (selection onyx config allReportOptions).
Proof.
  unfold selection. destruct (Config.includeRecentReports config);
    [apply selectRecentReports_UnusedArraysEmpty|]; repeat split; reflexivity.
Qed.

(** The returned recent reports, unless the search merges the lists. *)
Lemma recentReports_Permutation (config : Config.t) (allReportOptions : list Option.t) :
  Permutation
    (prioritizeDefaultRooms config
       (recombine config (selection onyx config allReportOptions)))
    (Selection.accepted (selection onyx config allReportOptions)).
Proof.
  rewrite prioritizeDefaultRooms_Permutation.
  apply recombine_Permutation, selection_UnusedArraysEmpty.
Qed.

(** Where the personal detail options come from. *)
Lemma buildPersonalDetailsOptions_sources (config : Config.t)
    (personalDetails : PersonalDetails) (m : gmap string Report.t)
    (allPersonalDetailsOptions : list Option.t) (p : Option.t) :
  buildPersonalDetailsOptions onyx config personalDetails m
  = OK allPersonalDetailsOptions ->
  In p allPersonalDetailsOptions ->
  exists personalDetail,
    In personalDetail (map snd personalDetails)
    /\ createOption onyx [PersonalDetail.login personalDetail] personalDetails
         (m !! PersonalDetail.login personalDetail) (Config.reportActions config)
         (Config.showChatPreviewLine config) (Config.forcePolicyNamePreview config)
       = OK p.
Proof.
  unfold buildPersonalDetailsOptions. intros H Hin.
  destruct (mapM _ (map snd personalDetails)) as [ys|e] eqn:Hm; [|discriminate].
  cbn [bind] in H. injection H as <-.
  assert (Hin' : In p ys).
  { destruct (Config.sortPersonalDetailsByAlphaAsc config); [|exact Hin].
    unfold lodashOrderByString in Hin. now apply stableSort_In in Hin. }
  apply mapM_Forall2 in Hm. clear Hin.
  induction Hm as [|x y l ys' Hxy _ IH]; [destruct Hin'|].
  destruct Hin' as [->|Hin'].
  - exists x. split; [now left|exact Hxy].
  - destruct (IH Hin') as (pd & Hpd & Hc). exists pd. split; [now right|exact Hc].
Qed.

Lemma buildPersonalDetailsOptions_returns (config : Config.t)
    (personalDetails : PersonalDetails) (m : gmap string Report.t) :
  Forall (fun entry => PersonalDetail.login (snd entry) <> "__proto__")
    personalDetails ->
  exists allPersonalDetailsOptions,
    buildPersonalDetailsOptions onyx config personalDetails m
    = OK allPersonalDetailsOptions.
Proof.
  intros Hplain. unfold buildPersonalDetailsOptions.
  destruct (mapM_returns
              (fun personalDetail =>
                 createOption onyx [PersonalDetail.login personalDetail] personalDetails
                   (m !! PersonalDetail.login personalDetail)
                   (Config.reportActions config) (Config.showChatPreviewLine config)
                   (Config.forcePolicyNamePreview config))
              (map snd personalDetails)) as [ys Hys].
  - intros x Hx. apply createOption_returns_some.
    exists (PersonalDetail.login x). split; [now left|].
    apply List.in_map_iff in Hx as (entry & <- & Hin).
    rewrite List.Forall_forall in Hplain. now apply Hplain.
  - rewrite Hys. cbn [bind]. eauto.
Qed.

Lemma selectPersonalDetails_In (config : Config.t)
    (allPersonalDetailsOptions : list Option.t)
    (loginOptionsToExclude : list (option string)) (p : Option.t) :
  In p (selectPersonalDetails config allPersonalDetailsOptions loginOptionsToExclude) ->
  In p allPersonalDetailsOptions
  /\ ~ In (Option.login p) loginOptionsToExclude
  /\ matchesSearch config p = true.
Proof.
  unfold selectPersonalDetails.
  destruct (Config.includePersonalDetails config); [|intros []].
  intros H. apply List.filter_In in H as [Hin H].
  apply andb_true_iff in H as [Hex Hm]. apply negb_true_iff in Hex.
  split; [exact Hin|]. split; [|exact Hm].
  intros Hl. apply isExcluded_spec in Hl. congruence.
Qed.

(** Every returned option is an accepted recent report or a selected
    personal detail. *)
Lemma getOptions_returned (reports : list Report.t) (personalDetails : PersonalDetails)
    (activeReportID : Z) (config : Config.t) (result : Options.t) :
  getOptions onyx reports personalDetails activeReportID config = OK result ->
  exists allReportOptions reportMapForLogins allPersonalDetailsOptions,
    buildReportOptions onyx config personalDetails activeReportID
      (orderReports config reports) ∅ []
    = OK (allReportOptions, reportMapForLogins)
    /\ buildPersonalDetailsOptions onyx config personalDetails reportMapForLogins
       = OK allPersonalDetailsOptions
    /\ (forall o,
          In o (Options.recentReports result ++ Options.personalDetails result) ->
          In o (Selection.accepted (selection onyx config allReportOptions))
          \/ In o (selectPersonalDetails config allPersonalDetailsOptions
                     (Selection.loginOptionsToExclude
                        (selection onyx config allReportOptions))))
    /\ (Config.sortByReportTypeInSearch config
        && Js.nonEmpty (Config.searchValue config) = false ->
        Permutation (Options.recentReports result)
          (Selection.accepted (selection onyx config allReportOptions))
        /\ Options.personalDetails result
           = selectPersonalDetails config allPersonalDetailsOptions
               (Selection.loginOptionsToExclude
                  (selection onyx config allReportOptions))).
Proof.
  intros H.
  destruct (getOptions_OK _ _ _ _ _ _ H) as (opts & m & pdo & invite & Hb & Hp & _ & ->).
  exists opts, m, pdo. split; [exact Hb|]. split; [exact Hp|]. split.
  - intros o Ho. apply searchModeMerge_recentReports, in_app_iff in Ho as [Ho|Ho];
      [left|now right].
    eapply Permutation_in; [apply recentReports_Permutation|exact Ho].
  - intros Hmerge. unfold searchModeMerge. rewrite Hmerge.
    cbn [Options.recentReports Options.personalDetails].
    split; [apply recentReports_Permutation|reflexivity].
Qed.

End Returned.

Section ReturnedProperties.

Context {RU : ReportUtils.api} {PM : Permissions.api} {ST : Str.api}.
Context {LO : Localize.api} {CO : CONST.api}.
Variable onyx : Onyx.t.
Variable reports : list Report.t.
Variable personalDetails : PersonalDetails.
Variable activeReportID : Z.
Variable config : Config.t.

Lemma candidates_FromReport (allReportOptions : list Option.t)
    (reportMapForLogins : gmap string Report.t) :
  buildReportOptions onyx config personalDetails activeReportID
    (orderReports config reports) ∅ []
  = OK (allReportOptions, reportMapForLogins) ->
  (forall o, In o allReportOptions ->
             FromReport onyx config personalDetails activeReportID reports o)
  /\ forall key report,
       reportMapForLogins !! key = Some report ->
       In report reports
       /\ isReportExcluded onyx config activeReportID report = false
       /\ ReportUtils.isChatRoom report = false
       /\ ReportUtils.isPolicyExpenseChat report = false.
Proof.
  intros H. apply buildReportOptions_sources in H as [(new & -> & Hnew) Hm]. split.
  - intros o Ho. cbn [app] in Ho. rewrite List.Forall_forall in Hnew.
    destruct (Hnew o Ho) as (r & Hr & Hrest). exists r.
    split; [now apply orderReports_In in Hr|exact Hrest].
  - intros key r Hr. destruct (Hm key r Hr) as [Hempty|(Hin & Hrest)].
    + rewrite lookup_empty in Hempty. discriminate.
    + split; [now apply orderReports_In in Hin|exact Hrest].
Qed.

(** X18. Every returned option, recent report or personal detail, matches
    the search value: the search value is empty, or
    [isSearchStringMatch] accepts the search text of the option. *)
Theorem returned_options_match_search (result : Options.t) (o : Option.t) :
  getOptions onyx reports personalDetails activeReportID config = OK result ->
  In o (Options.recentReports result ++ Options.personalDetails result) ->
  Config.searchValue config = ""
  \/ isSearchStringMatch (Config.searchValue config) (Option.searchText o)
       (getParticipantNames (Option.participantsList o)) (Option.isChatRoom o)
     = true.
Proof.
  intros H Ho.
  destruct (getOptions_returned onyx _ _ _ _ _ H) as (opts & m & pdo & _ & _ & Hsrc & _).
  assert (Hm : matchesSearch config o = true).
  { destruct (Hsrc o Ho) as [Ha|Hp].
    - now apply selection_accepted in Ha as [_ [Hm _]].
    - now apply selectPersonalDetails_In in Hp as (_ & _ & Hm). }
  unfold matchesSearch in Hm. apply orb_true_iff in Hm as [Hm|Hm]; [left|now right].
  apply negb_true_iff in Hm. now destruct (Config.searchValue config).
Qed.

(** X19. No returned option has the login of the current user, of a
    selected option or of the logins to exclude. *)
Theorem returned_options_not_excluded (result : Options.t) (o : Option.t) :
  getOptions onyx reports personalDetails activeReportID config = OK result ->
  In o (Options.recentReports result ++ Options.personalDetails result) ->
  Js.truthy (Option.login o) = true ->
  Option.login o <> Onyx.currentUserLogin onyx
  /\ (forall selected, In selected (Config.selectedOptions config) ->
                       Option.login selected <> Option.login o)
  /\ (forall login, In login (Config.excludeLogins config) ->
                    Option.login o <> Some login).
Proof.
  intros H Ho Ht.
  destruct (getOptions_returned onyx _ _ _ _ _ H) as (opts & m & pdo & _ & _ & Hsrc & _).
  assert (Hex : ~ In (Option.login o) (initialExclusions onyx config)).
  { destruct (Hsrc o Ho) as [Ha|Hp].
    - apply selection_accepted in Ha as [_ (_ & Hx & _)]. auto.
    - apply selectPersonalDetails_In in Hp as (_ & Hx & _).
      intros Hin. apply Hx. now apply selection_initialExclusions. }
  unfold initialExclusions in Hex. rewrite !in_app_iff in Hex. split; [|split].
  - intros Heq. apply Hex. right. left. now left.
  - intros s Hs Heq. apply Hex. left. apply in_map_iff. eauto.
  - intros l Hl Heq. apply Hex. right. right. apply in_map_iff. eauto.
Qed.

(** X20. With [excludeChatRooms], no returned option is a chat room. *)
Theorem returned_options_exclude_chat_rooms (result : Options.t) (o : Option.t) :
  getOptions onyx reports personalDetails activeReportID config = OK result ->
  Config.excludeChatRooms config = true ->
  In o (Options.recentReports result ++ Options.personalDetails result) ->
  Option.isChatRoom o = false.
Proof.
  intros H Hx Ho.
  destruct (getOptions_returned onyx _ _ _ _ _ H)
    as (opts & m & pdo & Hb & Hp & Hsrc & _).
  destruct (candidates_FromReport _ _ Hb) as [Hopts Hmap].
  destruct (Hsrc o Ho) as [Ha|Hs].
  - apply selection_accepted in Ha as [Hin _].
    destruct (Hopts o Hin) as (r & _ & Hr & Hc). unfold createReportOption in Hc.
    apply createOption_flags in Hc as (-> & _). cbn [from_option].
    now apply isReportExcluded_false in Hr as (_ & Hroom & _); auto.
  - apply selectPersonalDetails_In in Hs as (Hin & _).
    destruct (buildPersonalDetailsOptions_sources onyx _ _ _ _ _ Hp Hin)
      as (pd & _ & Hc).
    apply createOption_flags in Hc as (-> & _).
    destruct (m !! PersonalDetail.login pd) as [r|] eqn:Hr; [|reflexivity].
    cbn [from_option]. now apply Hmap in Hr as (_ & _ & Hroom & _).
Qed.

(** X21. Every returned option either carries the identifier, not zero,
    of a report, or has no report and is a personal detail with a login:
    a report without an identifier is never shown. *)
Theorem returned_options_have_identity (result : Options.t) (o : Option.t) :
  getOptions onyx reports personalDetails activeReportID config = OK result ->
  In o (Options.recentReports result ++ Options.personalDetails result) ->
  (exists reportID, Option.reportID o = Some reportID /\ reportID <> 0)
  \/ (Option.reportID o = None /\ exists login, Option.login o = Some login).
Proof.
  intros H Ho.
  destruct (getOptions_returned onyx _ _ _ _ _ H)
    as (opts & m & pdo & Hb & Hp & Hsrc & _).
  destruct (candidates_FromReport _ _ Hb) as [Hopts Hmap].
  assert (Hid : forall r,
             isReportExcluded onyx config activeReportID r = false ->
             exists reportID, Report.reportID r = Some reportID /\ reportID <> 0).
  { intros r Hr. apply isReportExcluded_false in Hr as (Hid & _).
    destruct (Report.reportID r) as [i|]; [|discriminate].
    exists i. split; [reflexivity|]. intros ->. discriminate. }
  destruct (Hsrc o Ho) as [Ha|Hs].
  - left. apply selection_accepted in Ha as [Hin _].
    destruct (Hopts o Hin) as (r & _ & Hr & Hc). unfold createReportOption in Hc.
    apply createOption_flags in Hc as (_ & _ & -> & _). cbn [from_option]. auto.
  - apply selectPersonalDetails_In in Hs as (Hin & _).
    destruct (buildPersonalDetailsOptions_sources onyx _ _ _ _ _ Hp Hin)
      as (pd & _ & Hc).
    pose proof (createOption_flags onyx _ _ _ _ _ _ _ Hc) as (_ & _ & Hid' & _).
    pose proof (createOption_single onyx _ _ _ _ _ _ _ Hc) as (_ & _ & Hlogin).
    rewrite Hid'.
    destruct (m !! PersonalDetail.login pd) as [r|] eqn:Hr; cbn [from_option] in *.
    + left. apply Hmap in Hr as (_ & Hex & _). auto.
    + right. split; [reflexivity|]. rewrite Hlogin. cbn. eauto.
Qed.

(** X22. Unless the search merges the two lists, no two recent reports
    share a login. *)
Theorem recentReports_distinct_logins (result : Options.t) :
  getOptions onyx reports personalDetails activeReportID config = OK result ->
  Config.sortByReportTypeInSearch config = false \/ Config.searchValue config = "" ->
  NoDup (truthyLogins (Options.recentReports result)).
Proof.
  intros H Hmode.
  destruct (getOptions_returned onyx _ _ _ _ _ H) as (opts & m & pdo & _ & _ & _ & Hr).
  destruct Hr as [Hperm _].
  { destruct Hmode as [->| ->]; [reflexivity|apply andb_false_r]. }
  rewrite (truthyLogins_Permutation _ _ Hperm). apply selection_distinct_logins.
Qed.

End ReturnedProperties.

(** ** When [getOptions] returns *)

Section Returns.

Context {RU : ReportUtils.api} {PM : Permissions.api} {ST : Str.api}.
Context {LO : Localize.api} {CO : CONST.api}.
Variable onyx : Onyx.t.

Lemma inviteOption_returns (config : Config.t) (personalDetails : PersonalDetails)
    (recent selected : list Option.t) (loginOptionsToExclude : list (option string)) :
  Config.searchValue config = ""
  \/ (exists currentUserLogin loginList,
        Onyx.currentUserLogin onyx = Some currentUserLogin
        /\ Onyx.loginList onyx = Some loginList) ->
  Config.searchValue config <> "__proto__" ->
  exists invite,
    inviteOption onyx config personalDetails recent selected loginOptionsToExclude
    = OK invite.
Proof.
  intros Hs Hplain. unfold inviteOption. cbv zeta.
  destruct (Js.nonEmpty (Config.searchValue config) && _) eqn:Hfirst; [|eauto].
  destruct Hs as [Hs|(cur & ll & Hc & Hl)].
  { rewrite Hs in Hfirst. discriminate. }
  unfold isCurrentUser. rewrite Hc, Hl. cbn [bind].
  destruct (negb _ && _ && _ && _ && _); [|eauto].
  match goal with
  | |- context [createOption onyx [?l] ?pd None ?ra ?s false] =>
      destruct (proj2 (createOption_returns_some onyx [l] pd None ra s false))
        as [u Hu]; [exists l; split; [now left|]|rewrite Hu]
  end.
  - destruct (Str.isValidPhone _ && _); [discriminate|exact Hplain].
  - cbn [bind]. eauto.
Qed.

(** X23. Once the session and the login list are known, or for an empty
    search value, and for logins and a search value that are no names that
    an object inherits, [getOptions] returns exactly when every report that
    passes its filter has a participant; otherwise it throws. *)
Theorem getOptions_returns_iff (reports : list Report.t)
    (personalDetails : PersonalDetails) (activeReportID : Z) (config : Config.t) :
  Config.searchValue config = ""
  \/ (exists currentUserLogin loginList,
        Onyx.currentUserLogin onyx = Some currentUserLogin
        /\ Onyx.loginList onyx = Some loginList) ->
  PlainLogins reports personalDetails (Config.searchValue config) ->
  (exists result,
     getOptions onyx reports personalDetails activeReportID config = OK result)
  <-> Forall (fun report =>
                isReportExcluded onyx config activeReportID report = true
                \/ Report.participants report <> [])
        reports.
Proof.
  intros Hs (Hreports & Hdetails & Hvalue).
  assert (Hperm : Forall (fun report =>
                            isReportExcluded onyx config activeReportID report = true
                            \/ exists login,
                                 In login (Report.participants report)
                                 /\ login <> "__proto__")
                    (orderReports config reports)
                  <-> Forall (fun report =>
                                isReportExcluded onyx config activeReportID report = true
                                \/ Report.participants report <> [])
                        reports).
  { rewrite !List.Forall_forall. rewrite List.Forall_forall in Hreports.
    split; intros H r Hr.
    - destruct (H r (proj2 (orderReports_In config reports r) Hr))
        as [He|(login & Hin & _)]; [now left|right].
      intros Hnil. rewrite Hnil in Hin. destruct Hin.
    - apply (proj1 (orderReports_In config reports r)) in Hr.
      destruct (H r Hr) as [He|Hne]; [now left|right].
      specialize (Hreports r Hr).
      destruct (Report.participants r) as [|login others]; [contradiction|].
      exists login. split; [now left|].
      apply List.Forall_inv in Hreports. now apply inheritedName_proto. }
  rewrite <- Hperm.
  rewrite <- (buildReportOptions_returns onyx config personalDetails activeReportID
                (orderReports config reports) ∅ []).
  split.
  - intros [result H].
    destruct (getOptions_OK _ _ _ _ _ _ H) as (opts & m & _ & _ & Hb & _). eauto.
  - intros [[opts m] Hb]. unfold getOptions. rewrite Hb. cbn [bind fst snd].
    destruct (buildPersonalDetailsOptions_returns onyx config personalDetails m)
      as [pdo Hp].
    { eapply List.Forall_impl; [|exact Hdetails].
      intros entry. apply inheritedName_proto. }
    rewrite Hp. cbn [bind].
    match goal with
    | |- context [inviteOption onyx config personalDetails ?r ?p ?x] =>
        destruct (inviteOption_returns config personalDetails r p x Hs) as [i Hi];
        [now apply inheritedName_proto|rewrite Hi]
    end.
    cbn [bind]. eauto.
Qed.

(** Without priority flags and without the merge of the search, the
    recent reports are the plain recent options of the loop. *)
Lemma getOptions_plain (reports : list Report.t) (personalDetails : PersonalDetails)
    (activeReportID : Z) (config : Config.t) (result : Options.t) :
  getOptions onyx reports personalDetails activeReportID config = OK result ->
  Config.prioritizePinnedReports config = false ->
  Config.prioritizeIOUDebts config = false ->
  Config.prioritizeReportsWithDraftComments config = false ->
  Config.prioritizeDefaultRoomsInSearch config = false ->
  Config.sortByReportTypeInSearch config = false ->
  exists allReportOptions,
    Options.recentReports result
    = Selection.recentReportOptions (selection onyx config allReportOptions)
    /\ Options.recentReports result
       = Selection.accepted (selection onyx config allReportOptions)
    /\ forall o, In o (Options.recentReports result) -> Admissible onyx config o.
Proof.
  intros H H1 H2 H3 H4 H5.
  destruct (getOptions_OK _ _ _ _ _ _ H) as (opts & m & pdo & invite & _ & _ & _ & ->).
  exists opts. unfold searchModeMerge, prioritizeDefaultRooms, recombine.
  rewrite H1, H2, H3, H4, H5. cbn [andb Options.recentReports].
  assert (Ha : Selection.accepted (selection onyx config opts)
               = Selection.recentReportOptions (selection onyx config opts)).
  { unfold selection. destruct (Config.includeRecentReports config); [|reflexivity].
    now apply selectRecentReports_without_priorities. }
  split; [reflexivity|]. split; [now rewrite Ha|].
  intros o Ho. rewrite <- Ha in Ho. now apply selection_accepted in Ho.
Qed.

(** X26. The New Group view shows at most five recent reports, and each
    of them has a login, that is, stands for one person. *)
Theorem getNewChatOptions_recentReports (reports : list Report.t)
    (personalDetails : PersonalDetails) (betas : list string) (searchValue : string)
    (selectedOptions : list Option.t) (excludeLogins : list string)
    (result : Options.t) :
  getNewChatOptions onyx reports personalDetails betas searchValue selectedOptions
    excludeLogins = OK result ->
  (length (Options.recentReports result) <= 5)%nat
  /\ Forall (fun o => Js.truthy (Option.login o) = true) (Options.recentReports result).
Proof.
  unfold getNewChatOptions. intros H.
  destruct (getOptions_plain _ _ _ _ _ H eq_refl eq_refl eq_refl eq_refl eq_refl)
    as (opts & Hr & _ & Hadm).
  split.
  - rewrite Hr. unfold selection. cbn [Config.includeRecentReports].
    match goal with
    | |- (length (Selection.recentReportOptions (selectRecentReports ?c ?l ?s)) <= 5)%nat =>
        pose proof (selectRecentReports_recent_bound c l s) as Hb
    end.
    cbn [Config.maxRecentReportsToShow Selection.start Selection.recentReportOptions
           length] in Hb.
    specialize (Hb ltac:(lia) ltac:(lia)). lia.
  - apply List.Forall_forall. intros o Ho.
    destruct (Hadm o Ho) as (_ & _ & Hlogin). now apply Hlogin.
Qed.

(** X27. The Workspace Member Invite view returns no recent report. *)
Theorem getMemberInviteOptions_recentReports (personalDetails : PersonalDetails)
    (betas : list string) (searchValue : string) (excludeLogins : list string)
    (result : Options.t) :
  getMemberInviteOptions onyx personalDetails betas searchValue excludeLogins
  = OK result ->
  Options.recentReports result = []
  /\ Forall (fun o => forall login, In login excludeLogins ->
                                    Option.login o <> Some login)
       (Options.personalDetails result).
Proof.
  unfold getMemberInviteOptions. intros H.
  destruct (getOptions_plain _ _ _ _ _ H eq_refl eq_refl eq_refl eq_refl eq_refl)
    as (opts & Hr & _ & _).
  split; [now rewrite Hr|].
  destruct (getOptions_returned onyx _ _ _ _ _ H)
    as (opts' & m & pdo & _ & _ & _ & Hplain).
  destruct (Hplain eq_refl) as [_ Hp]. rewrite Hp.
  apply List.Forall_forall. intros o Ho login Hl Heq.
  apply selectPersonalDetails_In in Ho as (_ & Hex & _). apply Hex.
  apply selection_initialExclusions. unfold initialExclusions.
  cbn [Config.selectedOptions Config.excludeLogins map app].
  right. apply in_map_iff. eauto.
Qed.

(** X28. The sidebar returns recent reports only: no personal detail and
    no invitation. *)
Theorem getSidebarOptions_recent_only (reports : list Report.t)
    (personalDetails : PersonalDetails) (activeReportID : Z) (priorityMode : string)
    (betas : list string) (reportActions : gmap Z (list ReportAction.t))
    (result : Options.t) :
  getSidebarOptions onyx reports personalDetails activeReportID priorityMode betas
    reportActions = OK result ->
  Options.personalDetails result = [] /\ Options.userToInvite result = None.
Proof.
  unfold getSidebarOptions. intros H.
  destruct (getOptions_OK _ _ _ _ _ _ H) as (opts & m & pdo & invite & _ & _ & Hi & ->).
  unfold inviteOption in Hi. cbn [sidebarConfig Config.searchValue Js.nonEmpty andb] in Hi.
  injection Hi as <-. split; reflexivity.
Qed.

(** X24. When the search merges the lists ([sortByReportTypeInSearch]
    and a search value), no personal detail is returned apart, and the
    recent reports are ordered by rank: exact login matches, then other
    people, then reports with several participants, then rooms. *)
Theorem getOptions_search_ranks (reports : list Report.t)
    (personalDetails : PersonalDetails) (activeReportID : Z) (config : Config.t)
    (result : Options.t) :
  getOptions onyx reports personalDetails activeReportID config = OK result ->
  Config.sortByReportTypeInSearch config = true ->
  Config.searchValue config <> "" ->
  Options.personalDetails result = []
  /\ StronglySorted (fun a b => searchRank config a <= searchRank config b)
       (Options.recentReports result)
  /\ forall o,
       In o (Options.recentReports result) ->
       (searchRank config o = 0
        <-> Option.isChatRoom o = false /\ Option.isArchivedRoom o = false
            /\ exists login,
                 Option.login o = Some login /\ login <> ""
                 /\ Js.toLowerCase login = Js.toLowerCase (Config.searchValue config)).
Proof.
  intros H Hm Hs.
  destruct (getOptions_OK _ _ _ _ _ _ H) as (opts & m & pdo & invite & _ & _ & _ & ->).
  unfold searchModeMerge. rewrite Hm.
  destruct (Config.searchValue config) as [|c sv] eqn:Hsv; [contradiction|].
  cbn [Js.nonEmpty andb Options.personalDetails Options.recentReports].
  split; [reflexivity|]. split.
  - eapply StronglySorted_weaken;
      [|apply (lodashOrderByZ_sorted _ (searchRank config) asc)].
    intros a b. simpl. apply Z.leb_le.
  - intros o _. unfold searchRank. rewrite Hsv.
    destruct (Option.isChatRoom o), (Option.isArchivedRoom o); cbn [orb];
      try (split; [discriminate|intros (? & ? & _); discriminate]).
    destruct (Option.login o) as [[|d l]|].
    + split; [discriminate|]. intros (_ & _ & login & [= <-] & Hne & _). contradiction.
    + destruct (String.eqb_spec (Js.toLowerCase (String d l))
                  (Js.toLowerCase (String c sv))) as [Heq|Hne]; cbn [negb].
      * split; [|reflexivity]. intros _. repeat split.
        exists (String d l). repeat split; [discriminate|exact Heq].
      * split; [discriminate|].
        intros (_ & _ & login & [= <-] & _ & Heq). contradiction.
    + split; [discriminate|]. intros (_ & _ & login & Hl & _). discriminate.
Qed.

End Returns.

(** ** The invitation *)

Section Invitation.

Context {RU : ReportUtils.api} {PM : Permissions.api} {ST : Str.api}.
Context {LO : Localize.api} {CO : CONST.api}.
Variable onyx : Onyx.t.

Lemma inviteOption_createOption (config : Config.t) (personalDetails : PersonalDetails)
    (recent selected : list Option.t) (loginOptionsToExclude : list (option string))
    (invite : Option.t) :
  inviteOption onyx config personalDetails recent selected loginOptionsToExclude
  = OK (Some invite) ->
  exists userToInvite,
    createOption onyx
      [if Str.isValidPhone (Config.searchValue config)
          && negb (Js.includes "+" (Config.searchValue config))
       then "+" +:+ from_option Js.ofZ "undefined" (Onyx.countryCodeByIP onyx)
            +:+ Config.searchValue config
       else Config.searchValue config]
      personalDetails None (Config.reportActions config)
      (Config.showChatPreviewLine config) false = OK userToInvite
    /\ invite
       = Option.withIcons userToInvite
           [ReportUtils.getDefaultAvatar
              (if Str.isValidPhone (Config.searchValue config)
                  && negb (Js.includes "+" (Config.searchValue config))
               then "+" +:+ from_option Js.ofZ "undefined" (Onyx.countryCodeByIP onyx)
                    +:+ Config.searchValue config
               else Config.searchValue config)].
Proof.
  unfold inviteOption. cbv zeta. intros H.
  destruct (Js.nonEmpty (Config.searchValue config) && _); [|discriminate].
  destruct (isCurrentUser onyx (Some (Config.searchValue config))) as [b|e];
    [|discriminate]. cbn [bind] in H.
  destruct (negb b && _ && _ && _ && _); [|discriminate].
  destruct (createOption onyx _ personalDetails None _ _ false) as [u|e] eqn:Hu;
    [|discriminate].
  cbn [bind] in H. injection H as <-. exists u. split; reflexivity.
Qed.

(** X25. The suggested invitation is an option without report for one
    login: the search value, with the country code and a plus sign in front
    when it is a phone number without a plus sign.  Its only icon is the
    default avatar of that login. *)
Theorem userToInvite_option (reports : list Report.t)
    (personalDetails : PersonalDetails) (activeReportID : Z) (config : Config.t)
    (result : Options.t) (invite : Option.t) :
  getOptions onyx reports personalDetails activeReportID config = OK result ->
  Options.userToInvite result = Some invite ->
  exists login,
    login
    = (if Str.isValidPhone (Config.searchValue config)
          && negb (Js.includes "+" (Config.searchValue config))
       then "+" +:+ from_option Js.ofZ "undefined" (Onyx.countryCodeByIP onyx)
            +:+ Config.searchValue config
       else Config.searchValue config)
    /\ Option.reportID invite = None
    /\ Option.isChatRoom invite = false
    /\ Option.icons invite = [ReportUtils.getDefaultAvatar login]
    /\ Option.login invite
       = Some (PersonalDetail.login (personalDetailFor personalDetails login))
    /\ Option.keyForList invite
       = PersonalDetail.login (personalDetailFor personalDetails login)
    /\ (lookupDetail personalDetails login = None -> Option.login invite = Some login).
Proof.
  intros H Hinvite.
  destruct (getOptions_OK _ _ _ _ _ _ H) as (opts & m & pdo & invite' & _ & _ & Hi & ->).
  assert (invite' = Some invite) as ->.
  { unfold searchModeMerge in Hinvite. now destruct (_ && _). }
  apply inviteOption_createOption in Hi as (u & Hu & ->).
  eexists. split; [reflexivity|].
  pose proof (createOption_flags onyx _ _ _ _ _ _ _ Hu) as (Hroom & _ & Hid & _).
  pose proof (createOption_single onyx _ _ _ _ _ _ _ Hu) as (_ & Hkey & Hlogin).
  cbn [from_option orb] in *.
  change (Option.reportID (Option.withIcons u _)) with (Option.reportID u).
  change (Option.isChatRoom (Option.withIcons u _)) with (Option.isChatRoom u).
  change (Option.login (Option.withIcons u _)) with (Option.login u).
  change (Option.keyForList (Option.withIcons u _)) with (Option.keyForList u).
  split; [exact Hid|]. split; [exact Hroom|]. split; [reflexivity|].
  assert (Hl : Option.login u
               = Some (PersonalDetail.login
                         (personalDetailFor personalDetails
                            (if Str.isValidPhone (Config.searchValue config)
                                && negb (Js.includes "+" (Config.searchValue config))
                             then "+" +:+ from_option Js.ofZ "undefined"
                                            (Onyx.countryCodeByIP onyx)
                                  +:+ Config.searchValue config
                             else Config.searchValue config)))).
  { rewrite Hlogin. reflexivity. }
  split; [exact Hl|]. split; [exact Hkey|].
  intros Hnone. rewrite Hl. unfold personalDetailFor. now rewrite Hnone.
Qed.

End Invitation.

(** ** The header message and the currency list *)

Section Header.

Context {ST : Str.api} {LO : Localize.api}.
Variable onyx : Onyx.t.
Variable MAXIMUM_PARTICIPANTS : Z.
Variable DIGITS_AND_PLUS : string -> bool.

(** X29. When [CONST.REGEX.DIGITS_AND_PLUS] accepts the search value
    whenever the search value is made of digits, the second test for an
    invalid phone number never decides: the message is that of the limit
    of participants, else that of the invalid phone number for a search
    value of digits and plus signs that is no phone number, else that of
    the empty result for a search value without option nor invitation,
    else empty. *)
Theorem getHeaderMessage_cases (hasSelectableOptions hasUserToInvite : bool)
    (searchValue : string) (maxParticipantsReached : bool) :
  (testDigits searchValue = true -> DIGITS_AND_PLUS searchValue = true) ->
  getHeaderMessage onyx MAXIMUM_PARTICIPANTS DIGITS_AND_PLUS hasSelectableOptions
    hasUserToInvite searchValue maxParticipantsReached
  = if maxParticipantsReached then
      Localize.translate (Onyx.preferredLocale onyx) "common.maxParticipantsReached"
        [("count", Js.ofZ MAXIMUM_PARTICIPANTS)]
    else if Js.nonEmpty searchValue && DIGITS_AND_PLUS searchValue
            && negb (Str.isValidPhone searchValue) then
      Localize.translate (Onyx.preferredLocale onyx)
        "messages.errorMessageInvalidPhone" []
    else if Js.nonEmpty searchValue && negb hasSelectableOptions
            && negb hasUserToInvite then
      Localize.translate (Onyx.preferredLocale onyx) "common.noResultsFound" []
    else "".
Proof.
  intros Hd. unfold getHeaderMessage.
  destruct maxParticipantsReached; [reflexivity|].
  destruct (Js.nonEmpty searchValue && DIGITS_AND_PLUS searchValue
            && negb (Str.isValidPhone searchValue)) eqn:H1; [reflexivity|].
  destruct (Js.nonEmpty searchValue && negb hasSelectableOptions
            && negb hasUserToInvite) eqn:H2; [|reflexivity].
  destruct (testDigits searchValue) eqn:Ht; [|reflexivity].
  rewrite (Hd eq_refl) in H1. cbn [andb].
  apply andb_true_iff in H2 as [H2 _]. apply andb_true_iff in H2 as [H2 _].
  rewrite H2 in H1. cbn [andb] in H1. now rewrite H1.
Qed.

End Header.


(** ** The order of the candidates *)

Section CandidateOrder.

Context {RU : ReportUtils.api} {PM : Permissions.api} {ST : Str.api}.
Context {LO : Localize.api} {CO : CONST.api}.
Variable onyx : Onyx.t.
Variable config : Config.t.
Variable personalDetails : PersonalDetails.
Variable activeReportID : Z.

(** X15. The requested sort returns the reports ordered by name,
    ascending, if [sortByAlphaAsc] is set, and else by the time of the
    last message or, without [sortByLastMessageTimestamp], of the last
    visit, latest first; reports with the same key keep their order. *)
Theorem primarySort_spec (reports : list Report.t) :
  Permutation (primarySort config reports) reports
  /\ if Config.sortByAlphaAsc config then
       StronglySorted
         (fun a b => String.leb (Report.reportName a) (Report.reportName b) = true)
         (primarySort config reports)
       /\ forall name,
            List.filter (fun r => String.eqb (Report.reportName r) name)
              (primarySort config reports)
            = List.filter (fun r => String.eqb (Report.reportName r) name) reports
     else if Config.sortByLastMessageTimestamp config then
       StronglySorted
         (fun a b => Report.lastMessageTimestamp b <= Report.lastMessageTimestamp a)
         (primarySort config reports)
       /\ forall time,
            List.filter (fun r => Report.lastMessageTimestamp r =? time)
              (primarySort config reports)
            = List.filter (fun r => Report.lastMessageTimestamp r =? time) reports
     else
       StronglySorted
         (fun a b => Report.lastVisitedTimestamp b <= Report.lastVisitedTimestamp a)
         (primarySort config reports)
       /\ forall time,
            List.filter (fun r => Report.lastVisitedTimestamp r =? time)
              (primarySort config reports)
            = List.filter (fun r => Report.lastVisitedTimestamp r =? time) reports.
Proof.
  split; [apply primarySort_Permutation|].
  pose proof (primarySort_sorted config reports) as Hs.
  unfold primarySort in *.
  destruct (Config.sortByAlphaAsc config).
  - split; [exact Hs|]. intros name. apply lodashOrderByString_stable.
  - destruct (Config.sortByLastMessageTimestamp config);
      (split; [exact Hs|]); intros time; apply lodashOrderByZ_stable.
Qed.

Lemma buildReportOptions_Forall2 (orderedReports : list Report.t) :
  forall (m m' : gmap string Report.t) (acc opts : list Option.t),
    buildReportOptions onyx config personalDetails activeReportID orderedReports m acc
    = OK (opts, m') ->
    exists new,
      opts = acc ++ new
      /\ Forall2 (fun report o =>
                    createReportOption onyx config personalDetails report = OK o)
           (List.filter
              (fun r => negb (isReportExcluded onyx config activeReportID r))
              orderedReports)
           new.
Proof.
  induction orderedReports as [|report rest IH]; intros m m' acc opts H; simpl in H.
  - injection H as <- _. exists []. rewrite app_nil_r. split; [reflexivity|constructor].
  - cbn [List.filter].
    destruct (isReportExcluded onyx config activeReportID report); cbn [negb].
    + now apply IH in H.
    + destruct (createReportOption onyx config personalDetails report)
        as [o|e] eqn:Hc; [|discriminate].
      cbn [bind] in H. apply IH in H as (new & -> & Hnew).
      exists (o :: new). rewrite <- app_assoc. split; [reflexivity|].
      now constructor.
Qed.

(** X16. The candidate options are the options of the reports that pass
    the filter, one per report, in the order of the ordered reports. *)
Theorem candidates_follow_reports (reports : list Report.t)
    (allReportOptions : list Option.t) (reportMapForLogins : gmap string Report.t) :
  buildReportOptions onyx config personalDetails activeReportID
    (orderReports config reports) ∅ []
  = OK (allReportOptions, reportMapForLogins) ->
  Forall2 (fun report o =>
             createReportOption onyx config personalDetails report = OK o
             /\ Option.reportID o = Report.reportID report)
    (List.filter (fun r => negb (isReportExcluded onyx config activeReportID r))
       (orderReports config reports))
    allReportOptions.
Proof.
  intros H. apply buildReportOptions_Forall2 in H as (new & -> & Hnew).
  cbn [app]. eapply Forall2_impl; [exact Hnew|].
  intros r o Hc. split; [exact Hc|]. unfold createReportOption in Hc.
  now apply createOption_flags in Hc as (_ & _ & -> & _).
Qed.

Lemma buildReportOptions_loginMap (orderedReports : list Report.t) (key : string) :
  forall (m m' : gmap string Report.t) (acc opts : list Option.t),
    buildReportOptions onyx config personalDetails activeReportID orderedReports m acc
    = OK (opts, m') ->
    m' !! key
    = match last (List.filter (indexedUnder onyx config activeReportID key)
                    orderedReports) with
      | Some report => Some report
      | None => m !! key
      end.
Proof.
  induction orderedReports as [|report rest IH]; intros m m' acc opts H; simpl in H.
  - injection H as _ <-. reflexivity.
  - cbn [List.filter]. unfold indexedUnder at 1.
    destruct (isReportExcluded onyx config activeReportID report); cbn [negb andb].
    + now apply IH in H.
    + destruct (createReportOption onyx config personalDetails report)
        as [o|e] eqn:Hc; [|discriminate].
      cbn [bind] in H. apply IH in H. rewrite H. clear H.
      destruct ((length (Report.participants report) <=? 1)%nat
                && negb (ReportUtils.isPolicyExpenseChat report)
                && negb (ReportUtils.isChatRoom report)); cbn [andb];
        [|reflexivity].
      destruct (String.eqb_spec
                  (default "undefined" (head (Report.participants report))) key)
        as [Heq|Hne].
      * rewrite last_cons.
        destruct (last (List.filter (indexedUnder onyx config activeReportID key) rest));
          [reflexivity|].
        rewrite Heq. now rewrite lookup_insert_eq.
      * destruct (last (List.filter (indexedUnder onyx config activeReportID key) rest));
          [reflexivity|].
        now rewrite lookup_insert_ne.
Qed.

(** X17. The report that the personal detail of a login is linked with
    is the last one, in the order of the ordered reports, among the
    reports that pass the filter, have at most one participant, this
    login, and are neither chat rooms nor policy expense chats. *)
Theorem reportMapForLogins_last_wins (reports : list Report.t)
    (allReportOptions : list Option.t) (reportMapForLogins : gmap string Report.t)
    (login : string) :
  buildReportOptions onyx config personalDetails activeReportID
    (orderReports config reports) ∅ []
  = OK (allReportOptions, reportMapForLogins) ->
  reportMapForLogins !! login
  = last (List.filter (indexedUnder onyx config activeReportID login)
            (orderReports config reports)).
Proof.
  intros H. rewrite (buildReportOptions_loginMap _ login _ _ _ _ H).
  destruct (last _); [reflexivity|apply lookup_empty].
Qed.

End CandidateOrder.
(** * Concrete runs *)

Import Sample.

Example split_commas : Js.split "," "a,,b" = ["a"; ""; "b"].
Proof. reflexivity. Qed.

Example split_empty : Js.split " " "" = [""].
Proof. reflexivity. Qed.

Example trim_tabs : Js.trim (String "009" " ab c  ") = "ab c".
Proof. reflexivity. Qed.

Example removeAll_once : Js.removeAll "&nbsp;" "a&nb&nbsp;sp;b&nbsp;" = "a&nbsp;b".
Proof. reflexivity. Qed.

Example uniqFast_example : uniqFast ["b"; "a"; "b"; "c"; "a"] = ["b"; "a"; "c"].
Proof. reflexivity. Qed.

Example searchWords_commas : searchWords "john,doe" = ["john"; "doe"].
Proof. reflexivity. Qed.

Example isSearchStringMatch_john_doe :
  isSearchStringMatch "john.doe" "johndoe something" ∅ false = true.
Proof. reflexivity. Qed.

(** Every [__proto__] is kept: the object that serves as a set never
    records it. *)
Example uniqFast_proto :
  uniqFast ["__proto__"; "a"; "__proto__"; "a"] = ["__proto__"; "a"; "__proto__"].
Proof. reflexivity. Qed.

(** An object lists its array indices first, in ascending order. *)
Example getPersonalDetailsForLogins_order :
  map fst (getPersonalDetailsForLogins ["b@x.com"; "10"; "a@x.com"; "2"; "10"] [])
  = ["2"; "10"; "b@x.com"; "a@x.com"].
Proof. reflexivity. Qed.

Example arrayIndex_examples :
  map Js.arrayIndex ["0"; "7"; "10"; "007"; "1e3"; "-1"; ""; "4294967294"; "4294967295"]
  = [Some 0; Some 7; Some 10; None; None; None; None; Some 4294967294; None]%N.
Proof. reflexivity. Qed.

(** The scenario of the specification: one chat with Alice, no query. *)
Example getOptions_alice :
  exists result,
    getSidebarOptions onyx [chat 1 "a@x.com" 100] [person "a@x.com" "Alice"] 0
      "default" ["defaultRooms"] ∅
    = OK result
    /\ map Option.text (Options.recentReports result) = ["Alice"].
Proof. eexists. split; vm_compute; reflexivity. Qed.

(** A chat room without participants passes the filter of [getOptions]
    and makes the whole call throw. *)
Example getOptions_room_without_participants :
  isReportExcluded onyx sidebar 0 (report 7 [] "admins" 100 true true false) = false
  /\ getSidebarOptions onyx
       [report 7 [] "admins" 100 true true false; chat 3 "c@x.com" 80] [] 0
       "default" ["defaultRooms"] ∅
     = Throw (TypeError "avatar").
Proof. split; vm_compute; reflexivity. Qed.

(** C1, as stated, fails: with the three priority flags, a search for
    [an] and [prioritizeDefaultRoomsInSearch], the room [announce] of the
    plain options comes before the pinned chat with Ann, whatever the order
    within the arrays. *)
Lemma recombination_order_broken_by_room_priority :
  exists result allReportOptions reportMapForLogins,
    getOptions onyx [annChat; announceRoom] people 0 roomSearch = OK result
    /\ buildReportOptions onyx roomSearch people 0
         (orderReports roomSearch [annChat; announceRoom]) ∅ []
       = OK (allReportOptions, reportMapForLogins)
    /\ map Option.text (Options.recentReports result) = ["announce"; "Ann"]
    /\ map Option.text
         (Selection.pinnedReportOptions (selection onyx roomSearch allReportOptions))
       = ["Ann"]
    /\ map Option.text
         (Selection.recentReportOptions (selection onyx roomSearch allReportOptions))
       = ["announce"]
    /\ forall pinned iouDebts drafts,
         Permutation pinned
           (Selection.pinnedReportOptions (selection onyx roomSearch allReportOptions)) ->
         Permutation iouDebts
           (Selection.iouDebtReportOptions
              (selection onyx roomSearch allReportOptions)) ->
         Permutation drafts
           (Selection.draftReportOptions (selection onyx roomSearch allReportOptions)) ->
         Options.recentReports result
         <> pinned ++ iouDebts ++ drafts
            ++ Selection.recentReportOptions
                 (selection onyx roomSearch allReportOptions).
Proof.
  eexists. eexists. eexists.
  split; [vm_compute; reflexivity|].
  split; [vm_compute; reflexivity|].
  split; [vm_compute; reflexivity|].
  split; [vm_compute; reflexivity|].
  split; [vm_compute; reflexivity|].
  intros pinned iouDebts drafts Hp Hi Hd H.
  apply Permutation_length in Hp, Hi, Hd.
  apply (f_equal (map Option.text)) in H.
  destruct pinned as [|p [|]]; try discriminate Hp.
  destruct iouDebts; try discriminate Hi.
  destruct drafts; try discriminate Hd.
  vm_compute in H. discriminate H.
Qed.

(** The sidebar in its default mode with two chats of each class: each
    of the three sorts changes the order of the candidates. *)
Lemma recombination_order_witness :
  exists result allReportOptions reportMapForLogins pinned iouDebts drafts,
    getSidebarOptions onyxWithDebts busyChats friends 0 "default" ["defaultRooms"] ∅
    = OK result
    /\ buildReportOptions onyxWithDebts sidebar friends 0
         (orderReports sidebar busyChats) ∅ []
       = OK (allReportOptions, reportMapForLogins)
    /\ map Option.text allReportOptions
       = ["Dan"; "Ann"; "Bob"; "Eve"; "Gus"; "Cid"; "Fay"; "Hal"]
    /\ map Option.text (Options.recentReports result)
       = ["Ann"; "Dan"; "Eve"; "Bob"; "Cid"; "Gus"; "Fay"; "Hal"]
    /\ map Option.iouReportAmount (Options.recentReports result)
       = [0; 0; 900; 500; 0; 0; 0; 0]
    /\ Options.recentReports result
       = pinned ++ iouDebts ++ drafts
         ++ Selection.recentReportOptions
              (selection onyxWithDebts sidebar allReportOptions)
    /\ (length pinned = 2 /\ length iouDebts = 2 /\ length drafts = 2)%nat
    /\ StronglySorted (fun a b => caseless (Option.text a) (Option.text b)) pinned
    /\ StronglySorted (fun a b => caseless (Option.text a) (Option.text b)) drafts.
Proof.
  eexists.
  edestruct (recombination_order onyxWithDebts caseless busyChats friends 0 sidebar)
    as (opts & m & p & i & d & Hb & Hr & Hpp & Hps & Hpi & _ & Hpd & Hds & _);
    [vm_compute; reflexivity | reflexivity | reflexivity | reflexivity
    | left; reflexivity | |].
  { intros a b Ha Hb Hleb. unfold caseless.
    match type of Ha with
    | In a ?l =>
        assert (Hc : forallb
                       (fun a =>
                          forallb
                            (fun b =>
                               implb (String.leb (Option.text a) (Option.text b))
                                 (String.leb (Js.toLowerCase (Option.text a))
                                    (Js.toLowerCase (Option.text b))))
                            l)
                       l = true) by (vm_compute; reflexivity)
    end.
    rewrite forallb_forall in Hc. specialize (Hc a Ha).
    rewrite forallb_forall in Hc. specialize (Hc b Hb).
    rewrite Hleb in Hc. exact Hc. }
  exists opts, m, p, i, d.
  split; [vm_compute; reflexivity|].
  split; [exact Hb|].
  vm_compute in Hb. injection Hb as <- <-.
  split; [vm_compute; reflexivity|].
  split; [vm_compute; reflexivity|].
  split; [vm_compute; reflexivity|].
  split; [exact Hr|].
  apply Permutation_length in Hpp, Hpi, Hpd.
  split; [repeat split; [rewrite Hpp|rewrite Hpi|rewrite Hpd]; vm_compute; reflexivity|].
  split; [exact Hps|exact Hds].
Defined.

(** C5. At the failing input the search value [Bob@X.com] is the login
    of a returned personal detail, and the same login is suggested for an
    invitation all the same: the test for an exact match compares the
    logins of the options with the lowercased search value, and no login
    with a capital letter equals it. *)
Lemma userToInvite_for_a_returned_login :
  exists result invite o,
    getOptions onyx [] [person "Bob@X.com" "Bob"] 0
      (config 0 "Bob@X.com" false false false) = OK result
    /\ Options.userToInvite result = Some invite
    /\ Option.login invite = Some "Bob@X.com"
    /\ In o (Options.recentReports result ++ Options.personalDetails result)
    /\ Option.login o = Some "Bob@X.com".
Proof.
  eexists. eexists. eexists.
  split; [vm_compute; reflexivity|].
  split; [vm_compute; reflexivity|].
  split; [vm_compute; reflexivity|].
  split; [vm_compute; left; reflexivity|].
  vm_compute. reflexivity.
Qed.

(** C2 at the failing input: [john] is a participant name, the search
    text does not contain it, and the query [JOHN] does not match, where
    the query [john] does. *)
Lemma isSearchStringMatch_capital_misses_name_witness :
  "john" ∈ getParticipantNames [snd (person "john@x.com" "John")]
  /\ isSearchStringMatch "JOHN" "Jane jane@xcom"
       (getParticipantNames [snd (person "john@x.com" "John")]) false = false
  /\ isSearchStringMatch "john" "Jane jane@xcom"
       (getParticipantNames [snd (person "john@x.com" "John")]) false = true.
Proof.
  split; [vm_compute; reflexivity|].
  split; [|vm_compute; reflexivity].
  apply isSearchStringMatch_capital_misses_name;
    [reflexivity | reflexivity | discriminate | reflexivity].
Defined.

(** C8, as stated, fails for the words of the search text: the display
    names [Ann Lee] and [Bob Lee] are two terms, and the word [Lee] occurs
    twice. *)
Lemma getSearchText_repeats_a_word :
  getSearchText onyx None "" theLees false = "Ann Lee ann@xcom Bob Lee bob@xcom"
  /\ NoDup (searchTerms onyx None "" theLees false)
  /\ ~ NoDup (Js.split " " (getSearchText onyx None "" theLees false)).
Proof.
  split; [vm_compute; reflexivity|].
  split; [apply (bool_decide_unpack _); vm_compute; exact I|].
  intros H. apply (bool_decide_pack _) in H. vm_compute in H. exact H.
Qed.

(** Two chats with Ann give her name and her login twice; the search text
    has them once. *)
Lemma uniqFast_first_occurrences_witness :
("__proto__" ∉ ["Ann"; "ann@xcom"; "Ann"; "ann@xcom"])
  /\ uniqFast ["Ann"; "ann@xcom"; "Ann"; "ann@xcom"] = ["Ann"; "ann@xcom"]
  /\ Js.split " "
       (getSearchText onyx None ""
          [snd (person "ann@x.com" "Ann"); snd (person "ann@x.com" "Ann")] false)
     = ["Ann"; "ann@xcom"].
Proof.
  assert (Hp : "__proto__" ∉ ["Ann"; "ann@xcom"; "Ann"; "ann@xcom"]).
  { intros H. apply (bool_decide_pack _) in H. vm_compute in H. exact H. }
  split; [exact Hp|].
  destruct (uniqFast_first_occurrences onyx ["Ann"; "ann@xcom"; "Ann"; "ann@xcom"] Hp)
    as (Hu & _ & _ & Ht).
  split; [rewrite Hu; reflexivity|].
  destruct (Ht None ""
              [snd (person "ann@x.com" "Ann"); snd (person "ann@x.com" "Ann")] false)
    as [Hs _]; [reflexivity | discriminate | repeat constructor |].
  rewrite Hs. reflexivity.
Defined.

(** A search for an unknown email suggests the invitation. *)
Lemma userToInvite_only_if_witness :
  exists result invite,
    getOptions onyx [] people 0 (config 0 "new@x.com" false false false) = OK result
    /\ Options.userToInvite result = Some invite
    /\ Option.login invite = Some "new@x.com"
    /\ isCurrentUser onyx (Some "new@x.com") = OK false.
Proof.
  eexists. eexists.
  split; [vm_compute; reflexivity|].
  split; [vm_compute; reflexivity|].
  split; [vm_compute; reflexivity|].
  edestruct (userToInvite_only_if onyx [] people 0
               (config 0 "new@x.com" false false false))
    as (_ & _ & _ & Hc & _);
    [vm_compute; reflexivity | vm_compute; reflexivity |].
  exact Hc.
Defined.

(** C6, as stated, fails: with a cap of one and the priority flags, the
    two pinned chats and one plain chat are accepted. *)
Lemma cap_exceeded_by_pinned_options :
  exists result allReportOptions reportMapForLogins,
    getOptions onyx pinnedChats [] 0 capped = OK result
    /\ buildReportOptions onyx capped [] 0 (orderReports capped pinnedChats) ∅ []
       = OK (allReportOptions, reportMapForLogins)
    /\ Config.maxRecentReportsToShow capped = 1
    /\ length (Options.recentReports result) = 3%nat
    /\ ~ (Z.of_nat (length (Selection.accepted
                              (selection onyx capped allReportOptions)))
          <= Config.maxRecentReportsToShow capped).
Proof.
  eexists. eexists. eexists.
  split; [vm_compute; reflexivity|].
  split; [vm_compute; reflexivity|].
  split; [reflexivity|].
  split; [vm_compute; reflexivity|].
  vm_compute. intros H. apply H. reflexivity.
Qed.

(** Four candidates, a cap of two and no priority flag: two are accepted
    at most. *)
Lemma cap_counts_plain_recent_options_witness :
  exists allReportOptions reportMapForLogins,
    buildReportOptions onyx cappedPlain [] 0 (orderReports cappedPlain pinnedChats) ∅ []
    = OK (allReportOptions, reportMapForLogins)
    /\ length allReportOptions = 4%nat
    /\ 0 < Config.maxRecentReportsToShow cappedPlain
    /\ Z.of_nat (length (Selection.accepted
                           (selectRecentReports cappedPlain allReportOptions
                              (Selection.start (initialExclusions onyx cappedPlain)))))
       <= Config.maxRecentReportsToShow cappedPlain.
Proof.
  eexists. eexists.
  split; [vm_compute; reflexivity|].
  split; [reflexivity|].
  split; [reflexivity|].
  eapply (cap_counts_plain_recent_options cappedPlain);
    [reflexivity | reflexivity | reflexivity | reflexivity].
Defined.

(** The failing input of C7: a pinned default room that is archived
    lands in the pinned array and comes first in the recent reports. *)
Lemma pinned_archived_room_is_prioritized_witness :
  exists result reportOption,
    createReportOption onyx sidebar [] archivedRoom = OK reportOption
    /\ ReportUtils.isDefaultRoom archivedRoom = true
    /\ Option.isArchivedRoom reportOption = true
    /\ Selection.pinnedReportOptions
         (accept sidebar (Selection.start (initialExclusions onyx sidebar)) reportOption)
       = [reportOption]
    /\ getSidebarOptions onyx [chat 3 "c@x.com" 180; archivedRoom] [] 0 "default"
         ["defaultRooms"] ∅ = OK result
    /\ map Option.text (Options.recentReports result) = ["admins"; "c@x.com"].
Proof.
  eexists. eexists.
  split; [vm_compute; reflexivity|].
  split; [reflexivity|].
  split; [reflexivity|].
  split.
  { apply (pinned_archived_room_is_prioritized sidebar
             (Selection.start (initialExclusions onyx sidebar)));
      reflexivity. }
  split; vm_compute; reflexivity.
Defined.

(** C9, as stated, fails for the empty login: it is falsy, so the loop
    does not exclude it, and the personal detail with the same login is
    returned too. *)
Lemma empty_login_in_both_lists :
  exists result,
    getOptions onyx [chat 1 "" 100] [person "" "Nobody"] 0
      (config 0 "" false false false) = OK result
    /\ In (Some "") (map Option.login (Options.recentReports result))
    /\ In (Some "") (map Option.login (Options.personalDetails result)).
Proof.
  eexists. split; [vm_compute; reflexivity|].
  split; vm_compute; left; reflexivity.
Qed.

(** Ann has a chat and is left out of the personal details; Bob is kept. *)
Lemma recent_logins_not_in_personalDetails_witness :
  exists result,
    getOptions onyx [chat 1 "ann@x.com" 100] people 0
      (config 0 "" false false false) = OK result
    /\ Js.truthy (Some "ann@x.com") = true
    /\ In (Some "ann@x.com") (map Option.login (Options.recentReports result))
    /\ Forall (fun personalDetailOption =>
                 Option.login personalDetailOption <> Some "ann@x.com")
         (Options.personalDetails result)
    /\ map Option.login (Options.personalDetails result) = [Some "bob@x.com"].
Proof.
  eexists. split; [vm_compute; reflexivity|].
  split; [reflexivity|].
  split; [vm_compute; left; reflexivity|].
  split; [|vm_compute; reflexivity].
  eapply (recent_logins_not_in_personalDetails onyx [chat 1 "ann@x.com" 100] people 0
            (config 0 "" false false false));
    [vm_compute; reflexivity | reflexivity | vm_compute; left; reflexivity].
Defined.

(** * Concrete runs of the further properties *)

Lemma isSearchStringMatch_blank_query_witness :
  allChars separatorChar " , ." = true
  /\ isSearchStringMatch " , ." "Alice a@xcom" ∅ true = true.
Proof.
  split; [reflexivity|].
  apply isSearchStringMatch_blank_query. reflexivity.
Defined.

Lemma isSearchStringMatch_lowercased_query_witness :
  isSearchStringMatch "JOHN" "x" {["john"]} false = false
  /\ isSearchStringMatch (Js.toLowerCase "JOHN") "x" {["john"]} true
     = isSearchStringMatch "JOHN" "x" {["john"]} true.
Proof.
  split; [reflexivity|].
  apply (isSearchStringMatch_lowercased_query "JOHN" "x" {["john"]} false eq_refl).
  intros name Hname. apply elem_of_singleton in Hname. subst name. reflexivity.
Defined.

Lemma getParticipantNames_lowercase_witness :
  "alice" ∈ getParticipantNames [snd (person "A@x.com" "Alice")]
  /\ Js.toLowerCase "alice" = "alice".
Proof.
  assert (H : "alice" ∈ getParticipantNames [snd (person "A@x.com" "Alice")]).
  { vm_compute. reflexivity. }
  split; [exact H|].
  exact (getParticipantNames_lowercase [snd (person "A@x.com" "Alice")] "alice" H).
Defined.

Lemma isCurrentUser_spec_witness :
  exists result,
    isCurrentUser onyx (Some "ME@x.com") = OK result /\ result = true.
Proof.
  destruct (isCurrentUser_spec onyx "ME@x.com" "me@x.com" [] eq_refl eq_refl)
    as (result & Hr & Hiff).
  exists result. split; [exact Hr|]. apply Hiff. left. reflexivity.
Defined.

Lemma getBrickRoadIndicatorStatusForReport_spec_witness :
  CONST.BRICK_ROAD_INDICATOR_STATUS_ERROR <> ""
  /\ getBrickRoadIndicatorStatusForReport (chat 1 "a@x.com" 100) ∅ = "".
Proof.
  assert (H : CONST.BRICK_ROAD_INDICATOR_STATUS_ERROR <> "") by discriminate.
  split; [exact H|].
  apply (getBrickRoadIndicatorStatusForReport_spec (chat 1 "a@x.com" 100) ∅ H).
  split; [reflexivity|]. split; [constructor|].
  intros reportID actions _ Ha. rewrite lookup_empty in Ha. discriminate.
Defined.

Lemma createOption_login_and_key_witness :
  exists o,
    createOption onyx ["7"; "a@x.com"] [person "a@x.com" "Alice"] None ∅ false false
    = OK o
    /\ Option.keyForList o = "7"
    /\ Option.login o = None.
Proof.
  eexists. split; [vm_compute; reflexivity|].
  apply (createOption_login_and_key onyx "7" ["a@x.com"] [person "a@x.com" "Alice"]
           None ∅ false false).
  - vm_compute. reflexivity.
  - repeat constructor.
  - repeat constructor.
Defined.

Lemma getPersonalDetailsForLogins_lookup_witness :
  Js.inheritedName "ann@x.com" = false
  /\ lookupDetail (getPersonalDetailsForLogins ["zed@x.com"; "ann@x.com"] people)
       "ann@x.com"
     = Some (snd (person "ann@x.com" "Ann"))
  /\ lookupDetail (getPersonalDetailsForLogins ["zed@x.com"; "ann@x.com"] people)
       "bob@x.com"
     = None.
Proof.
  split; [reflexivity|].
  rewrite (getPersonalDetailsForLogins_lookup people ["zed@x.com"; "ann@x.com"]
             "ann@x.com" eq_refl).
  rewrite (getPersonalDetailsForLogins_lookup people ["zed@x.com"; "ann@x.com"]
             "bob@x.com" eq_refl).
  split; vm_compute; reflexivity.
Defined.

Lemma createOption_returns_iff_witness :
  Forall (fun login => Js.inheritedName login = false) ["a@x.com"]
  /\ exists o, createOption onyx ["a@x.com"] [] None ∅ false false = OK o.
Proof.
  assert (H : Forall (fun login => Js.inheritedName login = false) ["a@x.com"])
    by (repeat constructor).
  split; [exact H|].
  apply (proj2 (createOption_returns_iff onyx ["a@x.com"] [] None ∅ false false H)).
  discriminate.
Defined.

Lemma returned_options_match_search_witness :
  exists result o,
    getOptions onyx [annChat; announceRoom] people 0 roomSearch = OK result
    /\ In o (Options.recentReports result ++ Options.personalDetails result)
    /\ (Config.searchValue roomSearch = ""
        \/ isSearchStringMatch (Config.searchValue roomSearch) (Option.searchText o)
             (getParticipantNames (Option.participantsList o)) (Option.isChatRoom o)
           = true).
Proof.
  eexists. eexists.
  split; [vm_compute; reflexivity|].
  split; [vm_compute; left; reflexivity|].
  eapply (returned_options_match_search onyx [annChat; announceRoom] people 0
            roomSearch);
    [vm_compute; reflexivity | vm_compute; left; reflexivity].
Defined.

Lemma returned_options_not_excluded_witness :
  exists result o,
    getOptions onyx [chat 1 "me@x.com" 100; chat 2 "ann@x.com" 90] people 0
      (config 0 "" false false false) = OK result
    /\ In o (Options.recentReports result ++ Options.personalDetails result)
    /\ Option.login o = Some "ann@x.com"
    /\ Option.login o <> Onyx.currentUserLogin onyx.
Proof.
  eexists. eexists.
  split; [vm_compute; reflexivity|].
  split; [vm_compute; left; reflexivity|].
  split; [vm_compute; reflexivity|].
  eapply proj1.
  eapply (returned_options_not_excluded onyx
            [chat 1 "me@x.com" 100; chat 2 "ann@x.com" 90] people 0
            (config 0 "" false false false));
    [vm_compute; reflexivity | vm_compute; left; reflexivity | reflexivity].
Defined.

Lemma returned_options_exclude_chat_rooms_witness :
  exists result o,
    getNewChatOptions onyx [annChat; announceRoom] people ["defaultRooms"] "" [] []
    = OK result
    /\ In o (Options.recentReports result ++ Options.personalDetails result)
    /\ Option.isChatRoom o = false
    /\ map Option.text (Options.recentReports result) = ["Ann"].
Proof.
  unfold getNewChatOptions.
  match goal with |- context [getOptions _ _ _ _ ?c] => set (newChat := c) end.
  eexists. eexists.
  split; [vm_compute; reflexivity|].
  split; [vm_compute; left; reflexivity|].
  split; [|vm_compute; reflexivity].
  eapply (returned_options_exclude_chat_rooms onyx [annChat; announceRoom] people 0
            newChat);
    [vm_compute; reflexivity | reflexivity | vm_compute; left; reflexivity].
Defined.

Lemma returned_options_have_identity_witness :
  exists result o,
    getOptions onyx [annChat] people 0 (config 0 "" false false false) = OK result
    /\ In o (Options.personalDetails result)
    /\ ((exists reportID, Option.reportID o = Some reportID /\ reportID <> 0)
        \/ (Option.reportID o = None /\ exists login, Option.login o = Some login)).
Proof.
  eexists. eexists.
  split; [vm_compute; reflexivity|].
  split; [vm_compute; left; reflexivity|].
  eapply (returned_options_have_identity onyx [annChat] people 0
            (config 0 "" false false false));
    [vm_compute; reflexivity | vm_compute; right; left; reflexivity].
Defined.

Lemma recentReports_distinct_logins_witness :
  exists result,
    getOptions onyx twoChatsWithAnn people 0 sidebar = OK result
    /\ map Option.reportID (Options.recentReports result) = [Some 3; Some 2]
    /\ NoDup (truthyLogins (Options.recentReports result)).
Proof.
  eexists.
  split; [vm_compute; reflexivity|].
  split; [vm_compute; reflexivity|].
  eapply (recentReports_distinct_logins onyx twoChatsWithAnn people 0 sidebar);
    [vm_compute; reflexivity | left; reflexivity].
Defined.

Lemma getOptions_returns_iff_witness :
  PlainLogins [annChat; announceRoom] people (Config.searchValue roomSearch)
  /\ exists result,
       getOptions onyx [annChat; announceRoom] people 0 roomSearch = OK result.
Proof.
  assert (H : PlainLogins [annChat; announceRoom] people (Config.searchValue roomSearch)).
  { repeat split; repeat constructor. }
  split; [exact H|].
  refine (proj2 (getOptions_returns_iff onyx [annChat; announceRoom] people 0
                   roomSearch _ H) _).
  - right. exists "me@x.com", []. split; reflexivity.
  - repeat (apply List.Forall_cons; [right; discriminate|]). apply List.Forall_nil.
Defined.

Lemma getNewChatOptions_recentReports_witness :
  exists result,
    getNewChatOptions onyx pinnedChats people [] "" [] ["d@x.com"] = OK result
    /\ (length (Options.recentReports result) <= 5)%nat
    /\ map Option.login (Options.recentReports result)
       = [Some "a@x.com"; Some "b@x.com"; Some "c@x.com"].
Proof.
  eexists.
  split; [vm_compute; reflexivity|].
  split; [|vm_compute; reflexivity].
  eapply (getNewChatOptions_recentReports onyx pinnedChats people [] "" [] ["d@x.com"]).
  vm_compute. reflexivity.
Defined.

Lemma getMemberInviteOptions_recentReports_witness :
  exists result,
    getMemberInviteOptions onyx people [] "" ["bob@x.com"] = OK result
    /\ Options.recentReports result = []
    /\ map Option.login (Options.personalDetails result) = [Some "ann@x.com"].
Proof.
  eexists.
  split; [vm_compute; reflexivity|].
  split; [|vm_compute; reflexivity].
  eapply (getMemberInviteOptions_recentReports onyx people [] "" ["bob@x.com"]).
  vm_compute. reflexivity.
Defined.

Lemma getSidebarOptions_recent_only_witness :
  exists result,
    getSidebarOptions onyx [annChat; announceRoom] people 0 "gsd" ["defaultRooms"] ∅
    = OK result
    /\ Options.personalDetails result = [].
Proof.
  eexists.
  split; [vm_compute; reflexivity|].
  eapply (getSidebarOptions_recent_only onyx [annChat; announceRoom] people 0 "gsd"
            ["defaultRooms"] ∅).
  vm_compute. reflexivity.
Defined.

Lemma getOptions_search_ranks_witness :
  exists result,
    getOptions onyx twoChatsWithAnn people 0 mergedSearch = OK result
    /\ Options.personalDetails result = []
    /\ map (searchRank mergedSearch) (Options.recentReports result) = [1; 3].
Proof.
  eexists.
  split; [vm_compute; reflexivity|].
  split; [|vm_compute; reflexivity].
  eapply (getOptions_search_ranks onyx twoChatsWithAnn people 0 mergedSearch);
    [vm_compute; reflexivity | reflexivity | discriminate].
Defined.

Lemma userToInvite_option_witness :
  exists result invite,
    getOptions onyx [] people 0 phoneSearch = OK result
    /\ Options.userToInvite result = Some invite
    /\ Option.login invite = Some "+15551234567".
Proof.
  eexists. eexists.
  split; [vm_compute; reflexivity|].
  split; [vm_compute; reflexivity|].
  edestruct (userToInvite_option onyx [] people 0 phoneSearch)
    as (login & Hlogin & _ & _ & _ & _ & _ & Hnew);
    [vm_compute; reflexivity | vm_compute; reflexivity |].
  rewrite Hnew; subst login; vm_compute; reflexivity.
Defined.

Lemma getHeaderMessage_cases_witness :
  (testDigits "123" = true -> digitsAndPlus "123" = true)
  /\ getHeaderMessage onyx 8 digitsAndPlus false false "123" false
     = "messages.errorMessageInvalidPhone".
Proof.
  assert (H : testDigits "123" = true -> digitsAndPlus "123" = true)
    by (intros _; reflexivity).
  split; [exact H|].
  rewrite (getHeaderMessage_cases onyx 8 digitsAndPlus false false "123" false H).
  reflexivity.
Defined.

Lemma candidates_follow_reports_witness :
  exists allReportOptions reportMapForLogins,
    buildReportOptions onyx sidebar people 0 (orderReports sidebar twoChatsWithAnn) ∅ []
    = OK (allReportOptions, reportMapForLogins)
    /\ map Option.reportID allReportOptions = [Some 3; Some 1; Some 2]
    /\ Forall2 (fun report o =>
                  createReportOption onyx sidebar people report = OK o
                  /\ Option.reportID o = Report.reportID report)
         (List.filter (fun r => negb (isReportExcluded onyx sidebar 0 r))
            (orderReports sidebar twoChatsWithAnn))
         allReportOptions.
Proof.
  eexists. eexists.
  split; [vm_compute; reflexivity|].
  split; [vm_compute; reflexivity|].
  eapply (candidates_follow_reports onyx sidebar people 0 twoChatsWithAnn).
  vm_compute. reflexivity.
Defined.

Lemma reportMapForLogins_last_wins_witness :
  exists allReportOptions reportMapForLogins,
    buildReportOptions onyx sidebar people 0 (orderReports sidebar twoChatsWithAnn) ∅ []
    = OK (allReportOptions, reportMapForLogins)
    /\ option_map Report.reportID (reportMapForLogins !! "ann@x.com") = Some (Some 1).
Proof.
  eexists. eexists.
  split; [vm_compute; reflexivity|].
  erewrite (reportMapForLogins_last_wins onyx sidebar people 0 twoChatsWithAnn);
    [|vm_compute; reflexivity].
  vm_compute. reflexivity.
Defined.

Lemma isSearchStringMatch_room_ignores_names_witness :
  isSearchStringMatch "ann" "Announce" {["ann"]} true = true
  /\ isSearchStringMatch "ann" "Announce" ∅ false = true.
Proof.
  assert (H : isSearchStringMatch "ann" "Announce" {["ann"]} true = true)
    by reflexivity.
  split; [exact H|].
  exact (proj2 (isSearchStringMatch_room_ignores_names "ann" "Announce" {["ann"]} ∅
                  false) H).
Defined.

Lemma addSMSDomainIfPhoneNumber_spec_witness :
  addSMSDomainIfPhoneNumber onyx "ann@x.com" = "ann@x.com"
  /\ Js.includes "+" (addSMSDomainIfPhoneNumber onyx "5551234567") = true.
Proof.
  split.
  - apply (proj1 (addSMSDomainIfPhoneNumber_spec onyx "ann@x.com")).
    right. reflexivity.
  - apply (proj2 (addSMSDomainIfPhoneNumber_spec onyx "5551234567"));
      reflexivity.
Defined.

